(** * tube-to-tube: the two route handlers and the presentation page

    A shallow embedding of
    - [src/app/api/download-video/route.ts]  (the download handler),
    - [src/app/api/collect-videos/route.ts]  (the listing handler),
    - [src/app/page.tsx]                     (the presentation page),
    followed by the properties of the handlers that the specification
    states, and by further properties that the code shows: of the file name,
    of the calls of the handlers, of the listeners that wire the streams, and
    of the page in front of the listing handler.

    JavaScript strings are sequences of UTF-16 code units; calls into the
    runtime and into third-party libraries are events of a small free monad,
    answered by an oracle, so that "what the handler asks of the outside
    world, and in which order" is a value one can compute with. *)

From Stdlib Require Import List String Ascii NArith ZArith Bool Lia DecimalString.
Import ListNotations.

Set Implicit Arguments.

(* ================================================================== *)
(** ** JavaScript strings *)
(* ================================================================== *)

Module JS.

(** A string is the list of its UTF-16 code units. *)
Definition code_unit := N.
Definition jsstring := list code_unit.

(** ASCII literals of the source. *)
Definition lit (s : string) : jsstring :=
  map N_of_ascii (list_ascii_of_string s).

Definition dquote : jsstring := [34%N].

(** [a === b] on strings. *)
Fixpoint jsstring_eqb (a b : jsstring) : bool :=
  match a, b with
  | [], [] => true
  | x :: a', y :: b' => N.eqb x y && jsstring_eqb a' b'
  | _, _ => false
  end.

(** [needle] is a prefix of [s]. *)
Fixpoint startsWith (s needle : jsstring) : bool :=
  match needle, s with
  | [], _ => true
  | _ :: _, [] => false
  | n :: needle', c :: s' => N.eqb n c && startsWith s' needle'
  end.

(** [String.prototype.includes]: [needle] occurs in [s] as a contiguous
    run of code units. *)
Fixpoint includes (s needle : jsstring) : bool :=
  startsWith s needle ||
  match s with
  | [] => false
  | _ :: s' => includes s' needle
  end.

(** [String.prototype.substring(0, n)]. *)
Definition substring0 (n : nat) (s : jsstring) : jsstring := firstn n s.

(** A string in a boolean position: only the empty string is falsy. *)
Definition truthy (s : jsstring) : bool :=
  match s with [] => false | _ :: _ => true end.

(** [x || d] for a possibly undefined (or null) string [x]. *)
Definition or_else (x : option jsstring) (d : jsstring) : jsstring :=
  match x with
  | Some s => if truthy s then s else d
  | None => d
  end.

(** [!x] for a possibly undefined (or null) string [x]. *)
Definition falsy (x : option jsstring) : bool :=
  match x with
  | Some s => negb (truthy s)
  | None => true
  end.

(** *** The two character classes of the file-name pattern *)

Definition between (lo hi c : N) : bool := N.leb lo c && N.leb c hi.

(** [\w]: [A-Za-z0-9_]. *)
Definition is_word (c : code_unit) : bool :=
  between 65 90 c || between 97 122 c || between 48 57 c || N.eqb c 95.

(** [\s]: the white space and line terminator code units of ECMAScript
    (TAB, LF, VT, FF, CR, SP, NBSP, U+1680, U+2000..U+200A, U+2028, U+2029,
    U+202F, U+205F, U+3000, U+FEFF). *)
Definition is_space (c : code_unit) : bool :=
  between 9 13 c || N.eqb c 32 || N.eqb c 160 || N.eqb c 5760 ||
  between 8192 8202 c || N.eqb c 8232 || N.eqb c 8233 || N.eqb c 8239 ||
  N.eqb c 8287 || N.eqb c 12288 || N.eqb c 65279.

Definition underscore : code_unit := 95%N.
Definition hyphen : code_unit := 45%N.
Definition dot : code_unit := 46%N.

(** The class [[^\w\s\-\.]]. *)
Definition is_unsafe (c : code_unit) : bool :=
  negb (is_word c || is_space c || N.eqb c hyphen || N.eqb c dot).

(** [.replace(/[^\w\s\-\.]/g, '_')]: the pattern has no [u] flag, so it
    runs over code units, one at a time. *)
Definition replace_unsafe (s : jsstring) : jsstring :=
  map (fun c => if is_unsafe c then underscore else c) s.

(** [.replace(/\s+/g, '_')]: every maximal run of white space becomes one
    underscore.  [replace_spaces] scans outside a run, [skip_spaces] inside
    one, after its underscore has been written. *)
Fixpoint replace_spaces (s : jsstring) : jsstring :=
  match s with
  | [] => []
  | c :: s' =>
      if is_space c then underscore :: skip_spaces s'
      else c :: replace_spaces s'
  end
with skip_spaces (s : jsstring) : jsstring :=
  match s with
  | [] => []
  | c :: s' =>
      if is_space c then skip_spaces s'
      else c :: replace_spaces s'
  end.

End JS.
Import JS.

(* ================================================================== *)
(** ** Calls to the outside world *)
(* ================================================================== *)

(** The handlers are thin: almost every line is a call into the runtime or
    a library.  A handler is therefore a tree: it returns, or it performs a
    call and continues with the answer. *)

Record signature := { op : Type; res : op -> Type }.

Inductive prog (S : signature) (R : Type) : Type :=
| Ret (r : R)
| Call (e : op S) (k : res S e -> prog S R).

Arguments Ret {S R} r.
Arguments Call {S R} e k.

Fixpoint bind {S A B} (p : prog S A) (f : A -> prog S B) : prog S B :=
  match p with
  | Ret a => f a
  | Call e k => Call e (fun x => bind (k x) f)
  end.

Definition call {S} (e : op S) : prog S (res S e) := Call e (fun x => Ret x).

(** What a call that may throw gives back. *)
Inductive outcome (E A : Type) : Type :=
| Returned (a : A)
| Threw (err : E).

Arguments Returned {E A} a.
Arguments Threw {E A} err.

(** Sequencing inside a [try] block: the first throw ends the block. *)
Definition bind_try {S E A B} (p : prog S (outcome E A))
           (f : A -> prog S (outcome E B)) : prog S (outcome E B) :=
  bind p (fun r => match r with
                   | Returned a => f a
                   | Threw err => Ret (Threw err)
                   end).

(** [try { body } catch (err) { handler }]. *)
Definition try_catch {S E R} (body : prog S (outcome E R))
           (handler : E -> prog S R) : prog S R :=
  bind body (fun r => match r with
                      | Returned a => Ret a
                      | Threw err => handler err
                      end).

Declare Scope prog_scope.
Delimit Scope prog_scope with prog.
Notation "x <- c ;; k" := (bind c (fun x => k))
  (at level 61, c at next level, right associativity) : prog_scope.
Notation "c ;; k" := (bind c (fun _ => k))
  (at level 61, right associativity) : prog_scope.
Notation "x <-? c ;; k" := (bind_try c (fun x => k))
  (at level 61, c at next level, right associativity) : prog_scope.

(** The outside world answers every call.  No handler asks twice for
    something that has an answer to give, so an answer may depend on the call
    alone. *)
Definition oracle (S : signature) := forall e : op S, res S e.

(** Running a handler against a world: its result and the calls it made,
    in order. *)
Fixpoint run {S R} (w : oracle S) (p : prog S R) : R * list (op S) :=
  match p with
  | Ret r => (r, [])
  | Call e k => let (r, t) := run w (k (w e)) in (r, e :: t)
  end.

Definition result {S R} (w : oracle S) (p : prog S R) : R := fst (run w p).
Definition trace {S R} (w : oracle S) (p : prog S R) : list (op S) := snd (run w p).


(* ================================================================== *)
(** ** The download handler: [src/app/api/download-video/route.ts] *)
(* ================================================================== *)

Module Download.

(** *** The request *)

(** [request.nextUrl.searchParams]: the query string, in order. *)
Record NextRequest := { searchParams : list (jsstring * jsstring) }.

(** [URLSearchParams.get]: the first value of the name, or null. *)
Fixpoint searchParams_get (ps : list (jsstring * jsstring)) (name : jsstring)
  : option jsstring :=
  match ps with
  | [] => None
  | (n, v) :: ps' => if jsstring_eqb n name then Some v else searchParams_get ps' name
  end.

(** *** What the libraries hand back *)

(** [info.videoDetails.title]. *)
Record videoInfo := { videoDetails_title : option jsstring }.

(** A library object the handler holds on to: the source stream, the
    pass-through, the transcoding command.  [functions] are the properties
    for which [typeof o.p === 'function']. *)
Record object := { oid : N; functions : list string }.

Definition is_function (o : object) (p : string) : bool :=
  existsb (String.eqb p) (functions o).

Record videoFormat := { container : jsstring; hasAudio : bool; hasVideo : bool }.
Record downloadOptions := { quality : jsstring; filter : videoFormat -> bool }.

(** A thrown value, as far as the [catch] block looks at it: whether it is
    truthy, and what reading [.message] gives. *)
Inductive message_prop :=
| MessageString (s : jsstring)      (* typeof message === 'string' *)
| MessageOther (printed : jsstring) (* truthy, not a string; JSON.stringify of it, as the template prints it *)
| MessageFalsy.                     (* undefined, null, 0, NaN, false *)

Inductive thrown :=
| ThrownFalsy                       (* throw null, undefined, 0, '', false *)
| ThrownTruthy (message : message_prop).

(** The closures registered as listeners, named by what they do; each
    carries what it captures. *)
Inductive listener :=
| log_readable (videoId : jsstring)
| log_first_chunk (videoId : jsstring)
| log_stream_error (videoId : jsstring)
| log_start (videoId : jsstring)
| log_codecData (videoId : jsstring)
| log_progress (videoId : jsstring)
| report_ffmpeg_error (videoId : jsstring) (output : object)
| log_end (videoId : jsstring)
| enqueue_chunk
| close_controller (videoId : jsstring)
| error_controller (videoId : jsstring)
| forward_stream_error (output : object).

Inductive level := log | warn | error.

(** *** The calls the handler makes *)

Inductive dl_op :=
| console (l : level) (text : jsstring)
| ytdl_getInfo (url : jsstring)
| ytdl (url : jsstring) (options : downloadOptions)
| once (target : object) (event : string) (f : listener)
| on (target : object) (event : string) (f : listener)
| new_PassThrough
| ffmpeg (input : object)
| setStartTime (command : object) (seek : jsstring)
| setDuration (command : object) (seconds : Z)
| toFormat (command : object) (format : jsstring)
| outputOptions (command : object) (options : list jsstring)
| pipe (command : object) (output : object) (end_ : bool)
| destroy (target : object)
| kill (command : object) (signal : jsstring).

(** [getInfo] is awaited and may reject; the constructors and [pipe] may
    throw; the setters of the command return the command itself and listener
    registration returns its target, so the chain goes on with the same
    object. *)
Definition dl_res (e : dl_op) : Type :=
  match e with
  | ytdl_getInfo _ => outcome thrown videoInfo
  | ytdl _ _ => outcome thrown object
  | new_PassThrough => object
  | ffmpeg _ => outcome thrown object
  | pipe _ _ _ => outcome thrown unit
  | _ => unit
  end.

Definition dl : signature := {| op := dl_op; res := dl_res |}.

(** The calls that configure a transcoding command. *)
Definition is_setting (e : dl_op) : bool :=
  match e with
  | setStartTime _ _ | setDuration _ _ | toFormat _ _ | outputOptions _ _ => true
  | _ => false
  end.

Definition do_ (e : dl_op) : prog dl (dl_res e) := @call dl e.

(** *** The response *)

(** The [ReadableStream] handed to the response: [start] has run when the
    constructor returns, [cancel] is kept for later. *)
Record ReadableStream := { cancel : prog dl unit }.

Inductive body :=
| json (error_ : jsstring) (videoId : option jsstring)   (* { error, videoId } *)
| streaming (s : ReadableStream).

(** [headers] are the headers that the handler sets itself. *)
Record NextResponse := {
  status : Z;
  headers : list (jsstring * jsstring);
  response_body : body
}.

(** [NextResponse.json(data, { status })]. *)
Definition NextResponse_json (error_ : jsstring) (videoId : option jsstring)
           (statusCode : Z) : NextResponse :=
  {| status := statusCode; headers := []; response_body := json error_ videoId |}.

(** [new NextResponse(stream, { headers })]. *)
Definition NextResponse_new (s : ReadableStream) (hs : list (jsstring * jsstring))
  : NextResponse :=
  {| status := 200; headers := hs; response_body := streaming s |}.

(** [Headers.set]: replaces the value of a name already there, appends
    otherwise. *)
Fixpoint Headers_set (hs : list (jsstring * jsstring)) (name value : jsstring)
  : list (jsstring * jsstring) :=
  match hs with
  | [] => [(name, value)]
  | (n, v) :: hs' =>
      if jsstring_eqb n name then (n, value) :: hs'
      else (n, v) :: Headers_set hs' name value
  end.

(** *** The file name *)

Definition sanitizedFilenameBase (videoTitle : jsstring) : jsstring :=
  substring0 100 (replace_spaces (replace_unsafe videoTitle)).

Definition filename (info : videoInfo) : jsstring :=
  let videoTitle := or_else (videoDetails_title info) (lit "youtube_video") in
  sanitizedFilenameBase videoTitle ++ lit "_trimmed_30s.mp4".

Definition response_headers (info : videoInfo) : list (jsstring * jsstring) :=
  let headers := [] in
  let headers := Headers_set headers (lit "Content-Type") (lit "video/mp4") in
  Headers_set headers (lit "Content-Disposition")
              (lit "attachment; filename=" ++ dquote ++ filename info ++ dquote).

(** *** Cancellation *)

Definition when_ (b : bool) (p : prog dl unit) : prog dl unit :=
  if b then p else Ret tt.

Definition cancel_callback (videoId : jsstring)
           (videoStreamNode ffmpegOutputPassThrough ffmpegCommand : object)
  : prog dl unit :=
  (do_ (console log (lit "ReadableStream cancelled for videoId " ++ videoId ++
                     lit ". Destroying streams and FFmpeg process.")) ;;
   when_ (is_function videoStreamNode "destroy")
         (do_ (destroy videoStreamNode)) ;;
   when_ (is_function ffmpegOutputPassThrough "destroy")
         (do_ (destroy ffmpegOutputPassThrough)) ;;
   when_ (is_function ffmpegCommand "kill")
         (do_ (kill ffmpegCommand (lit "SIGKILL")) ;;
          do_ (console log (lit "FFmpeg process killed for videoId " ++ videoId ++ lit "."))))%prog.

(** *** The handler *)

Definition mp4_with_audio_and_video (format : videoFormat) : bool :=
  jsstring_eqb (container format) (lit "mp4") && hasAudio format && hasVideo format.

(** The pattern of the last test of the [catch] block, as the source file
    has it: [confirm you], U+00E2, U+20AC, U+2122, [re not a bot]. *)
Definition confirm_not_a_bot : jsstring :=
  lit "confirm you" ++ [226; 8364; 8482]%N ++ lit "re not a bot".

Definition videoUrl (videoId : jsstring) : jsstring :=
  lit "https://www.youtube.com/watch?v=" ++ videoId.

(** [request.nextUrl.searchParams.get('videoId')]. *)
Definition videoId_of (request : NextRequest) : option jsstring :=
  searchParams_get (searchParams request) (lit "videoId").

Section Handler.

(** [ytdl.validateID] and [String.prototype.toLowerCase] are not of this
    repository. *)
Variable validateID : jsstring -> bool.
Variable toLowerCase : jsstring -> jsstring.

Definition try_block (videoId : jsstring) : prog dl (outcome thrown NextResponse) :=
  (let videoUrl := videoUrl videoId in
   info <-? do_ (ytdl_getInfo videoUrl) ;;
   let headers := response_headers info in
   videoStreamNode <-? do_ (ytdl videoUrl {| quality := lit "highestvideo";
                                             filter := mp4_with_audio_and_video |}) ;;
   do_ (once videoStreamNode "readable" (log_readable videoId)) ;;
   do_ (once videoStreamNode "data" (log_first_chunk videoId)) ;;
   do_ (on videoStreamNode "error" (log_stream_error videoId)) ;;
   ffmpegOutputPassThrough <- do_ new_PassThrough ;;
   ffmpegCommand <-? do_ (ffmpeg videoStreamNode) ;;
   do_ (setStartTime ffmpegCommand (lit "00:00:00")) ;;
   do_ (setDuration ffmpegCommand 30) ;;
   do_ (toFormat ffmpegCommand (lit "mp4")) ;;
   do_ (outputOptions ffmpegCommand
          [lit "-movflags frag_keyframe+empty_moov";
           lit "-preset ultrafast";
           lit "-tune zerolatency"]) ;;
   do_ (on ffmpegCommand "start" (log_start videoId)) ;;
   do_ (on ffmpegCommand "codecData" (log_codecData videoId)) ;;
   do_ (on ffmpegCommand "progress" (log_progress videoId)) ;;
   do_ (on ffmpegCommand "error" (report_ffmpeg_error videoId ffmpegOutputPassThrough)) ;;
   do_ (on ffmpegCommand "end" (log_end videoId)) ;;
   _ <-? do_ (pipe ffmpegCommand ffmpegOutputPassThrough true) ;;
   (* new ReadableStream({ start, cancel }): start runs at once *)
   do_ (on ffmpegOutputPassThrough "data" enqueue_chunk) ;;
   do_ (on ffmpegOutputPassThrough "end" (close_controller videoId)) ;;
   do_ (on ffmpegOutputPassThrough "error" (error_controller videoId)) ;;
   do_ (on videoStreamNode "error" (forward_stream_error ffmpegOutputPassThrough)) ;;
   let readableWebStream :=
     {| cancel := cancel_callback videoId videoStreamNode
                                  ffmpegOutputPassThrough ffmpegCommand |} in
   Ret (Returned (NextResponse_new readableWebStream headers)))%prog.

(** The [if / else if] chain of the [catch] block on a string message: the
    status code, the message of the body, and whether the detailed line is
    logged. *)
Definition classify (videoId message : jsstring) : Z * jsstring * bool :=
  let ytdlErrorMessage := toLowerCase message in
  if includes ytdlErrorMessage (lit "unavailable")
     || includes ytdlErrorMessage (lit "private")
     || includes ytdlErrorMessage (lit "video not found")
  then (404%Z, lit "Video is unavailable, private, or not found.", false)
  else if includes ytdlErrorMessage (lit "extract function")
          || includes ytdlErrorMessage (lit "cipher")
          || includes ytdlErrorMessage (lit "signature")
  then (503%Z,
        lit "Error processing YouTube video: " ++ message ++
        lit ". This often indicates an issue with YouTube's current video delivery mechanism or that the 'ytdl-core' library needs an update to adapt to recent YouTube changes. Please check the ytdl-core GitHub repository for known issues.",
        true)
  else if includes ytdlErrorMessage (lit "no formats found matching quality")
          || includes ytdlErrorMessage (lit "no such format found")
  then (422%Z,
        lit "Could not find a suitable MP4 format with both video and audio for videoId " ++
        videoId ++
        lit ". The video might only offer separate streams. Error: " ++ message,
        false)
  else if includes ytdlErrorMessage (lit "sign in to confirm")
          || includes ytdlErrorMessage confirm_not_a_bot
  then (403%Z,
        lit "YouTube requires verification to access this video. This may be due to bot detection. Please try again later or from a different network. Original error: " ++ message,
        false)
  else (500%Z, message, false).

Definition catch_block (videoId : jsstring) (err : thrown) : prog dl NextResponse :=
  (do_ (console error (lit "Error downloading video for videoId " ++ videoId ++ lit ":")) ;;
   match err with
   | ThrownTruthy (MessageString message) =>
       let '(statusCode, errorMessage, detailed) := classify videoId message in
       when_ detailed
             (do_ (console error (lit "Detailed ytdl-core error for videoId " ++ videoId ++
                                  lit ": " ++ message))) ;;
       Ret (NextResponse_json errorMessage (Some videoId) statusCode)
   | ThrownTruthy (MessageOther printed) =>
       Ret (NextResponse_json (lit "An unexpected error occurred: " ++ printed)
                              (Some videoId) 500)
   | _ =>
       Ret (NextResponse_json
              (lit "An unknown error occurred while trying to download the video.")
              (Some videoId) 500)
   end)%prog.

(** The branch of [if (!videoId)]. *)
Definition videoId_required : NextResponse :=
  NextResponse_json (lit "videoId query parameter is required") None 400.

Definition GET (request : NextRequest) : prog dl NextResponse :=
  let videoId := videoId_of request in
  match videoId with
  | Some id =>
      if negb (truthy id) then Ret videoId_required
      else if negb (validateID id) then
        Ret (NextResponse_json (lit "Invalid YouTube video ID") videoId 400)
      else
        try_catch (try_block id) (catch_block id)
  | None => Ret videoId_required
  end.

End Handler.

(** *** The calls of a setup in which nothing throws

    In order: resolve, open the source, create the output, build and
    configure the command, pipe, wire the response stream. *)
Definition setup_calls (id : jsstring) (source output command : object) : list dl_op :=
  [ytdl_getInfo (videoUrl id);
   ytdl (videoUrl id) {| quality := lit "highestvideo"; filter := mp4_with_audio_and_video |};
   once source "readable" (log_readable id);
   once source "data" (log_first_chunk id);
   on source "error" (log_stream_error id);
   new_PassThrough;
   ffmpeg source;
   setStartTime command (lit "00:00:00");
   setDuration command 30;
   toFormat command (lit "mp4");
   outputOptions command [lit "-movflags frag_keyframe+empty_moov";
                          lit "-preset ultrafast";
                          lit "-tune zerolatency"];
   on command "start" (log_start id);
   on command "codecData" (log_codecData id);
   on command "progress" (log_progress id);
   on command "error" (report_ffmpeg_error id output);
   on command "end" (log_end id);
   pipe command output true;
   on output "data" enqueue_chunk;
   on output "end" (close_controller id);
   on output "error" (error_controller id);
   on source "error" (forward_stream_error output)].

(** *** Concrete stand-ins, for examples *)

(** Lower-casing of the letters A to Z; on strings whose other code units
    have no lower-case form it is what [toLowerCase] computes. *)
Definition ascii_toLowerCase (s : jsstring) : jsstring :=
  map (fun c => if between 65 90 c then (c + 32)%N else c) s.

(** Identifiers are eleven characters among letters, digits, [-] and [_]. *)
Definition idRegex_test (id : jsstring) : bool :=
  Nat.eqb (List.length id) 11 &&
  forallb (fun c => is_word c || N.eqb c hyphen) id.

End Download.

(* ================================================================== *)
(** ** The items of a search result *)
(* ================================================================== *)

(** [YouTubeVideoItem], declared alike by the listing handler and by the
    page: every level is optional. *)
Module Item.

Record medium_thumbnail := {
  url : option jsstring;
  width : option Z;
  height : option Z
}.

Record thumbnails_of := { medium : option medium_thumbnail }.

Record snippet_of := {
  title : option jsstring;
  thumbnails : option thumbnails_of
}.

Record id_of := { videoId : option jsstring }.

Record YouTubeVideoItem := {
  id : option id_of;
  snippet : option snippet_of
}.

End Item.

(* ================================================================== *)
(** ** The listing handler: [src/app/api/collect-videos/route.ts] *)
(* ================================================================== *)

Module Listing.
Import Item.

(** [google.youtube({ version, auth })]. *)
Record youtube_client := { version : jsstring; auth : jsstring }.

Record search_params := {
  part : list jsstring;
  q : jsstring;
  type : list jsstring;
  maxResults : Z
}.

(** [response.data.items]. *)
Record search_response := { data_items : option (list YouTubeVideoItem) }.

(** What the [catch] block reads of a thrown value that is neither null
    nor undefined: [response_data_error] is there when [error.response],
    [error.response.data] and [error.response.data.error] are all truthy and
    holds [error.response.data.error.message]; [message] is
    [error.message]. *)
Record client_error := {
  response_data_error : option (option jsstring);
  message : option jsstring
}.

(** What the search call rejects with: the [catch] block takes it as
    [any] and reads [error.response] without a test, which null and
    undefined do not allow. *)
Inductive thrown :=
| null_or_undefined
| thrown_value (err : client_error).

(** Reading a property of null or of undefined. *)
Inductive TypeError := cannot_read_properties.

Inductive level := log | warn | error.

Inductive ls_op :=
| console (l : level) (text : jsstring)
| search_list (youtube : youtube_client) (params : search_params).

Definition ls_res (e : ls_op) : Type :=
  match e with
  | console _ _ => unit
  | search_list _ _ => outcome thrown search_response
  end.

Definition ls : signature := {| op := ls_op; res := ls_res |}.

Definition do_ (e : ls_op) : prog ls (ls_res e) := @call ls e.

Inductive body :=
| videos_json (videos : list YouTubeVideoItem)
| message_json (message_ : jsstring) (error_ : option jsstring).

Record NextResponse := { status : Z; response_body : body }.

(** [NextResponse.json(data)] answers 200 unless a status is given. *)
Definition NextResponse_json (b : body) (statusCode : option Z) : NextResponse :=
  {| status := match statusCode with Some s => s | None => 200 end;
     response_body := b |}.

Definition is_search (e : ls_op) : bool :=
  match e with
  | search_list _ _ => true
  | console _ _ => false
  end.

Definition try_block (apiKey : jsstring) : prog ls (outcome thrown NextResponse) :=
  (let youtube := {| version := lit "v3"; auth := apiKey |} in
   let params := {| part := [lit "snippet"];
                    q := lit "talk about money";
                    type := [lit "video"];
                    maxResults := 10 |} in
   response <-? do_ (search_list youtube params) ;;
   let videos := match data_items response with
                 | Some items => items
                 | None => []
                 end in
   Ret (Returned (NextResponse_json (videos_json videos) None)))%prog.

(** The [catch] block: it answers, or throws in its turn when
    [error.response] cannot be read. *)
Definition catch_block (err : thrown) : prog ls (outcome TypeError NextResponse) :=
  (do_ (console error (lit "Error fetching YouTube videos in API route:")) ;;
   let errorMessage := lit "Failed to fetch videos from YouTube." in
   match err with
   | null_or_undefined => Ret (Threw cannot_read_properties)
   | thrown_value err =>
       let errorMessage :=
         match response_data_error err with
         | Some api_message => or_else api_message errorMessage
         | None => or_else (message err) errorMessage
         end in
       Ret (Returned
              (NextResponse_json
                 (message_json (lit "Error fetching videos from YouTube API.")
                               (Some errorMessage))
                 (Some 500%Z)))
   end)%prog.

(** The branch of [if (!apiKey)]. *)
Definition not_configured : prog ls NextResponse :=
  (do_ (console warn (lit "YouTube API Key not found in /api/collect-videos.")) ;;
   Ret (NextResponse_json
          (message_json (lit "YouTube API Key is not configured on the server.") None)
          (Some 500%Z)))%prog.

(** [apiKey] is [process.env.YOUTUBE_API_KEY]: undefined when the variable
    is not set, and falsy also when it is set to the empty string.  The
    handler returns its answer, or throws what its [catch] block throws. *)
Definition GET (apiKey : option jsstring) : prog ls (outcome TypeError NextResponse) :=
  match apiKey with
  | Some key =>
      if negb (truthy key) then (answer <- not_configured ;; Ret (Returned answer))%prog
      else try_catch (answer <-? try_block key ;; Ret (Returned (Returned answer)))%prog
                     catch_block
  | None => (answer <- not_configured ;; Ret (Returned answer))%prog
  end.

End Listing.

(* ================================================================== *)
(** ** The presentation page: [src/app/page.tsx] *)
(* ================================================================== *)

Module Page.
Import Item.

(** *** Fetching *)

(** A JSON value, as [await response.json()] gives it for a response that
    is not [ok].  Of a number the page looks at two things only: whether it
    is zero, and what [String] prints for it. *)
#[local] Set Warnings "-register-all".
Inductive json_value :=
| JNull
| JBool (b : bool)
| JNumber (zero : bool) (printed : jsstring)
| JString (s : jsstring)
| JArray (elements : list json_value)
| JObject (members : list (jsstring * json_value)).
#[local] Set Warnings "register-all".

(** A value in a boolean position. *)
Definition truthy_value (v : json_value) : bool :=
  match v with
  | JNull => false
  | JBool b => b
  | JNumber zero _ => negb zero
  | JString s => truthy s
  | JArray _ | JObject _ => true
  end.

(** [o.p] on a value that is not null: the member of an object (the last
    one of that name, as [JSON.parse] keeps it), undefined on anything
    else. *)
Fixpoint member (members : list (jsstring * json_value)) (p : jsstring)
  : option json_value :=
  match members with
  | [] => None
  | (n, v) :: rest =>
      match member rest p with
      | Some later => Some later
      | None => if jsstring_eqb n p then Some v else None
      end
  end.

Definition property (v : json_value) (p : jsstring) : option json_value :=
  match v with
  | JObject members => member members p
  | _ => None
  end.

(** [String(v)]: an array prints its elements separated by commas, null
    elements as nothing; an object prints as [[object Object]], unless it has
    a member [toString] of its own, which is not a function: then there is
    no string and a TypeError is thrown ([None]). *)
Fixpoint String_ (v : json_value) : option jsstring :=
  match v with
  | JNull => Some (lit "null")
  | JBool true => Some (lit "true")
  | JBool false => Some (lit "false")
  | JNumber _ printed => Some printed
  | JString s => Some s
  | JArray elements =>
      (fix join (l : list json_value) : option jsstring :=
         match l with
         | [] => Some []
         | x :: l' =>
             match match x with JNull => Some [] | _ => String_ x end with
             | None => None
             | Some first =>
                 match l' with
                 | [] => Some first
                 | _ :: _ =>
                     match join l' with
                     | None => None
                     | Some others => Some (first ++ lit "," ++ others)
                     end
                 end
             end
         end) elements
  | JObject members =>
      match member members (lit "toString") with
      | Some _ => None
      | None => Some (lit "[object Object]")
      end
  end.

(** [a || b] on possibly undefined values. *)
Definition value_or (a : option json_value) (b : json_value) : json_value :=
  match a with
  | Some v => if truthy_value v then v else b
  | None => b
  end.

(** [!a] for a possibly undefined value. *)
Definition falsy_value (a : option json_value) : bool :=
  match a with
  | Some v => negb (truthy_value v)
  | None => true
  end.

(** A value caught by a [catch]: an [Error] with its message, or something
    else. *)
Inductive thrown :=
| Error (message_ : jsstring)
| not_an_Error.

(** What [throw new Error(v)] throws: an [Error] whose message is
    [String(v)], or the TypeError of [String(v)], which is an [Error] too. *)
Definition throw_new_Error (v : json_value) : thrown :=
  match String_ v with
  | Some message_ => Error message_
  | None => Error (lit "Cannot convert object to primitive value")
  end.

(** The response of [fetch], with what [await response.json()] gives.  The
    body of an [ok] response is assigned to [videos] as it is, on the
    assumption, written next to the assignment, that the API returns
    [YouTubeVideoItem[]] directly: it is a list of items, which is what the
    listing handler of the repository sends under the status 200
    ([Site.over_the_wire]).  The body of a response that is not [ok] is read
    member by member, whatever it is: it is any JSON value, and [None] when
    it cannot be read as JSON, for what [response.json()] throws then is
    caught and dropped. *)
Inductive Response :=
| ok_response (json : outcome thrown (list YouTubeVideoItem))
| failed_response (status : Z) (json : option json_value).

Inductive level := log | warn | error.

Inductive pg_op :=
| console (l : level) (text : jsstring)
| fetch (url : jsstring) (cache : jsstring).

Definition pg_res (e : pg_op) : Type :=
  match e with
  | console _ _ => unit
  | fetch _ _ => outcome thrown Response
  end.

Definition pg : signature := {| op := pg_op; res := pg_res |}.

Definition do_ (e : pg_op) : prog pg (pg_res e) := @call pg e.

(** A status in a template literal. *)
Definition print_status (status : Z) : jsstring :=
  lit (NilZero.string_of_int (Z.to_int status)).

(** The [try] block of [Home]: the list of videos, or what was thrown. *)
Definition try_block (NEXT_PUBLIC_APP_URL : option jsstring)
  : prog pg (outcome thrown (list YouTubeVideoItem)) :=
  (let appUrl := or_else NEXT_PUBLIC_APP_URL (lit "http://localhost:3000") in
   response <-? do_ (fetch (appUrl ++ lit "/api/collect-videos") (lit "no-store")) ;;
   match response with
   | failed_response status json =>
       let errorMessage :=
         JString (lit "API request failed with status " ++ print_status status) in
       let errorMessage :=
         match json with
         | Some JNull => errorMessage     (* reading a property of null throws *)
         | Some errorData =>
             value_or (property errorData (lit "message"))
                      (value_or (property errorData (lit "error")) errorMessage)
         | None => errorMessage
         end in
       Ret (Threw (throw_new_Error errorMessage))
   | ok_response json =>
       videos <-? Ret json ;;
       do_ (console log (lit "Fetched Videos from API:")) ;;
       Ret (Returned videos)
   end)%prog.

(** [videos] and [fetchError] when the [try] statement is over. *)
Definition fetch_videos (NEXT_PUBLIC_APP_URL : option jsstring)
  : prog pg (list YouTubeVideoItem * option jsstring) :=
  try_catch
    (r <-? try_block NEXT_PUBLIC_APP_URL ;; Ret (Returned (r, None)))%prog
    (fun err =>
       do_ (console error (lit "Error fetching videos from /api/collect-videos:")) ;;
       let fetchError :=
         match err with
         | Error message_ => message_
         | not_an_Error => lit "An unknown error occurred while fetching videos."
         end in
       Ret ([], Some fetchError))%prog.

(** *** Rendering *)

(** [o?.p]. *)
Definition opt {A B} (o : option A) (p : A -> option B) : option B :=
  match o with
  | Some a => p a
  | None => None
  end.

(** [o.p]: a TypeError when [o] is undefined. *)
Inductive TypeError := cannot_read_properties_of_undefined.

Definition dot {A B} (o : option A) (p : A -> B) : outcome TypeError B :=
  match o with
  | Some a => Returned (p a)
  | None => Threw cannot_read_properties_of_undefined
  end.

(** [n || d] for a possibly undefined number. *)
Definition number_or (n : option Z) (d : Z) : Z :=
  match n with
  | Some z => if Z.eqb z 0 then d else z
  | None => d
  end.

(** The [Image] inside a card. *)
Record image := {
  src : jsstring;
  alt : jsstring;
  image_width : Z;
  image_height : Z
}.

(** A card of the grid: the link, its image, its heading. *)
Record card := {
  key : option jsstring;
  href : jsstring;
  thumbnail : option image;
  heading_title : option jsstring;
  heading : option jsstring
}.

(** The callback of [videos.map]: [None] is [return null]. *)
Definition render_video (video : YouTubeVideoItem) : outcome TypeError (option card) :=
  let videoId := opt (id video) videoId in
  let videoUrl :=
    match videoId with
    | Some v => if truthy v then lit "https://www.youtube.com/watch?v=" ++ v else lit "#"
    | None => lit "#"
    end in
  let thumbnailUrl := opt (opt (opt (snippet video) thumbnails) medium) url in
  let thumbnailWidth := number_or (opt (opt (opt (snippet video) thumbnails) medium) width) 320 in
  let thumbnailHeight := number_or (opt (opt (opt (snippet video) thumbnails) medium) height) 180 in
  if falsy videoId || falsy (opt (snippet video) title) || falsy thumbnailUrl then
    Returned None
  else
    match dot (snippet video) title with
    | Threw e => Threw e
    | Returned video_snippet_title =>
        Returned (Some
          {| key := videoId;
             href := videoUrl;
             thumbnail :=
               match thumbnailUrl with
               | Some u =>
                   if truthy u then
                     Some {| src := u;
                             alt := or_else video_snippet_title (lit "Video thumbnail");
                             image_width := thumbnailWidth;
                             image_height := thumbnailHeight |}
                   else None
               | None => None
               end;
             heading_title := video_snippet_title;
             heading := video_snippet_title |})
    end.

(** [videos.map(...)]: the first callback that throws ends the rendering. *)
Fixpoint render_videos (videos : list YouTubeVideoItem)
  : outcome TypeError (list (option card)) :=
  match videos with
  | [] => Returned []
  | video :: rest =>
      match render_video video with
      | Threw e => Threw e
      | Returned c =>
          match render_videos rest with
          | Threw e => Threw e
          | Returned cs => Returned (c :: cs)
          end
      end
  end.

(** The three conditional children of [main], after the heading. *)
Inductive section :=
| video_grid (cards : list (option card))
| paragraph (text : jsstring).

Definition is_grid (s : section) : bool :=
  match s with video_grid _ => true | paragraph _ => false end.

(** [cond && (<element/>)]: nothing is rendered for a falsy [cond]. *)
Definition shown (cond : bool) (s : section) : list section :=
  if cond then [s] else [].

Definition render (videos : list YouTubeVideoItem) (fetchError : option jsstring)
  : outcome TypeError (list section) :=
  let grid :=
    if falsy fetchError && (0 <? Z.of_nat (List.length videos))%Z then
      match render_videos videos with
      | Threw e => Threw e
      | Returned cards => Returned [video_grid cards]
      end
    else Returned [] in
  match grid with
  | Threw e => Threw e
  | Returned grid =>
      Returned
        (grid ++
         shown (falsy fetchError && (Z.of_nat (List.length videos) =? 0)%Z)
               (paragraph (lit "No videos found.")) ++
         shown (negb (falsy fetchError))
               (paragraph (lit "Error: " ++ or_else fetchError [])))
  end.

Definition Home (NEXT_PUBLIC_APP_URL : option jsstring)
  : prog pg (outcome TypeError (list section)) :=
  (fetched <- fetch_videos NEXT_PUBLIC_APP_URL ;;
   let '(videos, fetchError) := fetched in
   Ret (render videos fetchError))%prog.

End Page.

(* ================================================================== *)
(** ** The wording of the specification *)
(* ================================================================== *)

(** Definitions that follow the sentences of the specification rather
    than the code; the theorems compare the handlers with them. *)
Module Spec.

(** "Replacing every character that is not a word character, whitespace,
    hyphen, or dot with '_'": position by position. *)
Definition kept (c : code_unit) : bool :=
  is_word c || is_space c || N.eqb c hyphen || N.eqb c JS.dot.

Definition unsafe_replaced (title cleaned : jsstring) : Prop :=
  Forall2 (fun c d => d = if kept c then c else underscore) title cleaned.

(** "Replacing runs of whitespace with '_'": a string is cut into its
    characters that are not white space, kept, and its maximal runs of white
    space, each of which gives one underscore. *)
Definition starts_with_space (s : jsstring) : bool :=
  match s with
  | c :: _ => is_space c
  | [] => false
  end.

Inductive runs_replaced : jsstring -> jsstring -> Prop :=
| runs_done : runs_replaced [] []
| runs_keep c s r :
    is_space c = false -> runs_replaced s r -> runs_replaced (c :: s) (c :: r)
| runs_collapse run s r :
    run <> [] -> forallb is_space run = true -> starts_with_space s = false ->
    runs_replaced s r -> runs_replaced (run ++ s) (underscore :: r).

(** The leading white space of a string, and what follows it. *)
Fixpoint leading_spaces (s : jsstring) : jsstring :=
  match s with
  | c :: s' => if is_space c then c :: leading_spaces s' else []
  | [] => []
  end.

Fixpoint after_spaces (s : jsstring) : jsstring :=
  match s with
  | c :: s' => if is_space c then after_spaces s' else s
  | [] => []
  end.

(** Word characters, hyphens and dots: what a sanitized name is made of. *)
Definition plain (c : code_unit) : bool :=
  is_word c || N.eqb c hyphen || N.eqb c JS.dot.

(** The status the claim gives to a lower-cased message of the external
    library. *)
Definition mentions (lowered : jsstring) (needles : list jsstring) : bool :=
  existsb (includes lowered) needles.

Definition claimed_status (lowered : jsstring) : Z :=
  if mentions lowered [lit "unavailable"; lit "private"; lit "video not found"]
  then 404
  else if mentions lowered [lit "extract function"; lit "cipher"; lit "signature"]
  then 503
  else if mentions lowered [lit "no formats found matching quality";
                            lit "no such format found"]
  then 422
  else if mentions lowered [lit "sign in to confirm"]
  then 403
  else 500.

(** The phrase that the second pattern of the last test of the [catch]
    block is after, with its apostrophe, U+2019. *)
Definition confirm_you_re_not_a_bot : jsstring :=
  lit "confirm you" ++ [8217]%N ++ lit "re not a bot".

(** A lower-cased message that has this phrase, as it is written or as the
    source file has it. *)
Definition bot_check (lowered : jsstring) : bool :=
  mentions lowered [confirm_you_re_not_a_bot; Download.confirm_not_a_bot].

(** The same table with the second pattern of the last test of the code. *)
Definition mapped_status (lowered : jsstring) : Z :=
  if mentions lowered [lit "unavailable"; lit "private"; lit "video not found"]
  then 404
  else if mentions lowered [lit "extract function"; lit "cipher"; lit "signature"]
  then 503
  else if mentions lowered [lit "no formats found matching quality";
                            lit "no such format found"]
  then 422
  else if mentions lowered [lit "sign in to confirm"; Download.confirm_not_a_bot]
  then 403
  else 500.

(** The file name the claim gives to a title: the title itself whenever
    there is one. *)
Definition claimed_filename (title : option jsstring) : jsstring :=
  let t := match title with
           | Some t => t
           | None => lit "youtube_video"
           end in
  substring0 100 (replace_spaces (replace_unsafe t)) ++ lit "_trimmed_30s.mp4".

End Spec.

(* ================================================================== *)
(** ** Sample worlds *)
(* ================================================================== *)

Module Sample.
Import Download.

Definition source_stream : object := {| oid := 1; functions := ["on"; "once"; "destroy"]%string |}.
Definition pass_through : object := {| oid := 2; functions := ["on"; "emit"; "destroy"]%string |}.
Definition command : object := {| oid := 3; functions := ["on"; "pipe"; "kill"]%string |}.

(** A world in which [getInfo] answers as given and everything else goes
    well. *)
Definition world (info : outcome thrown videoInfo) : oracle dl :=
  fun e =>
    match e as e0 return dl_res e0 with
    | ytdl_getInfo _ => info
    | ytdl _ _ => Returned source_stream
    | new_PassThrough => pass_through
    | ffmpeg _ => Returned command
    | pipe _ _ _ => Returned tt
    | _ => tt
    end.

Definition titled (title : option jsstring) : outcome thrown videoInfo :=
  Returned {| videoDetails_title := title |}.

(** A world in which [getInfo] resolves and opening the source stream
    throws an [Error] of the given message. *)
Definition no_source (message : jsstring) : oracle dl :=
  fun e =>
    match e as e0 return dl_res e0 with
    | ytdl_getInfo _ => titled (Some (lit "A title"))
    | ytdl _ _ => Threw (ThrownTruthy (MessageString message))
    | new_PassThrough => pass_through
    | ffmpeg _ => Returned command
    | pipe _ _ _ => Returned tt
    | _ => tt
    end.

(** [?videoId=dQw4w9WgXcQ] and [?videoId=]. *)
Definition request : NextRequest :=
  {| searchParams := [(lit "videoId", lit "dQw4w9WgXcQ")] |}.
Definition empty_request : NextRequest :=
  {| searchParams := [(lit "videoId", [])] |}.

Definition GET := Download.GET idRegex_test ascii_toLowerCase.

Definition id : jsstring := lit "dQw4w9WgXcQ".

(** The response stream of a download that went through in [world]. *)
Definition response_stream : ReadableStream :=
  {| cancel := cancel_callback id source_stream pass_through command |}.

(** [getInfo] rejects with an [Error] of the given message. *)
Definition rejects (message : jsstring) : outcome thrown videoInfo :=
  Threw (ThrownTruthy (MessageString message)).

(** [?videoId=abc]. *)
Definition short_request : NextRequest :=
  {| searchParams := [(lit "videoId", lit "abc")] |}.

End Sample.

Module ListingSample.
Import Item Listing.

Definition video : YouTubeVideoItem :=
  {| id := Some {| videoId := Some (lit "dQw4w9WgXcQ") |};
     snippet := Some {| title := Some (lit "A title");
                        thumbnails := Some {| medium := Some
                          {| url := Some (lit "https://i.ytimg.com/vi/dQw4w9WgXcQ/mqdefault.jpg");
                             width := None; height := None |} |} |} |}.

(** A world in which the search answers as given. *)
Definition world (answer : outcome thrown search_response) : oracle ls :=
  fun e =>
    match e as e0 return ls_res e0 with
    | console _ _ => tt
    | search_list _ _ => answer
    end.

Definition found (items : option (list YouTubeVideoItem))
  : outcome thrown search_response :=
  Returned {| data_items := items |}.

Definition key : jsstring := lit "AIzaSy-sample".

End ListingSample.

Module PageSample.
Import Item Page.

(** A world in which [fetch] answers as given. *)
Definition world (answer : outcome thrown Response) : oracle pg :=
  fun e =>
    match e as e0 return pg_res e0 with
    | console _ _ => tt
    | fetch _ _ => answer
    end.

(** An item with only its identifier. *)
Definition bare_video : YouTubeVideoItem :=
  {| id := Some {| videoId := Some (lit "dQw4w9WgXcQ") |}; snippet := None |}.

End PageSample.

(* ================================================================== *)
(** ** Kinds of calls *)
(* ================================================================== *)

Module Calls.

(** The calls that tear a component down. *)
Definition is_teardown (e : Download.dl_op) : bool :=
  match e with
  | Download.destroy _ | Download.kill _ _ => true
  | _ => false
  end.

Definition is_console (e : Download.dl_op) : bool :=
  match e with
  | Download.console _ _ => true
  | _ => false
  end.

Definition is_pipe (e : Download.dl_op) : bool :=
  match e with
  | Download.pipe _ _ _ => true
  | _ => false
  end.

Definition is_fetch (e : Page.pg_op) : bool :=
  match e with
  | Page.fetch _ _ => true
  | Page.console _ _ => false
  end.

End Calls.

(* ================================================================== *)
(** ** The cards of the grid *)
(* ================================================================== *)

Module Cards.
Import Item Page.

(** The guard of the callback of [videos.map], negated: the item has a
    videoId, a title and a thumbnail URL, none of them empty. *)
Definition complete (video : YouTubeVideoItem) : bool :=
  negb (falsy (opt (id video) videoId) ||
        falsy (opt (snippet video) title) ||
        falsy (opt (opt (opt (snippet video) thumbnails) medium) url)).

(** The children of the grid that React puts on the page: [null] is
    nothing. *)
Fixpoint on_page (cards : list (option card)) : list card :=
  match cards with
  | [] => []
  | Some c :: rest => c :: on_page rest
  | None :: rest => on_page rest
  end.

End Cards.

(* ================================================================== *)
(** ** The page in front of the listing handler *)
(* ================================================================== *)

Module Site.
Import Item.

(** [response.ok]: a status from 200 to 299. *)
Definition ok (status : Z) : bool := (200 <=? status)%Z && (status <=? 299)%Z.

(** What [fetch] hands to the page when the listing handler answers:
    [NextResponse.json] writes the body as JSON and [response.json()] reads
    it back, an object with its [message] and, when there is one, its
    [error].  The handler has no other answers than a list under an [ok]
    status and a message under another one ([None] stands for the rest). *)
Definition over_the_wire (r : Listing.NextResponse) : option Page.Response :=
  match Listing.response_body r with
  | Listing.videos_json videos =>
      if ok (Listing.status r) then Some (Page.ok_response (Returned videos)) else None
  | Listing.message_json message_ error_ =>
      if ok (Listing.status r) then None
      else Some (Page.failed_response (Listing.status r)
                   (Some (Page.JObject
                      ((lit "message", Page.JString message_) ::
                       match error_ with
                       | Some text => [(lit "error", Page.JString text)]
                       | None => []
                       end))))
  end.

(** What [fetch] hands to the page when the handler throws: the framework
    answers in its place, with the status 500 and a body that is not
    JSON. *)
Definition internal_server_error : Page.Response := Page.failed_response 500 None.

(** The world of a page whose [fetch] is answered with [answer]. *)
Definition served (answer : Page.Response) : oracle Page.pg :=
  fun e =>
    match e as e0 return Page.pg_res e0 with
    | Page.console _ _ => tt
    | Page.fetch _ _ => Returned answer
    end.

(** A render of the page whose [fetch] reaches the listing handler, run
    with [apiKey] in the world [w]. *)
Definition page_over_listing (NEXT_PUBLIC_APP_URL apiKey : option jsstring)
           (w : oracle Listing.ls)
  : option (outcome Page.TypeError (list Page.section)) :=
  match result w (Listing.GET apiKey) with
  | Returned r =>
      match over_the_wire r with
      | Some answer => Some (result (served answer) (Page.Home NEXT_PUBLIC_APP_URL))
      | None => None
      end
  | Threw _ =>
      Some (result (served internal_server_error) (Page.Home NEXT_PUBLIC_APP_URL))
  end.

(** How the [fetch] of a render ends: the request reaches the listing
    handler, which runs with [apiKey] in the world [w]; or it does not, and
    [fetch] rejects with a TypeError, whose message, [c :: reason], is never
    empty. *)
Inductive exchange :=
| answered (apiKey : option jsstring) (w : oracle Listing.ls)
| rejected (c : code_unit) (reason : jsstring).

(** The world of a page whose [fetch] rejects with [err]. *)
Definition unreachable (err : Page.thrown) : oracle Page.pg :=
  fun e =>
    match e as e0 return Page.pg_res e0 with
    | Page.console _ _ => tt
    | Page.fetch _ _ => Threw err
    end.

(** The world of the page in an exchange. *)
Definition world_of (x : exchange) : option (oracle Page.pg) :=
  match x with
  | answered apiKey w =>
      match result w (Listing.GET apiKey) with
      | Returned r => option_map served (over_the_wire r)
      | Threw _ => Some (served internal_server_error)
      end
  | rejected c reason => Some (unreachable (Page.Error (c :: reason)))
  end.

End Site.

(* ================================================================== *)
(** ** The listeners of the download handler *)
(* ================================================================== *)

(** The closures that the handler registers with [on] and [once]
    ([route.ts], lines 48 to 56, 71 to 95 and 101 to 117): what each of them
    does when its event occurs. *)
Module Wiring.
Import Download.

(** A chunk of a stream: its octets. *)
Definition buffer := list N.

(** What occurs on an emitter, with what it passes to the listeners: for
    ['error'] the message of the [Error] and, from the command, its two
    outputs; for ['progress'] the time mark and the percentage as
    [toFixed(2)] prints it, [None] when it is missing or zero. *)
Inductive occurrence :=
| readable
| data (chunk : buffer)
| failed (message : jsstring) (stdout stderr : option jsstring)
| started (commandLine : jsstring)
| codecData (audio video : jsstring)
| progressed (timemark percent : option jsstring)
| ended.

Definition event_of (o : occurrence) : string :=
  match o with
  | readable => "readable"
  | data _ => "data"
  | failed _ _ _ => "error"
  | started _ => "start"
  | codecData _ _ => "codecData"
  | progressed _ _ => "progress"
  | ended => "end"
  end.

(** What the listeners call.  [controller] is the controller of the
    response stream; an [Error] is given by its message. *)
Inductive ev_op :=
| console (l : level) (text : jsstring)
| destroyed (target : object)                        (* target.destroyed *)
| emit_error (target : object) (message : jsstring)  (* target.emit('error', new Error(message)) *)
| controller_enqueue (chunk : buffer)
| controller_close
| controller_error (message : jsstring).

Definition ev_res (e : ev_op) : Type :=
  match e with
  | destroyed _ => bool
  | _ => unit
  end.

Definition ev : signature := {| op := ev_op; res := ev_res |}.

Definition do_ (e : ev_op) : prog ev (ev_res e) := @call ev e.

Definition when_ (b : bool) (p : prog ev unit) : prog ev unit :=
  if b then p else Ret tt.

(** A number in a template literal. *)
Definition print_length (chunk : buffer) : jsstring :=
  lit (NilZero.string_of_uint (Nat.to_uint (List.length chunk))).

(** A possibly undefined string in a template literal. *)
Definition print (s : option jsstring) : jsstring :=
  match s with
  | Some text => text
  | None => lit "undefined"
  end.

(** The body of each listener, on what its event passes; [None] where the
    listener is given something else than its event passes. *)
Definition react (f : listener) (o : occurrence) : option (prog ev unit) :=
  match f, o with
  | log_readable videoId, readable =>
      Some (do_ (console log (lit "ytdl stream for videoId " ++ videoId ++
                              lit " is readable.")))
  | log_first_chunk videoId, data chunk =>
      Some (do_ (console log (lit "ytdl stream for videoId " ++ videoId ++
                              lit " produced its first chunk of data, size: " ++
                              print_length chunk)))
  | log_stream_error videoId, failed message _ _ =>
      Some (do_ (console error
                   (lit "ytdl stream error for videoId " ++ videoId ++
                    lit " (this might be before or during ffmpeg processing):")))
  | log_start videoId, started commandLine =>
      Some (do_ (console log (lit "FFmpeg process started for videoId " ++ videoId ++
                              lit ": " ++ commandLine)))
  | log_codecData videoId, codecData audio video =>
      Some (do_ (console log (lit "FFmpeg codecData for videoId " ++ videoId ++
                              lit ": Input is " ++ audio ++ lit " audio with " ++
                              video ++ lit " video")))
  | log_progress videoId, progressed timemark percent =>
      Some
        match timemark, percent with
        | Some (c :: mark), _ =>
            do_ (console log (lit "FFmpeg processing for videoId " ++ videoId ++
                              lit ": Timemark " ++ c :: mark))
        | _, Some printed =>
            do_ (console log (lit "FFmpeg processing for videoId " ++ videoId ++
                              lit ": " ++ printed ++ lit "% done"))
        | _, None => Ret tt
        end
  | report_ffmpeg_error videoId ffmpegOutputPassThrough, failed message stdout stderr =>
      Some (do_ (console error (lit "FFmpeg error during processing for videoId " ++
                                videoId ++ lit ":")) ;;
            when_ (negb (falsy stdout)) (do_ (console error (lit "FFmpeg stdout:"))) ;;
            when_ (negb (falsy stderr)) (do_ (console error (lit "FFmpeg stderr:"))) ;;
            gone <- do_ (destroyed ffmpegOutputPassThrough) ;;
            when_ (negb gone)
                  (do_ (emit_error ffmpegOutputPassThrough
                          (lit "FFmpeg processing failed: " ++ message ++
                           lit ". FFmpeg stderr: " ++ print stderr))))%prog
  | log_end videoId, ended =>
      Some (do_ (console log (lit "FFmpeg process finished successfully for videoId " ++
                              videoId ++ lit ". Closing output stream.")))
  | enqueue_chunk, data chunk =>
      Some (do_ (controller_enqueue chunk))
  | close_controller videoId, ended =>
      Some (do_ (console log (lit "FFmpeg stream ended for videoId " ++ videoId ++
                              lit ". Closing web stream controller.")) ;;
            do_ controller_close)%prog
  | error_controller videoId, failed message _ _ =>
      Some (do_ (console error (lit "Error in ffmpegOutputPassThrough for videoId " ++
                                videoId ++ lit ":")) ;;
            do_ (controller_error message))%prog
  | forward_stream_error ffmpegOutputPassThrough, failed message _ _ =>
      Some (gone <- do_ (destroyed ffmpegOutputPassThrough) ;;
            when_ (negb gone)
                  (do_ (emit_error ffmpegOutputPassThrough
                          (lit "ytdl stream error: " ++ message))))%prog
  | _, _ => None
  end.

(** *** Emitting *)

(** A listener on an emitter, numbered in the order of registration. *)
Record registration := {
  rid : nat;
  target : object;
  event : string;
  only_once : bool;
  callback : listener
}.

(** The listeners that a run of the handler has registered. *)
Fixpoint registered_from (n : nat) (calls : list dl_op) : list registration :=
  match calls with
  | [] => []
  | on o name f :: rest =>
      {| rid := n; target := o; event := name; only_once := false; callback := f |}
        :: registered_from (S n) rest
  | once o name f :: rest =>
      {| rid := n; target := o; event := name; only_once := true; callback := f |}
        :: registered_from (S n) rest
  | _ :: rest => registered_from n rest
  end.

Definition registered (calls : list dl_op) : list registration :=
  registered_from 0 calls.

(** Objects are told apart by their [oid]. *)
Definition same_object (a b : object) : bool := N.eqb (oid a) (oid b).

Definition listens (o : object) (name : string) (r : registration) : bool :=
  same_object (target r) o && String.eqb (event r) name.

Definition still_there (rs : list registration) (r : registration) : bool :=
  existsb (fun x => Nat.eqb (rid x) (rid r)) rs.

Definition without (rs : list registration) (r : registration) : list registration :=
  List.filter (fun x => negb (Nat.eqb (rid x) (rid r))) rs.

(** A listener at work while the registrations are [rs]: an [emit] of
    the listener is delivered, by [emit], before the listener goes on.  The
    result is the registrations that are left. *)
Fixpoint run_listener
         (emit : list registration -> object -> occurrence -> prog ev (list registration))
         (rs : list registration) (p : prog ev unit) : prog ev (list registration) :=
  match p with
  | Ret _ => Ret rs
  | Call e k =>
      match e as e0 return (ev_res e0 -> prog ev unit) -> prog ev (list registration) with
      | emit_error t message =>
          fun k =>
            @Call ev _ (emit_error t message)
                  (fun u => bind (emit rs t (failed message None None))
                                 (fun rs' => run_listener emit rs' (k u)))
      | console l text =>
          fun k => @Call ev _ (console l text) (fun u => run_listener emit rs (k u))
      | destroyed t =>
          fun k => @Call ev _ (destroyed t) (fun b => run_listener emit rs (k b))
      | controller_enqueue chunk =>
          fun k => @Call ev _ (controller_enqueue chunk)
                         (fun u => run_listener emit rs (k u))
      | controller_close =>
          fun k => @Call ev _ controller_close (fun u => run_listener emit rs (k u))
      | controller_error message =>
          fun k => @Call ev _ (controller_error message)
                         (fun u => run_listener emit rs (k u))
      end k
  end.

(** The listeners [todo] of an event, called one after the other: a
    [once] listener leaves as it is called, and is not called if it has left
    in between. *)
Fixpoint call_all
         (emit : list registration -> object -> occurrence -> prog ev (list registration))
         (what : occurrence) (todo rs : list registration)
  : prog ev (list registration) :=
  match todo with
  | [] => Ret rs
  | r :: todo' =>
      if only_once r && negb (still_there rs r) then call_all emit what todo' rs
      else
        let rs1 := if only_once r then without rs r else rs in
        match react (callback r) what with
        | Some p => bind (run_listener emit rs1 p) (fun rs2 => call_all emit what todo' rs2)
        | None => call_all emit what todo' rs1
        end
  end.

(** [emitter.emit]: the listeners of the event that are there when it is
    emitted are called in the order of their registration.  [fuel] bounds
    the depth of the [emit]s inside listeners. *)
Fixpoint deliver (fuel : nat) (rs : list registration) (o : object) (what : occurrence)
  : prog ev (list registration) :=
  match fuel with
  | O => Ret rs
  | S fuel' =>
      call_all (deliver fuel') what (List.filter (listens o (event_of what)) rs) rs
  end.

(** Events one after the other. *)
Fixpoint deliver_all (fuel : nat) (rs : list registration)
         (events : list (object * occurrence)) : prog ev (list registration) :=
  match events with
  | [] => Ret rs
  | (o, what) :: rest =>
      bind (deliver fuel rs o what) (fun rs' => deliver_all fuel rs' rest)
  end.

End Wiring.

Module WiringCalls.

Definition is_console (e : Wiring.ev_op) : bool :=
  match e with
  | Wiring.console _ _ => true
  | _ => false
  end.

End WiringCalls.

(* ================================================================== *)
(** ** More sample worlds *)
(* ================================================================== *)

Module MoreSamples.

(** A world of the listeners in which the pass-through is destroyed, or
    not. *)
Definition listeners_world (gone : bool) : oracle Wiring.ev :=
  fun e =>
    match e as e0 return Wiring.ev_res e0 with
    | Wiring.destroyed _ => gone
    | _ => tt
    end.

(** An item whose thumbnail is 0 wide and 90 high. *)
Definition flat_video : Item.YouTubeVideoItem :=
  {| Item.id := Some {| Item.videoId := Some (lit "dQw4w9WgXcQ") |};
     Item.snippet :=
       Some {| Item.title := Some (lit "A title");
               Item.thumbnails :=
                 Some {| Item.medium :=
                           Some {| Item.url := Some (lit "https://i.ytimg.com/vi/x/mq.jpg");
                                   Item.width := Some 0%Z;
                                   Item.height := Some 90%Z |} |} |} |}.


(** A response that is not [ok], with a message and an error. *)
Definition failed_with_message : Page.Response :=
  Page.failed_response 500
    (Some (Page.JObject [(lit "message", Page.JString (lit "It went wrong."));
                         (lit "error", Page.JString (lit "details"))])).

(** The body [[1]]: JSON, and not an object. *)
Definition a_list : Page.json_value := Page.JArray [Page.JNumber false (lit "1")].

End MoreSamples.
Lemma run_bind {S A B} (w : oracle S) (p : prog S A) (f : A -> prog S B) :
  run w (bind p f) =
  (fst (run w (f (fst (run w p)))), snd (run w p) ++ snd (run w (f (fst (run w p))))).
Proof.
  induction p as [a | e k IH]; simpl.
  - destruct (run w (f a)); reflexivity.
  - rewrite IH. destruct (run w (k (w e))) as [a t]. reflexivity.
Qed.

Lemma result_bind {S A B} (w : oracle S) (p : prog S A) (f : A -> prog S B) :
  result w (bind p f) = result w (f (result w p)).
Proof. unfold result. rewrite run_bind. reflexivity. Qed.

Lemma trace_bind {S A B} (w : oracle S) (p : prog S A) (f : A -> prog S B) :
  trace w (bind p f) = trace w p ++ trace w (f (result w p)).
Proof. unfold trace, result. rewrite run_bind. reflexivity. Qed.

Lemma result_try_catch {S E R} (w : oracle S) (body : prog S (outcome E R)) h :
  result w (try_catch body h) =
  match result w body with
  | Returned a => a
  | Threw err => result w (h err)
  end.
Proof.
  unfold try_catch. rewrite result_bind. destruct (result w body); reflexivity.
Qed.

Lemma trace_try_catch {S E R} (w : oracle S) (body : prog S (outcome E R)) h :
  trace w (try_catch body h) =
  trace w body ++
  match result w body with
  | Returned _ => []
  | Threw err => trace w (h err)
  end.
Proof.
  unfold try_catch. rewrite trace_bind. destruct (result w body); reflexivity.
Qed.

Lemma result_Ret {S R} (w : oracle S) (r : R) : result w (Ret r) = r.
Proof. reflexivity. Qed.

Lemma trace_Ret {S R} (w : oracle S) (r : R) : trace w (Ret r) = [].
Proof. reflexivity. Qed.

Lemma result_Call {S R} (w : oracle S) (e : op S) (k : res S e -> prog S R) :
  result w (Call e k) = result w (k (w e)).
Proof. unfold result. simpl. destruct (run w (k (w e))). reflexivity. Qed.

Lemma trace_Call {S R} (w : oracle S) (e : op S) (k : res S e -> prog S R) :
  trace w (Call e k) = e :: trace w (k (w e)).
Proof. unfold trace. simpl. destruct (run w (k (w e))). reflexivity. Qed.

(** One step of a run: unfold the handler up to its next call, take the
    answer of the world. *)
Ltac step :=
  cbn [bind bind_try try_catch call];
  repeat (rewrite ?result_Call, ?trace_Call, ?result_Ret, ?trace_Ret;
          cbn [bind bind_try try_catch call]).

(* ================================================================== *)
(** ** Properties of the file-name pattern *)
(* ================================================================== *)

Module StringFacts.

Lemma replace_unsafe_spec (title : jsstring) :
  Spec.unsafe_replaced title (replace_unsafe title).
Proof.
  unfold Spec.unsafe_replaced, replace_unsafe.
  induction title as [| c title IH]; simpl; constructor; auto.
  unfold is_unsafe, Spec.kept. destruct (_ || _); reflexivity.
Qed.

Lemma leading_after (s : jsstring) : Spec.leading_spaces s ++ Spec.after_spaces s = s.
Proof.
  induction s as [| c s IH]; simpl; [reflexivity |].
  destruct (is_space c); simpl; congruence.
Qed.

Lemma leading_all_spaces (s : jsstring) : forallb is_space (Spec.leading_spaces s) = true.
Proof.
  induction s as [| c s IH]; simpl; [reflexivity |].
  destruct (is_space c) eqn:E; simpl; [rewrite E; assumption | reflexivity].
Qed.

Lemma after_spaces_start (s : jsstring) : Spec.starts_with_space (Spec.after_spaces s) = false.
Proof.
  induction s as [| c s IH]; simpl; [reflexivity |].
  destruct (is_space c) eqn:E; simpl; assumption.
Qed.

Lemma after_spaces_length (s : jsstring) :
  (List.length (Spec.after_spaces s) <= List.length s)%nat.
Proof.
  induction s as [| c s IH]; simpl; [lia |].
  destruct (is_space c); simpl; lia.
Qed.

Lemma skip_spaces_after (s : jsstring) :
  skip_spaces s = replace_spaces (Spec.after_spaces s).
Proof.
  induction s as [| c s IH]; simpl; [reflexivity |].
  destruct (is_space c) eqn:E; simpl; [assumption | rewrite E; reflexivity].
Qed.

(** The scanner does what the sentence says. *)
Lemma replace_spaces_spec (s : jsstring) : Spec.runs_replaced s (replace_spaces s).
Proof.
  remember (List.length s) as n eqn:Hn.
  revert s Hn. induction n as [n IH] using lt_wf_ind. intros s Hn.
  destruct s as [| c s]; simpl.
  - constructor.
  - destruct (is_space c) eqn:E.
    + rewrite skip_spaces_after.
      replace (c :: s) with ((c :: Spec.leading_spaces s) ++ Spec.after_spaces s)
        by (simpl; rewrite leading_after; reflexivity).
      apply Spec.runs_collapse.
      * discriminate.
      * simpl. rewrite E. apply leading_all_spaces.
      * apply after_spaces_start.
      * apply (IH (List.length (Spec.after_spaces s))); [| reflexivity].
        subst n. simpl. pose proof (after_spaces_length s). lia.
    + apply Spec.runs_keep; [assumption |].
      apply (IH (List.length s)); [subst n; simpl; lia | reflexivity].
Qed.

(** The sentence determines the result. *)
Lemma runs_replaced_unique (s r : jsstring) :
  Spec.runs_replaced s r -> r = replace_spaces s.
Proof.
  induction 1 as [| c s r Hc _ IH | run s r Hne Hall Hs _ IH].
  - reflexivity.
  - simpl. rewrite Hc. congruence.
  - destruct run as [| c run]; [congruence |].
    simpl in Hall. apply andb_prop in Hall. destruct Hall as [Hc Hall].
    simpl. rewrite Hc. f_equal. subst r.
    clear Hne Hc. induction run as [| d run IHrun]; simpl.
    + destruct s as [| e s]; [reflexivity |]. simpl in Hs. simpl. rewrite Hs. reflexivity.
    + simpl in Hall. apply andb_prop in Hall. destruct Hall as [Hd Hall].
      rewrite Hd. apply IHrun. assumption.
Qed.

(** No white space is left, and no unsafe character either. *)
Lemma replace_unsafe_kept (title : jsstring) :
  forallb Spec.kept (replace_unsafe title) = true.
Proof.
  unfold replace_unsafe.
  induction title as [| c title IH]; simpl; [reflexivity |].
  rewrite IH, andb_true_r.
  unfold is_unsafe. fold (Spec.kept c).
  destruct (Spec.kept c) eqn:E; simpl; [assumption | reflexivity].
Qed.

Lemma kept_not_space_plain (c : code_unit) :
  Spec.kept c = true -> is_space c = false -> Spec.plain c = true.
Proof.
  unfold Spec.kept, Spec.plain. intros H E. rewrite E in H.
  rewrite orb_false_r in H. assumption.
Qed.

Lemma replace_spaces_plain (s : jsstring) :
  forallb Spec.kept s = true ->
  forallb Spec.plain (replace_spaces s) = true /\ forallb Spec.plain (skip_spaces s) = true.
Proof.
  induction s as [| c s IH]; simpl; [auto |].
  intros H. apply andb_prop in H. destruct H as [Hc Hs].
  destruct (IH Hs) as [IH1 IH2].
  destruct (is_space c) eqn:E; simpl.
  - rewrite IH2. auto.
  - rewrite (kept_not_space_plain c Hc E), IH1. auto.
Qed.

Lemma forallb_firstn {A} (f : A -> bool) (n : nat) (l : list A) :
  forallb f l = true -> forallb f (firstn n l) = true.
Proof.
  revert l. induction n as [| n IH]; intros [| a l]; simpl; auto.
  intros H. apply andb_prop in H. destruct H as [Ha Hl].
  rewrite Ha, (IH l Hl). reflexivity.
Qed.

Lemma sanitizedFilenameBase_plain (title : jsstring) :
  forallb Spec.plain (Download.sanitizedFilenameBase title) = true.
Proof.
  unfold Download.sanitizedFilenameBase, substring0.
  apply forallb_firstn.
  apply (replace_spaces_plain (replace_unsafe title)), replace_unsafe_kept.
Qed.

Lemma sanitizedFilenameBase_length (title : jsstring) :
  (List.length (Download.sanitizedFilenameBase title) <= 100)%nat.
Proof.
  unfold Download.sanitizedFilenameBase, substring0.
  rewrite length_firstn. lia.
Qed.

End StringFacts.

(* ================================================================== *)
(** ** The download handler *)
(* ================================================================== *)

Module DownloadFacts.
Import Download.

Section Handler.

Variable validateID : jsstring -> bool.
Variable toLowerCase : jsstring -> jsstring.


(** Past the two checks the handler is its [try] statement. *)
Lemma GET_valid (request : NextRequest) (id : jsstring) :
  videoId_of request = Some id -> truthy id = true -> validateID id = true ->
  GET validateID toLowerCase request = try_catch (try_block id) (catch_block toLowerCase id).
Proof.
  intros Hget Hid Hok. unfold GET. rewrite Hget, Hid, Hok. reflexivity.
Qed.

(** Any call at all means the two checks were passed. *)
Lemma GET_calls_valid (request : NextRequest) (w : oracle dl) :
  trace w (GET validateID toLowerCase request) <> [] ->
  exists id, videoId_of request = Some id /\ truthy id = true /\ validateID id = true.
Proof.
  unfold GET.
  destruct (videoId_of request) as [id |]; [| intros H; elim H; reflexivity].
  destruct (truthy id) eqn:Hid; simpl; [| intros H; elim H; reflexivity].
  destruct (validateID id) eqn:Hok; simpl; [| intros H; elim H; reflexivity].
  intros _. exists id. auto.
Qed.

(** The [if / else if] chain is the table. *)
Lemma classify_status (id message : jsstring) :
  fst (fst (classify toLowerCase id message)) = Spec.mapped_status (toLowerCase message).
Proof.
  unfold classify, Spec.mapped_status, Spec.mentions. simpl existsb.
  rewrite !orb_false_r, <- !orb_assoc.
  repeat match goal with
         | |- context [if ?b then _ else _] => destruct b; try reflexivity
         end.
Qed.

(** The [catch] block answers with a JSON body that names the video, under
    the status of the table (500 when the message is not a string). *)
Lemma catch_block_result (w : oracle dl) (id : jsstring) (err : thrown) :
  exists text,
    result w (catch_block toLowerCase id err) =
    NextResponse_json text (Some id)
      match err with
      | ThrownTruthy (MessageString message) => Spec.mapped_status (toLowerCase message)
      | _ => 500%Z
      end.
Proof.
  unfold catch_block, do_. step.
  destruct err as [| [message | printed |]]; step; try (eexists; reflexivity).
  rewrite <- (classify_status id message).
  destruct (classify toLowerCase id message) as [[statusCode errorMessage] detailed].
  exists errorMessage. destruct detailed; step; reflexivity.
Qed.

(** The [catch] block only logs. *)
Lemma catch_block_trace (w : oracle dl) (id : jsstring) (err : thrown) :
  existsb is_setting (trace w (catch_block toLowerCase id err)) = false.
Proof.
  unfold catch_block, do_. step.
  destruct err as [| [message | printed |]]; step; try reflexivity.
  destruct (classify toLowerCase id message) as [[statusCode errorMessage] detailed].
  destruct detailed; step; reflexivity.
Qed.

(** The [try] block either goes through, with the calls of [setup_calls]
    and a streaming response built from the objects it was handed, or one of
    its four fallible calls throws. *)
Lemma try_block_run (w : oracle dl) (id : jsstring) :
  (exists info source command,
      w (ytdl_getInfo (videoUrl id)) = Returned info /\
      w (ytdl (videoUrl id) {| quality := lit "highestvideo";
                               filter := mp4_with_audio_and_video |}) = Returned source /\
      w (ffmpeg source) = Returned command /\
      result w (try_block id) =
      Returned (NextResponse_new
                  {| cancel := cancel_callback id source (w new_PassThrough) command |}
                  (response_headers info)) /\
      trace w (try_block id) = setup_calls id source (w new_PassThrough) command)
  \/ (exists err, result w (try_block id) = Threw err).
Proof.
  unfold try_block, do_. step.
  destruct (w (ytdl_getInfo _)) as [info | e] eqn:Hinfo; step; [| right; eauto].
  destruct (w (ytdl _ _)) as [source | e] eqn:Hsource; step; [| right; eauto].
  destruct (w (ffmpeg _)) as [command | e] eqn:Hcommand; step; [| right; eauto].
  destruct (w (pipe _ _ _)) as [[] | e] eqn:Hpipe; step; [| right; eauto].
  left. exists info, source, command. repeat split; auto.
Qed.

(** A streaming response is the response of a setup that went through. *)
Lemma GET_streaming (request : NextRequest) (w : oracle dl) (s : ReadableStream) :
  response_body (result w (GET validateID toLowerCase request)) = streaming s ->
  exists id info source command,
    videoId_of request = Some id /\ truthy id = true /\ validateID id = true /\
    w (ytdl_getInfo (videoUrl id)) = Returned info /\
    w (ytdl (videoUrl id) {| quality := lit "highestvideo";
                             filter := mp4_with_audio_and_video |}) = Returned source /\
    w (ffmpeg source) = Returned command /\
    result w (GET validateID toLowerCase request) =
    NextResponse_new {| cancel := cancel_callback id source (w new_PassThrough) command |}
                     (response_headers info) /\
    trace w (GET validateID toLowerCase request) = setup_calls id source (w new_PassThrough) command.
Proof.
  unfold GET.
  destruct (videoId_of request) as [id |]; [| discriminate].
  destruct (truthy id) eqn:Hid; simpl; [| discriminate].
  destruct (validateID id) eqn:Hok; simpl; [| discriminate].
  rewrite result_try_catch, trace_try_catch.
  destruct (try_block_run w id)
    as [(info & source & command & Hi & Hs & Hc & Hr & Ht) | [err Herr]].
  - rewrite Hr, Ht. intros _. exists id, info, source, command.
    rewrite app_nil_r. repeat split; auto.
  - rewrite Herr. destruct (catch_block_result w id err) as [text ->]. discriminate.
Qed.

(** C2 (as amended).  The handler checks the video identifier before any
    call to the outside: with no [videoId] parameter, or an empty one, it
    answers 400 with the error [videoId query parameter is required] and a
    null videoId at once; with a parameter that is not empty and that
    [validateID] rejects it answers 400 with [Invalid YouTube video ID] at
    once; it makes a call only for a parameter that is there, not empty and
    valid, and then the first call resolves the video. *)
Theorem C2_videoId_validated_first (request : NextRequest) :
  (falsy (videoId_of request) = true ->
   GET validateID toLowerCase request =
   Ret {| status := 400; headers := [];
          response_body := json (lit "videoId query parameter is required") None |}) /\
  (forall id, videoId_of request = Some id -> truthy id = true -> validateID id = false ->
   GET validateID toLowerCase request =
   Ret {| status := 400; headers := [];
          response_body := json (lit "Invalid YouTube video ID") (Some id) |}) /\
  (forall w, trace w (GET validateID toLowerCase request) <> [] ->
   exists id, videoId_of request = Some id /\ truthy id = true /\ validateID id = true) /\
  (forall id, videoId_of request = Some id -> truthy id = true -> validateID id = true ->
   exists k, GET validateID toLowerCase request = @Call dl NextResponse (ytdl_getInfo (videoUrl id)) k).
Proof.
  split; [| split; [| split]].
  - unfold GET, falsy.
    destruct (videoId_of request) as [id |]; [| reflexivity].
    intros ->. reflexivity.
  - intros id Hget Hid Hbad. unfold GET.
    rewrite Hget, Hid, Hbad. reflexivity.
  - intros w. apply GET_calls_valid.
  - intros id Hget Hid Hok. rewrite (GET_valid request Hget Hid Hok).
    unfold try_block, do_. cbn [bind bind_try try_catch call]. eexists. reflexivity.
Qed.

(** The table of the claim is the table of the code for every message
    that the second pattern of the last test does not match, and for every
    message that an earlier test or [sign in to confirm] matches. *)
Lemma mapped_status_claimed (lowered : jsstring) :
  Spec.claimed_status lowered <> 500%Z \/ includes lowered confirm_not_a_bot = false ->
  Spec.mapped_status lowered = Spec.claimed_status lowered.
Proof.
  unfold Spec.mapped_status, Spec.claimed_status, Spec.mentions. cbn [existsb].
  rewrite !orb_false_r.
  repeat match goal with
         | |- _ -> (if ?b then _ else _) = (if ?b then _ else _) =>
             destruct b; [reflexivity |]
         end.
  destruct (includes lowered (lit "sign in to confirm")); [reflexivity |]. cbn [orb].
  destruct (includes lowered confirm_not_a_bot); [| reflexivity].
  intros [H | H]; [elim H; reflexivity | discriminate].
Qed.

(** C1 (as amended).  When a call of the setup throws, the handler answers
    with a JSON body that carries an error text and the videoId.  For a
    thrown [Error] with a string message the status is the one of the table
    of the claim: 404 for a lower-cased message with [unavailable],
    [private] or [video not found]; else 503 with [extract function],
    [cipher] or [signature]; else 422 with [no formats found matching
    quality] or [no such format found]; else 403 with [sign in to confirm];
    else 500, this last case for the messages that do not name the bot check
    of the second pattern of the last test.  A thrown value whose message is
    not a string gets 500. *)
Theorem C1_error_status (request : NextRequest) (w : oracle dl) (id : jsstring)
        (err : thrown) :
  videoId_of request = Some id -> truthy id = true -> validateID id = true ->
  result w (try_block id) = Threw err ->
  exists text,
    response_body (result w (GET validateID toLowerCase request)) = json text (Some id) /\
    match err with
    | ThrownTruthy (MessageString message) =>
        Spec.claimed_status (toLowerCase message) <> 500%Z \/
        Spec.bot_check (toLowerCase message) = false ->
        status (result w (GET validateID toLowerCase request)) =
        Spec.claimed_status (toLowerCase message)
    | _ => status (result w (GET validateID toLowerCase request)) = 500%Z
    end.
Proof.
  intros Hget Hid Hok Hthrew.
  rewrite (GET_valid request Hget Hid Hok), result_try_catch, Hthrew.
  destruct (catch_block_result w id err) as [text ->].
  exists text. split; [reflexivity |].
  destruct err as [| [message | printed |]]; try reflexivity.
  intros H. cbn [status NextResponse_json]. apply mapped_status_claimed.
  destruct H as [H | H]; [left; exact H | right].
  unfold Spec.bot_check, Spec.mentions in H. cbn [existsb] in H.
  apply orb_false_iff in H. destruct H as [_ H].
  apply orb_false_iff in H. destruct H as [H _]. exact H.
Qed.

(** C4 (as amended).  For a valid videoId whose info resolves, once the
    source stream and the command are there, the handler sets the command to
    start at [00:00:00], to last 30 seconds, to the format [mp4], with the
    three output options; these are the only settings it makes, and none of
    them depends on the request or on the answers of the world. *)
Theorem C4_fixed_trim_and_format (request : NextRequest) (w : oracle dl)
        (id : jsstring) (info : videoInfo) (source command : object) :
  videoId_of request = Some id -> truthy id = true -> validateID id = true ->
  w (ytdl_getInfo (videoUrl id)) = Returned info ->
  w (ytdl (videoUrl id) {| quality := lit "highestvideo";
                           filter := mp4_with_audio_and_video |}) = Returned source ->
  w (ffmpeg source) = Returned command ->
  exists before after,
    trace w (GET validateID toLowerCase request) =
    before ++
    [setStartTime command (lit "00:00:00");
     setDuration command 30;
     toFormat command (lit "mp4");
     outputOptions command [lit "-movflags frag_keyframe+empty_moov";
                            lit "-preset ultrafast";
                            lit "-tune zerolatency"]] ++
    after /\
    In (ffmpeg source) before /\
    existsb is_setting before = false /\
    existsb is_setting after = false.
Proof.
  intros Hget Hid Hok Hinfo Hsource Hcommand.
  rewrite (GET_valid request Hget Hid Hok), trace_try_catch.
  unfold try_block, do_. step.
  rewrite Hinfo. step. rewrite Hsource. step. rewrite Hcommand. step.
  exists [ytdl_getInfo (videoUrl id);
          ytdl (videoUrl id) {| quality := lit "highestvideo";
                                filter := mp4_with_audio_and_video |};
          once source "readable" (log_readable id);
          once source "data" (log_first_chunk id);
          on source "error" (log_stream_error id);
          new_PassThrough;
          ffmpeg source].
  destruct (w (pipe _ _ _)) as [[] | e]; step; eexists;
    (split; [simpl; reflexivity |]);
    (split; [simpl; tauto |]);
    (split; [reflexivity |]).
  - reflexivity.
  - simpl. apply catch_block_trace.
Qed.

(** C7.  The [cancel] callback of a streaming response tears down the
    three components that the setup wired together: it destroys the source
    stream that was given to the command, destroys the pass-through that the
    command was piped into, and kills the command with [SIGKILL], in that
    order, each of them offering the method as the objects of the libraries
    do. *)
Theorem C7_cancel_tears_down (request : NextRequest) (w : oracle dl)
        (s : ReadableStream) (id : jsstring) (source output command : object) :
  response_body (result w (GET validateID toLowerCase request)) = streaming s ->
  videoId_of request = Some id ->
  w (ytdl (videoUrl id) {| quality := lit "highestvideo";
                           filter := mp4_with_audio_and_video |}) = Returned source ->
  w new_PassThrough = output ->
  w (ffmpeg source) = Returned command ->
  is_function source "destroy" = true ->
  is_function output "destroy" = true ->
  is_function command "kill" = true ->
  In (ffmpeg source) (trace w (GET validateID toLowerCase request)) /\
  In (pipe command output true) (trace w (GET validateID toLowerCase request)) /\
  forall w',
    trace w' (cancel s) =
    [console log (lit "ReadableStream cancelled for videoId " ++ id ++
                  lit ". Destroying streams and FFmpeg process.");
     destroy source;
     destroy output;
     kill command (lit "SIGKILL");
     console log (lit "FFmpeg process killed for videoId " ++ id ++ lit ".")].
Proof.
  intros Hbody Hget Hsource Houtput Hcommand Hs Ho Hc.
  destruct (GET_streaming request w Hbody)
    as (id' & info & source' & command' & Hget' & _ & _ & _ & Hsource' & Hcommand' & Hr & Ht).
  rewrite Hget in Hget'. injection Hget' as <-.
  rewrite Hsource in Hsource'. injection Hsource' as <-.
  rewrite Hcommand in Hcommand'. injection Hcommand' as <-.
  rewrite Houtput in Hr, Ht.
  rewrite Ht. split; [simpl; tauto |]. split; [simpl; tauto |].
  intros w'.
  rewrite Hr in Hbody. simpl in Hbody. injection Hbody as <-. simpl cancel.
  unfold cancel_callback, when_, do_. rewrite Hs, Ho, Hc. step. reflexivity.
Qed.

(** C8 (as amended).  A successful download answers with the header
    [Content-Type: video/mp4] and a [Content-Disposition] attachment whose
    file name comes from the title, or from [youtube_video] when the title is
    absent or empty: every character that is not a word character, white
    space, a hyphen or a dot replaced by an underscore, every run of white
    space replaced by one underscore, the first 100 characters of that, and
    [_trimmed_30s.mp4] after them. *)
Theorem C8_attachment_headers (request : NextRequest) (w : oracle dl)
        (s : ReadableStream) :
  response_body (result w (GET validateID toLowerCase request)) = streaming s ->
  exists id info cleaned collapsed,
    videoId_of request = Some id /\
    w (ytdl_getInfo (videoUrl id)) = Returned info /\
    Spec.unsafe_replaced
      match videoDetails_title info with
      | Some (c :: title) => c :: title
      | _ => lit "youtube_video"
      end
      cleaned /\
    Spec.runs_replaced cleaned collapsed /\
    (List.length (firstn 100 collapsed) <= 100)%nat /\
    headers (result w (GET validateID toLowerCase request)) =
    [(lit "Content-Type", lit "video/mp4");
     (lit "Content-Disposition",
      lit "attachment; filename=" ++ dquote ++
      (firstn 100 collapsed ++ lit "_trimmed_30s.mp4") ++ dquote)].
Proof.
  intros Hbody.
  destruct (GET_streaming request w Hbody)
    as (id & info & source & command & Hget & _ & _ & Hinfo & _ & _ & Hr & _).
  set (videoTitle := match videoDetails_title info with
                     | Some (c :: title) => c :: title
                     | _ => lit "youtube_video"
                     end).
  exists id, info, (replace_unsafe videoTitle), (replace_spaces (replace_unsafe videoTitle)).
  split; [assumption |]. split; [assumption |].
  split; [apply StringFacts.replace_unsafe_spec |].
  split; [apply StringFacts.replace_spaces_spec |].
  split; [rewrite length_firstn; lia |].
  rewrite Hr. simpl headers. unfold response_headers, filename, sanitizedFilenameBase, substring0.
  replace (or_else (videoDetails_title info) (lit "youtube_video")) with videoTitle
    by (unfold videoTitle, or_else; destruct (videoDetails_title info) as [[| c t] |]; reflexivity).
  reflexivity.
Qed.

End Handler.
End DownloadFacts.

(** *** The download handler on the sample worlds *)

Module DownloadExamples.
Import Download.

(** C1, the claim as stated, fails: a message with the second pattern of
    the last test and without [sign in to confirm] is given 500 by the claim
    and 403 by the handler.  The message is its own lower case. *)
Lemma C1_claimed_status_counterexample :
  ascii_toLowerCase confirm_not_a_bot = confirm_not_a_bot /\
  result (Sample.world (Sample.rejects confirm_not_a_bot)) (try_block Sample.id) =
  Threw (ThrownTruthy (MessageString confirm_not_a_bot)) /\
  Spec.claimed_status (ascii_toLowerCase confirm_not_a_bot) = 500%Z /\
  status (result (Sample.world (Sample.rejects confirm_not_a_bot))
                 (Sample.GET Sample.request)) = 403%Z.
Proof. vm_compute. repeat split. Qed.

(** The phrase with its apostrophe is not what the second pattern
    matches: such a message is answered with 500. *)
Example phrase_with_apostrophe :
  Spec.bot_check (ascii_toLowerCase (lit "Please " ++ Spec.confirm_you_re_not_a_bot)) = true /\
  status (result (Sample.world (Sample.rejects (lit "Please " ++ Spec.confirm_you_re_not_a_bot)))
                 (Sample.GET Sample.request)) = 500%Z.
Proof. vm_compute. split; reflexivity. Qed.

Lemma C1_error_status_witness :
  (exists text,
      response_body (result (Sample.world (Sample.rejects (lit "Video unavailable")))
                            (Sample.GET Sample.request)) = json text (Some Sample.id) /\
      status (result (Sample.world (Sample.rejects (lit "Video unavailable")))
                     (Sample.GET Sample.request)) = 404%Z) /\
  (exists text,
      response_body (result (Sample.world (Sample.rejects (lit "socket hang up")))
                            (Sample.GET Sample.request)) = json text (Some Sample.id) /\
      status (result (Sample.world (Sample.rejects (lit "socket hang up")))
                     (Sample.GET Sample.request)) = 500%Z).
Proof.
  split.
  - destruct (DownloadFacts.C1_error_status idRegex_test ascii_toLowerCase Sample.request
                (Sample.world (Sample.rejects (lit "Video unavailable")))
                (id := Sample.id)
                (err := ThrownTruthy (MessageString (lit "Video unavailable")))
                eq_refl eq_refl eq_refl eq_refl) as (text & Hbody & Hstatus).
    exists text. split; [exact Hbody |]. apply Hstatus. left. discriminate.
  - destruct (DownloadFacts.C1_error_status idRegex_test ascii_toLowerCase Sample.request
                (Sample.world (Sample.rejects (lit "socket hang up")))
                (id := Sample.id)
                (err := ThrownTruthy (MessageString (lit "socket hang up")))
                eq_refl eq_refl eq_refl eq_refl) as (text & Hbody & Hstatus).
    exists text. split; [exact Hbody |]. apply Hstatus. right. reflexivity.
Defined.

(** C2, the claim as stated, fails: in [?videoId=] the parameter is there
    and [validateID] rejects it, yet the answer is the one of a missing
    parameter. *)
Lemma C2_present_but_empty_counterexample :
  videoId_of Sample.empty_request = Some [] /\
  idRegex_test [] = false /\
  Sample.GET Sample.empty_request =
  Ret {| status := 400; headers := [];
         response_body := json (lit "videoId query parameter is required") None |} /\
  Sample.GET Sample.empty_request <>
  Ret {| status := 400; headers := [];
         response_body := json (lit "Invalid YouTube video ID") (Some []) |}.
Proof. repeat split. discriminate. Qed.

Lemma C2_videoId_validated_first_witness :
  Sample.GET Sample.empty_request =
  Ret {| status := 400; headers := [];
         response_body := json (lit "videoId query parameter is required") None |} /\
  Sample.GET Sample.short_request =
  Ret {| status := 400; headers := [];
         response_body := json (lit "Invalid YouTube video ID") (Some (lit "abc")) |} /\
  (exists id, videoId_of Sample.request = Some id /\ truthy id = true /\
              idRegex_test id = true) /\
  (exists k, Sample.GET Sample.request =
             @Call dl NextResponse (ytdl_getInfo (videoUrl Sample.id)) k).
Proof.
  split; [| split; [| split]].
  - apply (proj1 (DownloadFacts.C2_videoId_validated_first
                    idRegex_test ascii_toLowerCase Sample.empty_request)).
    reflexivity.
  - apply (proj1 (proj2 (DownloadFacts.C2_videoId_validated_first
                           idRegex_test ascii_toLowerCase Sample.short_request)));
      reflexivity.
  - apply (proj1 (proj2 (proj2 (DownloadFacts.C2_videoId_validated_first
                                  idRegex_test ascii_toLowerCase Sample.request)))
             (Sample.world (Sample.titled None))).
    discriminate.
  - apply (proj2 (proj2 (proj2 (DownloadFacts.C2_videoId_validated_first
                                  idRegex_test ascii_toLowerCase Sample.request))));
      reflexivity.
Defined.

(** C4, the claim as stated, fails: the info of a valid videoId resolves,
    the source stream cannot be opened, and the handler answers 422 without
    having configured any command. *)
Lemma C4_no_source_counterexample :
  videoId_of Sample.request = Some Sample.id /\
  idRegex_test Sample.id = true /\
  Sample.no_source (lit "No such format found: highestvideo")
                   (ytdl_getInfo (videoUrl Sample.id)) =
  Returned {| videoDetails_title := Some (lit "A title") |} /\
  existsb is_setting
          (trace (Sample.no_source (lit "No such format found: highestvideo"))
                 (Sample.GET Sample.request)) = false /\
  trace (Sample.no_source (lit "No such format found: highestvideo"))
        (Sample.GET Sample.request) =
  [ytdl_getInfo (videoUrl Sample.id);
   ytdl (videoUrl Sample.id) {| quality := lit "highestvideo";
                                filter := mp4_with_audio_and_video |};
   console error (lit "Error downloading video for videoId " ++ Sample.id ++ lit ":")] /\
  status (result (Sample.no_source (lit "No such format found: highestvideo"))
                 (Sample.GET Sample.request)) = 422%Z.
Proof. vm_compute. repeat split. Qed.

Lemma C4_fixed_trim_and_format_witness :
  exists before after,
    trace (Sample.world (Sample.titled (Some (lit "A title")))) (Sample.GET Sample.request) =
    before ++
    [setStartTime Sample.command (lit "00:00:00");
     setDuration Sample.command 30;
     toFormat Sample.command (lit "mp4");
     outputOptions Sample.command [lit "-movflags frag_keyframe+empty_moov";
                                   lit "-preset ultrafast";
                                   lit "-tune zerolatency"]] ++
    after /\
    In (ffmpeg Sample.source_stream) before /\
    existsb is_setting before = false /\
    existsb is_setting after = false.
Proof.
  apply (DownloadFacts.C4_fixed_trim_and_format idRegex_test ascii_toLowerCase
           Sample.request (Sample.world (Sample.titled (Some (lit "A title"))))
           (id := Sample.id) (info := {| videoDetails_title := Some (lit "A title") |}));
    reflexivity.
Defined.

Lemma C7_cancel_tears_down_witness :
  In (ffmpeg Sample.source_stream)
     (trace (Sample.world (Sample.titled None)) (Sample.GET Sample.request)) /\
  In (pipe Sample.command Sample.pass_through true)
     (trace (Sample.world (Sample.titled None)) (Sample.GET Sample.request)) /\
  trace (Sample.world (Sample.titled None)) (cancel Sample.response_stream) =
  [console log (lit "ReadableStream cancelled for videoId " ++ Sample.id ++
                lit ". Destroying streams and FFmpeg process.");
   destroy Sample.source_stream;
   destroy Sample.pass_through;
   kill Sample.command (lit "SIGKILL");
   console log (lit "FFmpeg process killed for videoId " ++ Sample.id ++ lit ".")].
Proof.
  destruct (DownloadFacts.C7_cancel_tears_down idRegex_test ascii_toLowerCase
              Sample.request (Sample.world (Sample.titled None))
              (s := Sample.response_stream) (id := Sample.id)
              (source := Sample.source_stream) (output := Sample.pass_through)
              (command := Sample.command)
              eq_refl eq_refl eq_refl eq_refl eq_refl eq_refl eq_refl eq_refl)
    as (Hsource & Hpipe & Hcancel).
  split; [exact Hsource |]. split; [exact Hpipe |]. apply Hcancel.
Defined.

(** C8, the claim as stated, fails: an empty title is not absent, and the
    name is made from [youtube_video] all the same. *)
Lemma C8_empty_title_counterexample :
  headers (result (Sample.world (Sample.titled (Some []))) (Sample.GET Sample.request)) =
  [(lit "Content-Type", lit "video/mp4");
   (lit "Content-Disposition",
    lit "attachment; filename=" ++ dquote ++ lit "youtube_video_trimmed_30s.mp4" ++ dquote)] /\
  Spec.claimed_filename (Some []) = lit "_trimmed_30s.mp4" /\
  filename {| videoDetails_title := Some [] |} <> Spec.claimed_filename (Some []).
Proof. vm_compute. repeat split. discriminate. Qed.

Lemma C8_attachment_headers_witness :
  exists id info cleaned collapsed,
    videoId_of Sample.request = Some id /\
    Sample.world (Sample.titled (Some (lit "What? A  title"))) (ytdl_getInfo (videoUrl id)) =
    Returned info /\
    Spec.unsafe_replaced
      match videoDetails_title info with
      | Some (c :: title) => c :: title
      | _ => lit "youtube_video"
      end
      cleaned /\
    Spec.runs_replaced cleaned collapsed /\
    (List.length (firstn 100 collapsed) <= 100)%nat /\
    headers (result (Sample.world (Sample.titled (Some (lit "What? A  title"))))
                    (Sample.GET Sample.request)) =
    [(lit "Content-Type", lit "video/mp4");
     (lit "Content-Disposition",
      lit "attachment; filename=" ++ dquote ++
      (firstn 100 collapsed ++ lit "_trimmed_30s.mp4") ++ dquote)].
Proof.
  apply (DownloadFacts.C8_attachment_headers idRegex_test ascii_toLowerCase
           Sample.request (Sample.world (Sample.titled (Some (lit "What? A  title"))))
           (s := Sample.response_stream)).
  reflexivity.
Defined.

(** The header of that download, computed. *)
Example attachment_of_a_title :
  headers (result (Sample.world (Sample.titled (Some (lit "What? A  title"))))
                  (Sample.GET Sample.request)) =
  [(lit "Content-Type", lit "video/mp4");
   (lit "Content-Disposition",
    lit "attachment; filename=" ++ dquote ++ lit "What__A_title_trimmed_30s.mp4" ++ dquote)].
Proof. vm_compute. reflexivity. Qed.

End DownloadExamples.

(* ================================================================== *)
(** ** The listing handler *)
(* ================================================================== *)

Module ListingFacts.
Import Item Listing.

Lemma not_configured_run (w : oracle ls) :
  run w not_configured =
  ({| status := 500;
      response_body :=
        message_json (lit "YouTube API Key is not configured on the server.") None |},
   [console warn (lit "YouTube API Key not found in /api/collect-videos.")]).
Proof. reflexivity. Qed.

(** Without a key, or with an empty one, the handler is the branch of
    [if (!apiKey)]. *)
Lemma GET_not_configured (apiKey : option jsstring) (w : oracle ls) :
  falsy apiKey = true ->
  run w (GET apiKey) =
  (Returned {| status := 500;
               response_body :=
                 message_json (lit "YouTube API Key is not configured on the server.")
                              None |},
   [console warn (lit "YouTube API Key not found in /api/collect-videos.")]).
Proof.
  destruct apiKey as [key |]; [| reflexivity].
  unfold falsy, GET. intros ->. reflexivity.
Qed.

(** With a key that is not empty the handler is its [try] statement, which
    starts with the search. *)
Lemma GET_run (key : jsstring) (w : oracle ls) :
  truthy key = true ->
  let search := search_list {| version := lit "v3"; auth := key |}
                            {| part := [lit "snippet"];
                               q := lit "talk about money";
                               type := [lit "video"];
                               maxResults := 10 |} in
  match w search with
  | Returned response =>
      run w (GET (Some key)) =
      (Returned {| status := 200;
                   response_body := videos_json match data_items response with
                                                | Some items => items
                                                | None => []
                                                end |},
       [search])
  | Threw (thrown_value err) =>
      exists text,
      run w (GET (Some key)) =
      (Returned {| status := 500;
                   response_body :=
                     message_json (lit "Error fetching videos from YouTube API.")
                                  (Some text) |},
       [search; console error (lit "Error fetching YouTube videos in API route:")])
  | Threw null_or_undefined =>
      run w (GET (Some key)) =
      (Threw cannot_read_properties,
       [search; console error (lit "Error fetching YouTube videos in API route:")])
  end.
Proof.
  intros Hkey. unfold GET. rewrite Hkey. cbn [negb].
  unfold try_block, catch_block, do_. cbn [bind bind_try try_catch call run].
  destruct (w (search_list _ _)) as [response | [| err]]; cbn.
  - reflexivity.
  - reflexivity.
  - eexists. reflexivity.
Qed.

(** C3.  Without the [YOUTUBE_API_KEY] variable the handler answers 500
    with the message [YouTube API Key is not configured on the server.] and
    only logs a warning; a search call, like an answer that lists videos,
    means that the variable is set, to a key that is not empty. *)
Theorem C3_credential_required :
  (forall w : oracle ls,
      result w (GET None) =
      Returned
        {| status := 500;
           response_body :=
             message_json (lit "YouTube API Key is not configured on the server.") None |} /\
      existsb is_search (trace w (GET None)) = false) /\
  (forall (apiKey : option jsstring) (w : oracle ls),
      existsb is_search (trace w (GET apiKey)) = true ->
      exists key, apiKey = Some key /\ truthy key = true) /\
  (forall (apiKey : option jsstring) (w : oracle ls) answer videos,
      result w (GET apiKey) = Returned answer ->
      response_body answer = videos_json videos ->
      exists key, apiKey = Some key /\ truthy key = true /\
                  existsb is_search (trace w (GET apiKey)) = true).
Proof.
  split; [| split].
  - intros w. unfold result, trace. rewrite (GET_not_configured None w eq_refl). auto.
  - intros apiKey w. destruct (falsy apiKey) eqn:Hkey.
    + unfold trace. rewrite (GET_not_configured apiKey w Hkey). discriminate.
    + destruct apiKey as [key |]; [| discriminate].
      apply negb_false_iff in Hkey. eauto.
  - intros apiKey w answer videos. destruct (falsy apiKey) eqn:Hkey.
    + unfold result. rewrite (GET_not_configured apiKey w Hkey). cbn [fst].
      intros H. injection H as <-. discriminate.
    + destruct apiKey as [key |]; [| discriminate].
      apply negb_false_iff in Hkey.
      intros _ _. exists key. split; [reflexivity |]. split; [assumption |].
      pose proof (GET_run key w Hkey) as Hrun. cbv zeta in Hrun.
      unfold trace.
      destruct (w (search_list _ _)) as [response | [| err]].
      * rewrite Hrun. reflexivity.
      * rewrite Hrun. reflexivity.
      * destruct Hrun as [text Hrun]. rewrite Hrun. reflexivity.
Qed.

(** C5 (as amended).  With a key that is there and not empty the handler
    makes exactly one search call, with part [snippet], type [video], the
    query [talk about money] and 10 results at most; when the call returns,
    the answer is the JSON list of its items, the empty list when it has
    none. *)
Theorem C5_one_search_call (key : jsstring) (w : oracle ls) :
  truthy key = true ->
  filter is_search (trace w (GET (Some key))) =
  [search_list {| version := lit "v3"; auth := key |}
               {| part := [lit "snippet"];
                  q := lit "talk about money";
                  type := [lit "video"];
                  maxResults := 10 |}] /\
  forall response,
    w (search_list {| version := lit "v3"; auth := key |}
                   {| part := [lit "snippet"];
                      q := lit "talk about money";
                      type := [lit "video"];
                      maxResults := 10 |}) = Returned response ->
    result w (GET (Some key)) =
    Returned
      {| status := 200;
         response_body := videos_json match data_items response with
                                      | Some items => items
                                      | None => []
                                      end |}.
Proof.
  intros Hkey. pose proof (GET_run key w Hkey) as Hrun. cbv zeta in Hrun.
  unfold result, trace.
  destruct (w (search_list _ _)) as [response | [| err]].
  - rewrite Hrun. split; [reflexivity |].
    intros response' H. injection H as <-. reflexivity.
  - rewrite Hrun. split; [reflexivity | discriminate].
  - destruct Hrun as [text Hrun]. rewrite Hrun. split; [reflexivity | discriminate].
Qed.

End ListingFacts.

Module ListingExamples.
Import Item Listing.

Lemma C3_credential_required_witness :
  (result (ListingSample.world (ListingSample.found None)) (GET None) =
   Returned
     {| status := 500;
        response_body :=
          message_json (lit "YouTube API Key is not configured on the server.") None |} /\
   existsb is_search (trace (ListingSample.world (ListingSample.found None)) (GET None)) = false) /\
  (exists key, Some ListingSample.key = Some key /\ truthy key = true) /\
  (exists key, Some ListingSample.key = Some key /\ truthy key = true /\
               existsb is_search
                 (trace (ListingSample.world (ListingSample.found (Some [ListingSample.video])))
                        (GET (Some ListingSample.key))) = true).
Proof.
  split; [| split].
  - apply (proj1 ListingFacts.C3_credential_required).
  - apply (proj1 (proj2 ListingFacts.C3_credential_required) (Some ListingSample.key)
             (ListingSample.world (ListingSample.found None))).
    reflexivity.
  - apply (proj2 (proj2 ListingFacts.C3_credential_required) (Some ListingSample.key)
             (ListingSample.world (ListingSample.found (Some [ListingSample.video])))
             {| status := 200; response_body := videos_json [ListingSample.video] |}
             [ListingSample.video]);
      reflexivity.
Defined.

(** C5, the claim as stated, fails: with [YOUTUBE_API_KEY] set to the
    empty string the variable is there and no search call is made; and with
    a key, when the search call throws, the answer is not a list of items. *)
Lemma C5_empty_key_counterexample :
  filter is_search
         (trace (ListingSample.world (ListingSample.found (Some [ListingSample.video])))
                (GET (Some []))) = [] /\
  result (ListingSample.world (ListingSample.found (Some [ListingSample.video])))
         (GET (Some [])) =
  Returned
    {| status := 500;
       response_body :=
         message_json (lit "YouTube API Key is not configured on the server.") None |} /\
  result (ListingSample.world
            (Threw (thrown_value {| response_data_error := None;
                                    message := Some (lit "quota exceeded") |})))
         (GET (Some ListingSample.key)) =
  Returned
    {| status := 500;
       response_body := message_json (lit "Error fetching videos from YouTube API.")
                                     (Some (lit "quota exceeded")) |}.
Proof. repeat split. Qed.

Lemma C5_one_search_call_witness :
  filter is_search
         (trace (ListingSample.world (ListingSample.found (Some [ListingSample.video])))
                (GET (Some ListingSample.key))) =
  [search_list {| version := lit "v3"; auth := ListingSample.key |}
               {| part := [lit "snippet"];
                  q := lit "talk about money";
                  type := [lit "video"];
                  maxResults := 10 |}] /\
  result (ListingSample.world (ListingSample.found (Some [ListingSample.video])))
         (GET (Some ListingSample.key)) =
  Returned {| status := 200; response_body := videos_json [ListingSample.video] |}.
Proof.
  destruct (ListingFacts.C5_one_search_call ListingSample.key
              (ListingSample.world (ListingSample.found (Some [ListingSample.video])))
              eq_refl) as [Hcalls Hanswer].
  split; [exact Hcalls |].
  apply (Hanswer {| data_items := Some [ListingSample.video] |}). reflexivity.
Defined.

End ListingExamples.

(* ================================================================== *)
(** ** The presentation page *)
(* ================================================================== *)

Module PageFacts.
Import Item Page.

(** [videos] and [fetchError] after the [try] statement, from how its
    block ended. *)
Lemma fetch_videos_result (url : option jsstring) (w : oracle pg) :
  result w (fetch_videos url) =
  match result w (try_block url) with
  | Returned videos => (videos, None)
  | Threw (Error message_) => ([], Some message_)
  | Threw not_an_Error =>
      ([], Some (lit "An unknown error occurred while fetching videos."))
  end.
Proof.
  unfold fetch_videos. rewrite result_try_catch. unfold bind_try.
  rewrite result_bind.
  destruct (result w (try_block url)) as [videos | [message_ |]]; reflexivity.
Qed.

(** Past the guard of the callback the snippet is there: no property of
    undefined is read. *)
Lemma render_video_returns (video : YouTubeVideoItem) :
  exists c, render_video video = Returned c.
Proof.
  unfold render_video.
  destruct (falsy (opt (id video) videoId) || falsy (opt (snippet video) title) ||
            falsy (opt (opt (opt (snippet video) thumbnails) medium) url)) eqn:Hguard.
  - eexists. reflexivity.
  - destruct (snippet video) as [sn |]; simpl.
    + eexists. reflexivity.
    + simpl in Hguard. rewrite orb_true_r in Hguard. discriminate.
Qed.

Lemma render_videos_returns (videos : list YouTubeVideoItem) :
  exists cards,
    render_videos videos = Returned cards /\
    Forall2 (fun video c => render_video video = Returned c) videos cards.
Proof.
  induction videos as [| video videos [cards [IH1 IH2]]]; simpl.
  - exists []. split; [reflexivity | constructor].
  - destruct (render_video_returns video) as [c Hc]. rewrite Hc, IH1.
    exists (c :: cards). split; [reflexivity | constructor; assumption].
Qed.

(** What is rendered, from [videos] and [fetchError]. *)
Lemma render_sections (videos : list YouTubeVideoItem) (fetchError : option jsstring) :
  exists section,
    render videos fetchError = Returned [section] /\
    ((falsy fetchError = true /\ videos <> [] /\
      exists cards, render_videos videos = Returned cards /\ section = video_grid cards)
     \/ (falsy fetchError = true /\ videos = [] /\
         section = paragraph (lit "No videos found."))
     \/ (falsy fetchError = false /\
         exists message_, fetchError = Some message_ /\
                          section = paragraph (lit "Error: " ++ message_))).
Proof.
  unfold render.
  destruct (falsy fetchError) eqn:Herr; cbn [andb negb shown].
  - destruct videos as [| video videos].
    + eexists. split; [reflexivity |]. right. left. auto.
    + destruct (render_videos_returns (video :: videos)) as [cards [Hcards _]].
      replace (0 <? Z.of_nat (List.length (video :: videos)))%Z with true
        by (symmetry; apply Z.ltb_lt; simpl List.length; lia).
      replace (Z.of_nat (List.length (video :: videos)) =? 0)%Z with false
        by (symmetry; apply Z.eqb_neq; simpl List.length; lia).
      rewrite Hcards. eexists. split; [reflexivity |].
      left. split; [reflexivity |]. split; [discriminate |]. eauto.
  - destruct fetchError as [message_ |]; [| discriminate].
    unfold falsy in Herr. apply negb_false_iff in Herr.
    unfold or_else. rewrite Herr.
    eexists. split; [reflexivity |]. right. right. split; [reflexivity |]. eauto.
Qed.

(** When the [try] statement is over the list is empty or no error was
    recorded, and the page has one section: the grid when [fetchError] is
    falsy and the list is not empty, [No videos found.] when [fetchError] is
    falsy and the list is empty, the error text when [fetchError] is
    truthy. *)
Lemma Home_one_section (NEXT_PUBLIC_APP_URL : option jsstring) (w : oracle pg) :
  exists videos fetchError section,
    result w (fetch_videos NEXT_PUBLIC_APP_URL) = (videos, fetchError) /\
    (fetchError = None \/ videos = []) /\
    result w (Home NEXT_PUBLIC_APP_URL) = Returned [section] /\
    ((falsy fetchError = true /\ videos <> [] /\
      exists cards, render_videos videos = Returned cards /\ section = video_grid cards)
     \/ (falsy fetchError = true /\ videos = [] /\
         section = paragraph (lit "No videos found."))
     \/ (falsy fetchError = false /\
         exists message_, fetchError = Some message_ /\
                          section = paragraph (lit "Error: " ++ message_))).
Proof.
  unfold Home. rewrite result_bind.
  destruct (result w (fetch_videos NEXT_PUBLIC_APP_URL)) as [videos fetchError] eqn:Hfetch.
  destruct (render_sections videos fetchError) as [section [Hrender Hcases]].
  exists videos, fetchError, section.
  split; [reflexivity |]. split.
  - rewrite fetch_videos_result in Hfetch.
    destruct (result w (try_block NEXT_PUBLIC_APP_URL)) as [vs | [m |]];
      injection Hfetch as <- <-; auto.
  - split; [exact Hrender | exact Hcases].
Qed.

(** When the fetch goes through, the page shows [No videos found.] for an
    empty list and the grid otherwise; when it fails with a message that is
    not empty, the page shows that message and no grid. *)
Lemma Home_after_fetch (NEXT_PUBLIC_APP_URL : option jsstring) (w : oracle pg) :
  match result w (try_block NEXT_PUBLIC_APP_URL) with
  | Returned [] =>
      result w (Home NEXT_PUBLIC_APP_URL) = Returned [paragraph (lit "No videos found.")]
  | Returned (video :: videos) =>
      exists cards, result w (Home NEXT_PUBLIC_APP_URL) = Returned [video_grid cards]
  | Threw (Error (c :: message_)) =>
      result w (Home NEXT_PUBLIC_APP_URL) =
      Returned [paragraph (lit "Error: " ++ c :: message_)]
  | Threw (Error []) =>
      result w (Home NEXT_PUBLIC_APP_URL) = Returned [paragraph (lit "No videos found.")]
  | Threw not_an_Error =>
      result w (Home NEXT_PUBLIC_APP_URL) =
      Returned [paragraph (lit "Error: An unknown error occurred while fetching videos.")]
  end.
Proof.
  unfold Home. rewrite result_bind, fetch_videos_result.
  destruct (result w (try_block NEXT_PUBLIC_APP_URL)) as [[| video videos] | [[| c m] |]];
    try reflexivity.
  destruct (render_sections (video :: videos) None)
    as [section [Hrender [(_ & _ & cards & _ & ->) | [(_ & H & _) | (H & _)]]]];
    try discriminate.
  exists cards. exact Hrender.
Qed.

End PageFacts.

Module PageExamples.
Import Item Page.

(** The answer of the listing handler without its key, as the page shows
    it. *)
Example failed_response_with_message :
  result (PageSample.world
            (Returned (failed_response 500
                         (Some (JObject [(lit "message",
                                          JString (lit "YouTube API Key is not configured on the server."))])))))
         (Home None) =
  Returned [paragraph (lit "Error: YouTube API Key is not configured on the server.")].
Proof. reflexivity. Qed.

Example failed_response_without_body :
  result (PageSample.world (Returned (failed_response 502 None))) (Home None) =
  Returned [paragraph (lit "Error: API request failed with status 502")].
Proof. reflexivity. Qed.

End PageExamples.

(* ================================================================== *)
(** ** Sequencing, from a run of the first part *)
(* ================================================================== *)

Lemma trace_after {S A B} (w : oracle S) (p : prog S A) (f : A -> prog S B)
      (a : A) (t : list (op S)) :
  run w p = (a, t) -> trace w (bind p f) = t ++ trace w (f a).
Proof. intros H. rewrite trace_bind. unfold trace at 1, result. rewrite H. reflexivity. Qed.

Lemma result_after {S A B} (w : oracle S) (p : prog S A) (f : A -> prog S B)
      (a : A) (t : list (op S)) :
  run w p = (a, t) -> result w (bind p f) = result w (f a).
Proof. intros H. rewrite result_bind. unfold result at 2. rewrite H. reflexivity. Qed.

(* ================================================================== *)
(** ** More on the file name *)
(* ================================================================== *)

Module FilenameFacts.
Import Download.

Lemma replace_unsafe_plain (s : jsstring) :
  forallb Spec.plain s = true -> replace_unsafe s = s.
Proof.
  unfold replace_unsafe. induction s as [| c s IH]; simpl; [reflexivity |].
  intros H. apply andb_prop in H. destruct H as [Hc Hs].
  rewrite (IH Hs). unfold is_unsafe.
  replace (is_word c || is_space c || (c =? hyphen)%N || (c =? JS.dot)%N) with true;
    [reflexivity |].
  unfold Spec.plain in Hc.
  destruct (is_word c); [reflexivity |].
  destruct ((c =? hyphen)%N); [rewrite !orb_true_r; reflexivity |].
  simpl in Hc. rewrite Hc, !orb_true_r. reflexivity.
Qed.

(** A plain character is an ASCII character that is no white space, no
    quote, no slash and no backslash. *)
Lemma plain_ascii (c : code_unit) :
  Spec.plain c = true ->
  (c < 128)%N /\ is_space c = false /\ c <> 34%N /\ c <> 47%N /\ c <> 92%N.
Proof.
  unfold Spec.plain, is_word, is_space, between, hyphen, JS.dot.
  rewrite !orb_true_iff, !andb_true_iff, !N.leb_le, !N.eqb_eq. intros H.
  repeat split; try lia.
  apply not_true_is_false.
  rewrite !orb_true_iff, !andb_true_iff, !N.leb_le, !N.eqb_eq. lia.
Qed.

Lemma replace_spaces_plain_id (s : jsstring) :
  forallb Spec.plain s = true -> replace_spaces s = s.
Proof.
  induction s as [| c s IH]; simpl; [reflexivity |].
  intros H. apply andb_prop in H. destruct H as [Hc Hs].
  destruct (plain_ascii c Hc) as (_ & -> & _). rewrite (IH Hs). reflexivity.
Qed.

Lemma replace_spaces_nonempty (s : jsstring) : s <> [] -> replace_spaces s <> [].
Proof.
  destruct s as [| c s]; [congruence |]. intros _. simpl.
  destruct (is_space c); discriminate.
Qed.

Lemma or_else_nonempty (x : option jsstring) (d : jsstring) :
  d <> [] -> or_else x d <> [].
Proof.
  intros Hd. unfold or_else. destruct x as [[| c s] |]; simpl; auto. discriminate.
Qed.

(** X1.  Whatever the title, the file name of the attachment is made of
    ASCII letters, digits, underscores, hyphens and dots only, and is 17 to
    116 characters long: no white space, quote, slash, backslash or
    character beyond ASCII reaches the [Content-Disposition] header. *)
Theorem X1_filename_is_safe (info : videoInfo) :
  (17 <= List.length (filename info) <= 116)%nat /\
  forallb Spec.plain (filename info) = true /\
  forall c, In c (filename info) ->
            (c < 128)%N /\ is_space c = false /\ c <> 34%N /\ c <> 47%N /\ c <> 92%N.
Proof.
  assert (Hplain : forallb Spec.plain (filename info) = true).
  { unfold filename. rewrite forallb_app, StringFacts.sanitizedFilenameBase_plain.
    reflexivity. }
  split; [| split; [exact Hplain |]].
  - unfold filename. rewrite length_app.
    pose proof (StringFacts.sanitizedFilenameBase_length
                  (or_else (videoDetails_title info) (lit "youtube_video"))) as Hmax.
    assert (Hmin : sanitizedFilenameBase
                     (or_else (videoDetails_title info) (lit "youtube_video")) <> []).
    { unfold sanitizedFilenameBase, substring0.
      assert (H : replace_spaces
                    (replace_unsafe (or_else (videoDetails_title info)
                                             (lit "youtube_video"))) <> []).
      { apply replace_spaces_nonempty. unfold replace_unsafe. intros H.
        apply map_eq_nil in H. revert H. apply or_else_nonempty. discriminate. }
      destruct (replace_spaces _); [congruence | discriminate]. }
    destruct (sanitizedFilenameBase _) as [| c base]; [congruence |].
    simpl in *. lia.
  - intros c Hc. apply plain_ascii.
    rewrite forallb_forall in Hplain. apply Hplain. exact Hc.
Qed.

(** X2.  A title of at most 100 characters, all of them letters, digits,
    underscores, hyphens or dots, is the base of the file name as it is. *)
Theorem X2_plain_title_is_kept (videoTitle : jsstring) :
  forallb Spec.plain videoTitle = true ->
  (List.length videoTitle <= 100)%nat ->
  sanitizedFilenameBase videoTitle = videoTitle.
Proof.
  intros Hplain Hlen. unfold sanitizedFilenameBase, substring0.
  rewrite (replace_unsafe_plain videoTitle Hplain),
          (replace_spaces_plain_id videoTitle Hplain).
  apply firstn_all2. exact Hlen.
Qed.

Lemma X2_plain_title_is_kept_witness :
  sanitizedFilenameBase (lit "Never-Gonna.Give_You_Up") = lit "Never-Gonna.Give_You_Up".
Proof.
  apply X2_plain_title_is_kept; [reflexivity | simpl; lia].
Defined.

(** X3.  Sanitizing is idempotent: a base that went through the three
    steps goes through them again unchanged. *)
Theorem X3_sanitizing_twice (videoTitle : jsstring) :
  sanitizedFilenameBase (sanitizedFilenameBase videoTitle) =
  sanitizedFilenameBase videoTitle.
Proof.
  unfold sanitizedFilenameBase at 1. unfold substring0.
  rewrite (replace_unsafe_plain _ (StringFacts.sanitizedFilenameBase_plain videoTitle)),
          (replace_spaces_plain_id _ (StringFacts.sanitizedFilenameBase_plain videoTitle)).
  apply firstn_all2, StringFacts.sanitizedFilenameBase_length.
Qed.

End FilenameFacts.

(* ================================================================== *)
(** ** More on the download handler *)
(* ================================================================== *)

Module DownloadMore.
Import Download Calls.

Lemma startsWith_app (m rest : jsstring) : startsWith (m ++ rest) m = true.
Proof.
  induction m as [| c m IH]; simpl; [destruct rest; reflexivity |].
  rewrite N.eqb_refl, IH. reflexivity.
Qed.

Lemma includes_startsWith (s needle : jsstring) :
  startsWith s needle = true -> includes s needle = true.
Proof. intros H. destruct s; cbn [includes]; rewrite H; reflexivity. Qed.

Lemma includes_app_l (before s needle : jsstring) :
  includes s needle = true -> includes (before ++ s) needle = true.
Proof.
  intros H. induction before as [| c before IH]; [exact H |].
  cbn [app includes]. rewrite IH. apply orb_true_r.
Qed.

Lemma includes_middle (before m after : jsstring) :
  includes (before ++ m ++ after) m = true.
Proof. apply includes_app_l, includes_startsWith, startsWith_app. Qed.

Lemma includes_self (m : jsstring) : includes m m = true.
Proof.
  apply includes_startsWith. rewrite <- (app_nil_r m) at 1. apply startsWith_app.
Qed.

Lemma console_no_teardown (t : list dl_op) :
  forallb is_console t = true ->
  existsb is_teardown t = false /\ List.filter is_pipe t = [] /\ existsb is_setting t = false.
Proof.
  induction t as [| e t IH]; simpl; [auto |].
  intros H. apply andb_prop in H. destruct H as [He Ht].
  destruct (IH Ht) as (IH1 & IH2 & IH3).
  destruct e; try discriminate. simpl. auto.
Qed.

Lemma mapped_status_range (lowered : jsstring) :
  In (Spec.mapped_status lowered) [404; 503; 422; 403; 500]%Z.
Proof.
  unfold Spec.mapped_status.
  repeat match goal with
         | |- context [if ?b then _ else _] => destruct b
         end; simpl; tauto.
Qed.

Section Handler.

Variable validateID : jsstring -> bool.
Variable toLowerCase : jsstring -> jsstring.

(** The [catch] block: its answer from [classify], and nothing but logging
    on the way. *)
Lemma catch_block_string (w : oracle dl) (id message : jsstring) :
  result w (catch_block toLowerCase id (ThrownTruthy (MessageString message))) =
  NextResponse_json (snd (fst (classify toLowerCase id message))) (Some id)
                    (fst (fst (classify toLowerCase id message))).
Proof.
  unfold catch_block, do_. step.
  destruct (classify toLowerCase id message) as [[statusCode errorMessage] detailed].
  destruct detailed; step; reflexivity.
Qed.

Lemma catch_block_console (w : oracle dl) (id : jsstring) (err : thrown) :
  forallb is_console (trace w (catch_block toLowerCase id err)) = true.
Proof.
  unfold catch_block, do_. step.
  destruct err as [| [message | printed |]]; step; try reflexivity.
  destruct (classify toLowerCase id message) as [[statusCode errorMessage] detailed].
  destruct detailed; step; reflexivity.
Qed.

(** X4.  Every answer of the handler is either the stream under status
    200, or a JSON error body under one of the statuses 400, 403, 404, 422,
    500 and 503: no error is answered with 200 and no stream with an error
    status. *)
Theorem X4_status_and_body_agree (request : NextRequest) (w : oracle dl) :
  (status (result w (GET validateID toLowerCase request)) = 200%Z /\
   exists s, response_body (result w (GET validateID toLowerCase request)) = streaming s)
  \/
  (In (status (result w (GET validateID toLowerCase request)))
      [400; 403; 404; 422; 500; 503]%Z /\
   exists text videoId,
     response_body (result w (GET validateID toLowerCase request)) = json text videoId).
Proof.
  unfold GET.
  destruct (videoId_of request) as [id |];
    [| right; split; [simpl; tauto | eexists; eexists; reflexivity]].
  destruct (truthy id); cbn [negb];
    [| right; split; [simpl; tauto | eexists; eexists; reflexivity]].
  destruct (validateID id); cbn [negb];
    [| right; split; [simpl; tauto | eexists; eexists; reflexivity]].
  rewrite result_try_catch.
  destruct (DownloadFacts.try_block_run w id)
    as [(info & source & command & _ & _ & _ & Hr & _) | [err Herr]].
  - rewrite Hr. left. split; [reflexivity | eexists; reflexivity].
  - rewrite Herr. right.
    destruct (DownloadFacts.catch_block_result toLowerCase w id err) as [text ->].
    split; [| eexists; eexists; reflexivity].
    cbn [status NextResponse_json].
    destruct err as [| [message | printed |]]; try (simpl; tauto).
    pose proof (mapped_status_range (toLowerCase message)) as H.
    simpl in H |- *. tauto.
Qed.

(** The calls of a run of the [try] statement, by how far the setup
    got. *)
Lemma GET_trace_cases (id : jsstring) (w : oracle dl) :
  let options := {| quality := lit "highestvideo"; filter := mp4_with_audio_and_video |} in
  exists logs,
    forallb is_console logs = true /\
    (trace w (try_catch (try_block id) (catch_block toLowerCase id)) =
     [ytdl_getInfo (videoUrl id)] ++ logs /\
     (exists err, w (ytdl_getInfo (videoUrl id)) = Threw err)
     \/
     trace w (try_catch (try_block id) (catch_block toLowerCase id)) =
     [ytdl_getInfo (videoUrl id); ytdl (videoUrl id) options] ++ logs /\
     (exists err, w (ytdl (videoUrl id) options) = Threw err)
     \/
     (exists source,
         w (ytdl (videoUrl id) options) = Returned source /\
         trace w (try_catch (try_block id) (catch_block toLowerCase id)) =
         firstn 7 (setup_calls id source (w new_PassThrough) source) ++ logs)
     \/
     (exists source command,
         w (ytdl (videoUrl id) options) = Returned source /\
         w (ffmpeg source) = Returned command /\
         trace w (try_catch (try_block id) (catch_block toLowerCase id)) =
         firstn 17 (setup_calls id source (w new_PassThrough) command) ++ logs)
     \/
     (exists source command,
         w (ytdl (videoUrl id) options) = Returned source /\
         w (ffmpeg source) = Returned command /\
         logs = [] /\
         trace w (try_catch (try_block id) (catch_block toLowerCase id)) =
         setup_calls id source (w new_PassThrough) command)).
Proof.
  intros options. rewrite trace_try_catch. unfold try_block, do_. step.
  destruct (w (ytdl_getInfo _)) as [info | e] eqn:Hinfo; step.
  2:{ exists (trace w (catch_block toLowerCase id e)).
      split; [apply catch_block_console |]. left. split; [reflexivity | eauto]. }
  fold options.
  destruct (w (ytdl _ _)) as [source | e] eqn:Hsource; step.
  2:{ exists (trace w (catch_block toLowerCase id e)).
      split; [apply catch_block_console |]. right. left. split; [reflexivity | eauto]. }
  destruct (w (ffmpeg _)) as [command | e] eqn:Hcommand; step.
  2:{ exists (trace w (catch_block toLowerCase id e)).
      split; [apply catch_block_console |]. right. right. left.
      exists source. split; reflexivity. }
  destruct (w (pipe _ _ _)) as [[] | e] eqn:Hpipe; step.
  2:{ exists (trace w (catch_block toLowerCase id e)).
      split; [apply catch_block_console |]. right. right. right. left.
      exists source, command. repeat split; auto. }
  exists []. split; [reflexivity |]. right. right. right. right.
  exists source, command. repeat split; auto.
Qed.

(** X5.  The handler itself never destroys a stream and never kills the
    command, however its setup ends: teardown is left to the [cancel]
    callback, and a source stream that was opened before a later step threw
    is not destroyed by the [catch] block. *)
Theorem X5_no_teardown_during_setup (request : NextRequest) (w : oracle dl) :
  existsb is_teardown (trace w (GET validateID toLowerCase request)) = false.
Proof.
  unfold GET.
  destruct (videoId_of request) as [id |]; [| reflexivity].
  destruct (truthy id); cbn [negb]; [| reflexivity].
  destruct (validateID id); cbn [negb]; [| reflexivity].
  destruct (GET_trace_cases id w) as (logs & Hlogs & Hcases). cbv zeta in Hcases.
  destruct (console_no_teardown logs Hlogs) as (Hteardown & _ & _).
  destruct Hcases
    as [[-> _] | [[-> _] | [(source & _ & ->) | [(source & command & _ & _ & ->)
                                                | (source & command & _ & _ & _ & ->)]]]];
    rewrite ?existsb_app, ?Hteardown; reflexivity.
Qed.

(** X6.  When [getInfo] rejects, nothing is opened: the handler makes no
    other call than that one and its logging, and answers with what the
    [catch] block makes of the rejection. *)
Theorem X6_nothing_opened_when_getInfo_rejects
        (request : NextRequest) (w : oracle dl) (id : jsstring) (err : thrown) :
  videoId_of request = Some id -> truthy id = true -> validateID id = true ->
  w (ytdl_getInfo (videoUrl id)) = Threw err ->
  result w (GET validateID toLowerCase request) =
  result w (catch_block toLowerCase id err) /\
  exists logs,
    trace w (GET validateID toLowerCase request) = ytdl_getInfo (videoUrl id) :: logs /\
    forallb is_console logs = true.
Proof.
  intros Hget Hid Hok Hinfo.
  rewrite (DownloadFacts.GET_valid validateID toLowerCase request Hget Hid Hok).
  rewrite result_try_catch, trace_try_catch.
  unfold try_block, do_. step. rewrite Hinfo. step.
  split; [reflexivity |].
  exists (trace w (catch_block toLowerCase id err)).
  split; [reflexivity | apply catch_block_console].
Qed.

(** X7.  The text of an error answer: for a thrown [Error] with a string
    message, the answer 404 has a fixed text that does not depend on the
    message, and every other answer (503, 422, 403, 500) carries the message
    of the library inside its text. *)
Theorem X7_error_text (request : NextRequest) (w : oracle dl) (id message : jsstring) :
  videoId_of request = Some id -> truthy id = true -> validateID id = true ->
  result w (try_block id) = Threw (ThrownTruthy (MessageString message)) ->
  exists text,
    response_body (result w (GET validateID toLowerCase request)) = json text (Some id) /\
    (status (result w (GET validateID toLowerCase request)) = 404%Z ->
     text = lit "Video is unavailable, private, or not found.") /\
    (status (result w (GET validateID toLowerCase request)) <> 404%Z ->
     includes text message = true).
Proof.
  intros Hget Hid Hok Hthrew.
  rewrite (DownloadFacts.GET_valid validateID toLowerCase request Hget Hid Hok).
  rewrite result_try_catch, Hthrew, catch_block_string.
  eexists. split; [reflexivity |].
  cbn [status NextResponse_json]. unfold classify.
  repeat match goal with
         | |- context [if ?b then _ else _] => destruct b
         end;
    cbn [fst snd]; split; intros H; try reflexivity; try discriminate; try congruence;
    first [ apply includes_self
          | apply includes_middle
          | apply includes_app_l, includes_self
          | apply includes_app_l, includes_app_l, includes_app_l, includes_self ].
Qed.

(** X8.  The transcoding is started at most once in a request, with
    [end: true], and only on a command that already has its start time, its
    duration, its format and its output options; no setting follows the
    start. *)
Theorem X8_started_once_and_configured
        (request : NextRequest) (w : oracle dl) (command output : object) (end_ : bool) :
  In (pipe command output end_) (trace w (GET validateID toLowerCase request)) ->
  end_ = true /\
  List.filter is_pipe (trace w (GET validateID toLowerCase request)) =
  [pipe command output true] /\
  exists before after,
    trace w (GET validateID toLowerCase request) =
    before ++ pipe command output true :: after /\
    In (setStartTime command (lit "00:00:00")) before /\
    In (setDuration command 30) before /\
    In (toFormat command (lit "mp4")) before /\
    In (outputOptions command [lit "-movflags frag_keyframe+empty_moov";
                               lit "-preset ultrafast";
                               lit "-tune zerolatency"]) before /\
    existsb is_setting after = false.
Proof.
  unfold GET.
  destruct (videoId_of request) as [id |]; [| intros []].
  destruct (truthy id); cbn [negb]; [| intros []].
  destruct (validateID id); cbn [negb]; [| intros []].
  destruct (GET_trace_cases id w) as (logs & Hlogs & Hcases). cbv zeta in Hcases.
  destruct (console_no_teardown logs Hlogs) as (_ & Hpipes & Hsettings).
  intros Hin.
  assert (Hfiltered : In (pipe command output end_)
                         (List.filter is_pipe
                            (trace w (try_catch (try_block id)
                                                (catch_block toLowerCase id)))))
    by (apply filter_In; split; [exact Hin | reflexivity]).
  destruct Hcases
    as [[Ht _] | [[Ht _] | [(source & _ & Ht) | [(source & command' & _ & _ & Ht)
                                                | (source & command' & _ & _ & _ & Ht)]]]];
    rewrite Ht in Hfiltered |- *; rewrite ?filter_app, ?Hpipes in Hfiltered |- *;
    cbn in Hfiltered; try tauto;
    destruct Hfiltered as [Heq | []]; injection Heq as <- <- <-;
    (split; [reflexivity |]); (split; [reflexivity |]).
  - exists (firstn 16 (setup_calls id source (w new_PassThrough) command')), logs.
    split; [reflexivity |]. cbn. tauto.
  - exists (firstn 16 (setup_calls id source (w new_PassThrough) command')),
           (skipn 17 (setup_calls id source (w new_PassThrough) command')).
    split; [reflexivity |]. cbn. tauto.
Qed.

End Handler.
End DownloadMore.

(* ================================================================== *)
(** ** More on the listing handler *)
(* ================================================================== *)

Module ListingMore.
Import Item Listing.



End ListingMore.

(* ================================================================== *)
(** ** More on the page *)
(* ================================================================== *)

Module PageMore.
Import Item Page Calls Cards.

(** How the [try] block of the page ends, from the answer of [fetch]. *)
Lemma page_try_block_run (url : option jsstring) (w : oracle pg) :
  let the_fetch := fetch (or_else url (lit "http://localhost:3000") ++
                          lit "/api/collect-videos") (lit "no-store") in
  exists logs,
    trace w (try_block url) = the_fetch :: logs /\
    List.filter is_fetch logs = [] /\
    result w (try_block url) =
    match w the_fetch with
    | Threw err => Threw err
    | Returned (ok_response json) => json
    | Returned (failed_response status json) =>
        Threw (throw_new_Error
          match json with
          | Some JNull | None =>
              JString (lit "API request failed with status " ++ print_status status)
          | Some errorData =>
              value_or (property errorData (lit "message"))
                (value_or (property errorData (lit "error"))
                   (JString (lit "API request failed with status " ++
                             print_status status)))
          end)
    end.
Proof.
  intros the_fetch. unfold try_block, do_. step. fold the_fetch.
  destruct (w the_fetch) as [[json | status json] | err]; step.
  - destruct json as [videos | err]; step; eexists; repeat split; reflexivity.
  - exists []. repeat split.
  - exists []. repeat split.
Qed.

(** X11.  Every render of the page makes exactly one [fetch], of
    [/api/collect-videos] under the address of [NEXT_PUBLIC_APP_URL], without
    caching; the address is [http://localhost:3000] when the variable is not
    set or is empty. *)
Theorem X11_one_fetch_per_render (NEXT_PUBLIC_APP_URL : option jsstring) (w : oracle pg) :
  List.filter is_fetch (trace w (Home NEXT_PUBLIC_APP_URL)) =
  [fetch (match NEXT_PUBLIC_APP_URL with
          | Some (c :: address) => c :: address
          | _ => lit "http://localhost:3000"
          end ++ lit "/api/collect-videos")
         (lit "no-store")].
Proof.
  destruct (page_try_block_run NEXT_PUBLIC_APP_URL w) as (logs & Ht & Hlogs & _).
  cbv zeta in Ht.
  unfold Home. rewrite trace_bind.
  replace (trace w (let '(videos, fetchError) := result w (fetch_videos NEXT_PUBLIC_APP_URL) in
                    Ret (render videos fetchError)))
    with (@nil pg_op)
    by (destruct (result w (fetch_videos NEXT_PUBLIC_APP_URL)); reflexivity).
  unfold fetch_videos, bind_try.
  rewrite trace_try_catch, trace_bind, result_bind, Ht.
  destruct (result w (try_block NEXT_PUBLIC_APP_URL)) as [videos | err];
    unfold do_; step; rewrite ?app_nil_r, ?filter_app; cbn [List.filter is_fetch app].
  all: cbn [op pg] in *; rewrite Hlogs; destruct NEXT_PUBLIC_APP_URL as [[| c address] |]; reflexivity.
Qed.

(** A recorded error with a message that is not empty is what the page
    shows. *)
Lemma Home_shows_error (url : option jsstring) (w : oracle pg) (message_ : jsstring) :
  result w (try_block url) = Threw (Error message_) ->
  truthy message_ = true ->
  result w (Home url) = Returned [paragraph (lit "Error: " ++ message_)].
Proof.
  intros Hr Hm. pose proof (PageFacts.Home_after_fetch url w) as H.
  rewrite Hr in H. destruct message_ as [| c message_]; [discriminate | exact H].
Qed.

(** What the page shows of a recorded error, whatever its message. *)
Lemma Home_shows_thrown (url : option jsstring) (w : oracle pg) (message_ : jsstring) :
  result w (try_block url) = Threw (Error message_) ->
  result w (Home url) =
  Returned [match message_ with
            | [] => paragraph (lit "No videos found.")
            | _ :: _ => paragraph (lit "Error: " ++ message_)
            end].
Proof.
  intros Hr. pose proof (PageFacts.Home_after_fetch url w) as H.
  rewrite Hr in H. destruct message_ as [| c message_]; exact H.
Qed.

(** X12.  What the page shows for a response that is not [ok]: one
    paragraph, made from one value.  That value is the [message] of the
    JSON body when the body is an object and its [message] is truthy,
    whatever its [error]; else its [error] when that is truthy; else, as for
    every body that is not an object, that is null, or that cannot be read
    as JSON, the text [API request failed with status N].  The paragraph is
    [Error: ] followed by what [String] prints for the value; when [String]
    prints nothing the paragraph is [No videos found.], and when the value
    has no string the paragraph is the message of the TypeError. *)
Theorem X12_failed_response_text (url : option jsstring) (w : oracle pg)
        (status : Z) (json : option json_value) :
  w (fetch (or_else url (lit "http://localhost:3000") ++ lit "/api/collect-videos")
           (lit "no-store")) = Returned (failed_response status json) ->
  exists shown,
    result w (Home url) =
    Returned [match String_ shown with
              | Some [] => paragraph (lit "No videos found.")
              | Some text => paragraph (lit "Error: " ++ text)
              | None => paragraph (lit "Error: Cannot convert object to primitive value")
              end] /\
    (forall members m,
        json = Some (JObject members) ->
        member members (lit "message") = Some m -> truthy_value m = true ->
        shown = m) /\
    (forall members e,
        json = Some (JObject members) ->
        falsy_value (member members (lit "message")) = true ->
        member members (lit "error") = Some e -> truthy_value e = true ->
        shown = e) /\
    ((forall members,
         json = Some (JObject members) ->
         falsy_value (member members (lit "message")) = true /\
         falsy_value (member members (lit "error")) = true) ->
     shown = JString (lit "API request failed with status " ++ print_status status)).
Proof.
  intros Hfetch.
  destruct (page_try_block_run url w) as (logs & _ & _ & Hr). cbv zeta in Hr.
  rewrite Hfetch in Hr.
  set (status_text := JString (lit "API request failed with status " ++ print_status status))
    in *.
  assert (Hfalsy : forall a b, falsy_value a = true -> value_or a b = b).
  { intros [v |] b; [| reflexivity]. unfold value_or, falsy_value.
    intros H. apply negb_true_iff in H. rewrite H. reflexivity. }
  assert (Hshown : forall shown,
             result w (try_block url) = Threw (throw_new_Error shown) ->
             result w (Home url) =
             Returned [match String_ shown with
                       | Some [] => paragraph (lit "No videos found.")
                       | Some text => paragraph (lit "Error: " ++ text)
                       | None =>
                           paragraph (lit "Error: Cannot convert object to primitive value")
                       end]).
  { intros shown H. unfold throw_new_Error in H.
    destruct (String_ shown) as [[| c text] |];
      rewrite (Home_shows_thrown url w H); reflexivity. }
  eexists. split; [apply Hshown; exact Hr |].
  split; [| split].
  - intros members m -> Hmember Hm. cbn [property]. rewrite Hmember.
    unfold value_or at 1. rewrite Hm. reflexivity.
  - intros members e -> Hmessage Hmember He. cbn [property].
    rewrite (Hfalsy _ _ Hmessage), Hmember. unfold value_or. rewrite He. reflexivity.
  - intros Hnone. destruct json as [[| b | zero printed | s | elements | members] |];
      try reflexivity.
    destruct (Hnone members eq_refl) as [Hmessage Herror]. cbn [property].
    rewrite (Hfalsy _ _ Hmessage), (Hfalsy _ _ Herror). reflexivity.
Qed.

(** The guard, as a boolean. *)
Lemma render_video_incomplete (video : YouTubeVideoItem) :
  complete video = false -> render_video video = Returned None.
Proof.
  unfold complete, render_video. intros H. apply negb_false_iff in H.
  rewrite H. reflexivity.
Qed.

(** The card of an item, when there is one. *)
Lemma render_video_card (video : YouTubeVideoItem) (c : card) :
  render_video video = Returned (Some c) <->
  exists v t u,
    opt (id video) videoId = Some v /\ truthy v = true /\
    opt (snippet video) title = Some t /\ truthy t = true /\
    opt (opt (opt (snippet video) thumbnails) medium) url = Some u /\ truthy u = true /\
    c = {| key := Some v;
           href := lit "https://www.youtube.com/watch?v=" ++ v;
           thumbnail :=
             Some {| src := u;
                     alt := t;
                     image_width :=
                       number_or (opt (opt (opt (snippet video) thumbnails) medium) width) 320;
                     image_height :=
                       number_or (opt (opt (opt (snippet video) thumbnails) medium) height)
                                 180 |};
           heading_title := Some t;
           heading := Some t |}.
Proof.
  unfold render_video. split.
  - destruct (opt (id video) videoId) as [v |]; [| discriminate].
    unfold falsy at 1. destruct (truthy v) eqn:Hv; cbn [negb orb]; [| discriminate].
    destruct (snippet video) as [sn |] eqn:Hsn; cbn [opt]; [| discriminate].
    destruct (title sn) as [t |] eqn:Ht; [| discriminate].
    unfold falsy at 1. destruct (truthy t) eqn:Htt; cbn [negb orb]; [| discriminate].
    destruct (opt (opt (thumbnails sn) medium) url) as [u |] eqn:Hu; [| discriminate].
    unfold falsy. destruct (truthy u) eqn:Htu; cbn [negb]; [| discriminate].
    cbn [dot]. rewrite Ht. unfold or_else. rewrite Htt.
    intros H. injection H as <-.
    exists v, t, u. repeat split; auto.
  - intros (v & t & u & Hv & Htv & Ht & Htt & Hu & Htu & ->).
    rewrite Hv, Ht, Hu. unfold falsy. rewrite Htv, Htt, Htu. cbn [negb orb].
    destruct (snippet video) as [sn |]; [| discriminate].
    cbn [dot]. cbn [opt] in Ht. rewrite Ht. unfold or_else. rewrite Htt. reflexivity.
Qed.

(** X13.  A card is rendered exactly for an item whose videoId, title and
    thumbnail URL are there and not empty.  It is keyed by the videoId, links
    to the watch page of that videoId, and shows the thumbnail, with the
    title as its alternative text, above the title: the link [#] and the text
    [Video thumbnail] of the source are never rendered. *)
Theorem X13_card_of_a_complete_item (video : YouTubeVideoItem) (c : card) :
  render_video video = Returned (Some c) <->
  exists v t u,
    opt (id video) videoId = Some v /\ truthy v = true /\
    opt (snippet video) title = Some t /\ truthy t = true /\
    opt (opt (opt (snippet video) thumbnails) medium) url = Some u /\ truthy u = true /\
    c = {| key := Some v;
           href := lit "https://www.youtube.com/watch?v=" ++ v;
           thumbnail :=
             Some {| src := u;
                     alt := t;
                     image_width :=
                       number_or (opt (opt (opt (snippet video) thumbnails) medium) width) 320;
                     image_height :=
                       number_or (opt (opt (opt (snippet video) thumbnails) medium) height)
                                 180 |};
           heading_title := Some t;
           heading := Some t |}.
Proof. apply render_video_card. Qed.

(** X14.  The size of the image of a card: a width or a height that the
    thumbnail has and that is not zero is used as it is; zero is taken as
    missing, and gives 320 for the width and 180 for the height. *)
Theorem X14_image_size (video : YouTubeVideoItem) (c : card) (picture : image) :
  render_video video = Returned (Some c) ->
  thumbnail c = Some picture ->
  (forall n, opt (opt (opt (snippet video) thumbnails) medium) width = Some n ->
             image_width picture = if (n =? 0)%Z then 320%Z else n) /\
  (forall n, opt (opt (opt (snippet video) thumbnails) medium) height = Some n ->
             image_height picture = if (n =? 0)%Z then 180%Z else n).
Proof.
  intros Hc Hpicture.
  apply render_video_card in Hc.
  destruct Hc as (v & t & u & _ & _ & _ & _ & _ & _ & ->).
  cbn [thumbnail] in Hpicture. injection Hpicture as <-.
  cbn [image_width image_height]. split; intros n ->; reflexivity.
Qed.

Lemma on_page_length (videos : list YouTubeVideoItem) (cards : list (option card)) :
  render_videos videos = Returned cards ->
  List.length (on_page cards) = List.length (List.filter complete videos) /\
  map key (on_page cards) =
  map (fun video => opt (id video) videoId) (List.filter complete videos).
Proof.
  revert cards. induction videos as [| video videos IH]; simpl; intros cards.
  - intros H. injection H as <-. auto.
  - destruct (render_video video) as [c | e] eqn:Hc; [| discriminate].
    destruct (render_videos videos) as [cs | e]; [| discriminate].
    intros H. injection H as <-. destruct (IH cs eq_refl) as [IH1 IH2].
    destruct (complete video) eqn:Hcomplete.
    + destruct c as [c |].
      * apply render_video_card in Hc.
        destruct Hc as (v & t & u & Hv & _ & _ & _ & _ & _ & ->).
        simpl. rewrite IH1, IH2, Hv. auto.
      * exfalso. unfold render_video in Hc. unfold complete in Hcomplete.
        apply negb_true_iff in Hcomplete. rewrite Hcomplete in Hc.
        destruct (dot (snippet video) title); discriminate.
    + rewrite (render_video_incomplete video Hcomplete) in Hc.
      injection Hc as <-. simpl. auto.
Qed.

(** When the fetch succeeds with a list that is not empty, the page is
    the grid of what the callback gives for its items. *)
Lemma Home_shows_grid (url : option jsstring) (w : oracle pg)
      (video : YouTubeVideoItem) (videos : list YouTubeVideoItem)
      (cards : list (option card)) :
  result w (try_block url) = Returned (video :: videos) ->
  render_videos (video :: videos) = Returned cards ->
  result w (Home url) = Returned [video_grid cards].
Proof.
  intros Hr Hcards. unfold Home.
  rewrite result_bind, PageFacts.fetch_videos_result, Hr.
  cbn [result run fst]. unfold render. cbn [falsy andb].
  replace (0 <? Z.of_nat (List.length (video :: videos)))%Z with true
    by (symmetry; apply Z.ltb_lt; simpl List.length; lia).
  replace (Z.of_nat (List.length (video :: videos)) =? 0)%Z with false
    by (symmetry; apply Z.eqb_neq; simpl List.length; lia).
  rewrite Hcards. reflexivity.
Qed.

(** X15.  The grid shows one card for every complete item of the list, in
    the order of the list, and nothing for the others: when the fetch
    succeeds with a list that is not empty, the page is the grid of these
    cards, and nothing else, even when no item is complete and the grid is
    empty. *)
Theorem X15_grid_of_complete_items (url : option jsstring) (w : oracle pg)
        (video : YouTubeVideoItem) (videos : list YouTubeVideoItem) :
  result w (try_block url) = Returned (video :: videos) ->
  exists cards,
    result w (Home url) = Returned [video_grid cards] /\
    List.length cards = S (List.length videos) /\
    map key (on_page cards) =
    map (fun item => opt (id item) videoId) (List.filter complete (video :: videos)) /\
    (existsb complete (video :: videos) = false -> on_page cards = []).
Proof.
  intros Hr.
  destruct (PageFacts.render_videos_returns (video :: videos)) as [cards [Hcards Hall]].
  exists cards. split; [exact (Home_shows_grid url w Hr Hcards) |].
  destruct (on_page_length (video :: videos) Hcards) as [Hlen Hkeys].
  split; [apply Forall2_length in Hall; simpl in Hall; lia |].
  split; [exact Hkeys |].
  intros Hnone.
  assert (Hfilter : List.filter complete (video :: videos) = []).
  { clear - Hnone. induction (video :: videos) as [| a l IH]; [reflexivity |].
    simpl in Hnone |- *. apply orb_false_iff in Hnone. destruct Hnone as [-> Hl].
    auto. }
  rewrite Hfilter in Hlen. destruct (on_page cards); [reflexivity | discriminate].
Qed.

End PageMore.

(* ================================================================== *)
(** ** The page in front of the listing handler *)
(* ================================================================== *)

Module SiteFacts.
Import Item Site.

(** X16.  When the listing handler answers with a message, which it does
    without a key and when the search call throws, the page shows that
    message after [Error: ], and it is one of the two fixed messages of the
    handler: the error text that the handler adds for a failed search is
    never shown. *)
Theorem X16_page_shows_the_message_of_the_handler
        (NEXT_PUBLIC_APP_URL apiKey : option jsstring) (w : oracle Listing.ls)
        (answer : Listing.NextResponse) (message_ : jsstring) (error_ : option jsstring) :
  result w (Listing.GET apiKey) = Returned answer ->
  Listing.response_body answer = Listing.message_json message_ error_ ->
  page_over_listing NEXT_PUBLIC_APP_URL apiKey w =
  Some (Returned [Page.paragraph (lit "Error: " ++ message_)]) /\
  (message_ = lit "YouTube API Key is not configured on the server." \/
   message_ = lit "Error fetching videos from YouTube API.").
Proof.
  intros Hanswer Hbody.
  assert (Hfacts :
            Listing.status answer = 500%Z /\
            (message_ = lit "YouTube API Key is not configured on the server." \/
             message_ = lit "Error fetching videos from YouTube API.")).
  { revert Hanswer Hbody. destruct (falsy apiKey) eqn:Hfalsy.
    - unfold result. rewrite (ListingFacts.GET_not_configured apiKey w Hfalsy). cbn [fst].
      intros H. injection H as <-. cbn. intros H. injection H as <- <-. auto.
    - destruct apiKey as [key |]; [| discriminate].
      apply negb_false_iff in Hfalsy.
      pose proof (ListingFacts.GET_run key w Hfalsy) as Hrun. cbv zeta in Hrun.
      unfold result.
      destruct (w (Listing.search_list _ _)) as [response | [| err]].
      + rewrite Hrun. cbn [fst]. intros H. injection H as <-. discriminate.
      + rewrite Hrun. discriminate.
      + destruct Hrun as [text Hrun]. rewrite Hrun. cbn [fst].
        intros H. injection H as <-. cbn. intros H. injection H as <- <-. auto. }
  destruct Hfacts as [Hstatus Hmessage]. split; [| exact Hmessage].
  unfold page_over_listing. rewrite Hanswer. unfold over_the_wire.
  rewrite Hbody, Hstatus. cbn [ok Z.leb andb].
  cbn -[Page.Home result lit].
  f_equal.
  apply PageMore.Home_shows_error.
  - destruct (PageMore.page_try_block_run NEXT_PUBLIC_APP_URL
                (served (Page.failed_response 500
                           (Some (Page.JObject
                              ((lit "message", Page.JString message_) ::
                               match error_ with
                               | Some text => [(lit "error", Page.JString text)]
                               | None => []
                               end))))))
      as (logs & _ & _ & Hr).
    cbv zeta in Hr. rewrite Hr. cbn [served].
    assert (Hm : truthy message_ = true) by (destruct Hmessage as [-> | ->]; reflexivity).
    assert (Hmember :
              Page.member ((lit "message", Page.JString message_) ::
                           match error_ with
                           | Some text => [(lit "error", Page.JString text)]
                           | None => []
                           end) (lit "message") = Some (Page.JString message_)).
    { destruct error_; reflexivity. }
    cbn [Page.property]. rewrite Hmember. unfold Page.value_or at 1.
    cbn [Page.truthy_value]. rewrite Hm. reflexivity.
  - destruct Hmessage as [-> | ->]; reflexivity.
Qed.

(** X17.  When the search call returns, the page shows what it returned:
    [No videos found.] when the result has no items or an empty list of
    them, and otherwise the grid of the cards of these very items. *)
Theorem X17_page_shows_the_result_of_the_search
        (NEXT_PUBLIC_APP_URL : option jsstring) (key : jsstring) (w : oracle Listing.ls)
        (response : Listing.search_response) :
  truthy key = true ->
  w (Listing.search_list {| Listing.version := lit "v3"; Listing.auth := key |}
                         {| Listing.part := [lit "snippet"];
                            Listing.q := lit "talk about money";
                            Listing.type := [lit "video"];
                            Listing.maxResults := 10 |}) = Returned response ->
  (Listing.data_items response = None \/ Listing.data_items response = Some [] ->
   page_over_listing NEXT_PUBLIC_APP_URL (Some key) w =
   Some (Returned [Page.paragraph (lit "No videos found.")])) /\
  (forall video videos,
      Listing.data_items response = Some (video :: videos) ->
      exists cards,
        Page.render_videos (video :: videos) = Returned cards /\
        page_over_listing NEXT_PUBLIC_APP_URL (Some key) w =
        Some (Returned [Page.video_grid cards])).
Proof.
  intros Hkey Hsearch.
  pose proof (ListingFacts.GET_run key w Hkey) as Hrun. cbv zeta in Hrun.
  rewrite Hsearch in Hrun.
  assert (Hpage : forall items,
             match Listing.data_items response with
             | Some l => l
             | None => []
             end = items ->
             page_over_listing NEXT_PUBLIC_APP_URL (Some key) w =
             Some (result (served (Page.ok_response (Returned items)))
                          (Page.Home NEXT_PUBLIC_APP_URL)) /\
             result (served (Page.ok_response (Returned items)))
                    (Page.try_block NEXT_PUBLIC_APP_URL) = Returned items).
  { intros items Hitems. unfold page_over_listing, result at 1.
    rewrite Hrun. cbn [fst]. unfold over_the_wire.
    cbn [Listing.response_body Listing.status ok Z.leb andb].
    rewrite Hitems. split; [reflexivity |].
    destruct (PageMore.page_try_block_run NEXT_PUBLIC_APP_URL
                (served (Page.ok_response (Returned items)))) as (logs & _ & _ & Hr).
    cbv zeta in Hr. exact Hr. }
  split.
  - intros Hnone.
    destruct (Hpage []) as [-> Hr]; [destruct Hnone as [-> | ->]; reflexivity |].
    pose proof (PageFacts.Home_after_fetch NEXT_PUBLIC_APP_URL
                  (served (Page.ok_response (Returned [])))) as H.
    rewrite Hr in H. rewrite H. reflexivity.
  - intros video videos Hitems.
    destruct (Hpage (video :: videos)) as [-> Hr]; [rewrite Hitems; reflexivity |].
    destruct (PageFacts.render_videos_returns (video :: videos)) as [cards [Hcards _]].
    exists cards. split; [exact Hcards |].
    rewrite (PageMore.Home_shows_grid NEXT_PUBLIC_APP_URL
               (served (Page.ok_response (Returned (video :: videos)))) Hr Hcards).
    reflexivity.
Qed.

End SiteFacts.

(* ================================================================== *)
(** ** Rendering the items *)
(* ================================================================== *)

Module RenderingFacts.
Import Item Page.

(** C9.  Rendering a list of items never fails, whatever the items lack:
    every item gives a card or nothing.  An item without its videoId, the
    title of its snippet or the URL of its medium thumbnail (or with an empty
    one) gives nothing.  Every other item gives a card with the image of its
    thumbnail, which is 320 wide when the thumbnail has no width (or the
    width zero) and 180 high when it has no height (or the height zero), and
    has the width and the height of the thumbnail otherwise. *)
Theorem C9_rendering_total :
  (forall videos,
      exists cards,
        render_videos videos = Returned cards /\
        Forall2 (fun video c => render_video video = Returned c) videos cards) /\
  (forall video,
      falsy (opt (id video) videoId) = true \/
      falsy (opt (snippet video) title) = true \/
      falsy (opt (opt (opt (snippet video) thumbnails) medium) url) = true ->
      render_video video = Returned None) /\
  (forall video,
      falsy (opt (id video) videoId) = false ->
      falsy (opt (snippet video) title) = false ->
      falsy (opt (opt (opt (snippet video) thumbnails) medium) url) = false ->
      exists c picture,
        render_video video = Returned (Some c) /\
        thumbnail c = Some picture /\
        image_width picture =
        match opt (opt (opt (snippet video) thumbnails) medium) width with
        | None => 320%Z
        | Some n => if (n =? 0)%Z then 320%Z else n
        end /\
        image_height picture =
        match opt (opt (opt (snippet video) thumbnails) medium) height with
        | None => 180%Z
        | Some n => if (n =? 0)%Z then 180%Z else n
        end).
Proof.
  split; [exact PageFacts.render_videos_returns | split].
  - intros video H. unfold render_video.
    destruct H as [-> | [-> | ->]]; rewrite ?orb_true_r; reflexivity.
  - intros video Hid Htitle Hurl.
    destruct (opt (id video) videoId) as [v |] eqn:Hv; [| discriminate].
    destruct (opt (snippet video) title) as [t |] eqn:Ht; [| discriminate].
    destruct (opt (opt (opt (snippet video) thumbnails) medium) url) as [u |] eqn:Hu;
      [| discriminate].
    unfold falsy in Hid, Htitle, Hurl.
    apply negb_false_iff in Hid, Htitle, Hurl.
    eexists. eexists. split.
    + apply PageMore.render_video_card. exists v, t, u. repeat split; eassumption.
    + split; [reflexivity |]. cbn [image_width image_height]. unfold number_or.
      split; reflexivity.
Qed.

Lemma C9_rendering_total_witness :
  (exists cards,
      render_videos [ListingSample.video; PageSample.bare_video] = Returned cards /\
      Forall2 (fun video c => render_video video = Returned c)
              [ListingSample.video; PageSample.bare_video] cards) /\
  render_video PageSample.bare_video = Returned None /\
  (exists c picture,
      render_video ListingSample.video = Returned (Some c) /\
      thumbnail c = Some picture /\
      image_width picture = 320%Z /\
      image_height picture = 180%Z).
Proof.
  split; [| split].
  - apply (proj1 C9_rendering_total).
  - apply (proj1 (proj2 C9_rendering_total)). right. left. reflexivity.
  - apply (proj2 (proj2 C9_rendering_total) ListingSample.video); reflexivity.
Defined.

End RenderingFacts.

(* ================================================================== *)
(** ** The renders of the page *)
(* ================================================================== *)

Module ExchangeFacts.
Import Item Site Calls.

(** The answers of the listing handler, as [fetch] hands them to the
    page. *)
Lemma world_of_answered (apiKey : option jsstring) (w : oracle Listing.ls) :
  match result w (Listing.GET apiKey) with
  | Threw _ => world_of (answered apiKey w) = Some (served internal_server_error)
  | Returned answer =>
      match Listing.response_body answer with
      | Listing.videos_json videos =>
          Listing.status answer = 200%Z /\
          world_of (answered apiKey w) = Some (served (Page.ok_response (Returned videos)))
      | Listing.message_json message_ error_ =>
          Listing.status answer = 500%Z /\
          (message_ = lit "YouTube API Key is not configured on the server." \/
           message_ = lit "Error fetching videos from YouTube API.") /\
          world_of (answered apiKey w) =
          Some (served (Page.failed_response 500
                          (Some (Page.JObject
                                   ((lit "message", Page.JString message_) ::
                                    match error_ with
                                    | Some text => [(lit "error", Page.JString text)]
                                    | None => []
                                    end)))))
      end
  end.
Proof.
  unfold world_of. destruct (falsy apiKey) eqn:Hfalsy.
  - unfold result. rewrite (ListingFacts.GET_not_configured apiKey w Hfalsy).
    cbn. auto.
  - destruct apiKey as [key |]; [| discriminate].
    apply negb_false_iff in Hfalsy.
    pose proof (ListingFacts.GET_run key w Hfalsy) as Hrun. cbv zeta in Hrun.
    unfold result.
    destruct (w (Listing.search_list _ _)) as [response | [| err]].
    + rewrite Hrun. cbn. auto.
    + rewrite Hrun. reflexivity.
    + destruct Hrun as [text Hrun]. rewrite Hrun. cbn. auto.
Qed.

(** The page in front of a message of the handler. *)
Lemma Home_over_message (url : option jsstring) (status : Z)
      (message_ : jsstring) (error_ : option jsstring) :
  truthy message_ = true ->
  result (served (Page.failed_response status
                    (Some (Page.JObject
                             ((lit "message", Page.JString message_) ::
                              match error_ with
                              | Some text => [(lit "error", Page.JString text)]
                              | None => []
                              end)))))
         (Page.Home url) =
  Returned [Page.paragraph (lit "Error: " ++ message_)].
Proof.
  intros Hm. apply PageMore.Home_shows_error; [| exact Hm].
  match goal with
  | |- result ?pw _ = _ =>
      destruct (PageMore.page_try_block_run url pw) as (logs & _ & _ & Hr)
  end.
  cbv zeta in Hr. rewrite Hr. cbn [served].
  assert (Hmember :
            Page.member ((lit "message", Page.JString message_) ::
                         match error_ with
                         | Some text => [(lit "error", Page.JString text)]
                         | None => []
                         end) (lit "message") = Some (Page.JString message_)).
  { destruct error_; reflexivity. }
  cbn [Page.property]. rewrite Hmember. unfold Page.value_or at 1.
  cbn [Page.truthy_value]. rewrite Hm. reflexivity.
Qed.

(** The page in front of the answer of the framework. *)
Lemma Home_over_internal_server_error (url : option jsstring) :
  result (served internal_server_error) (Page.Home url) =
  Returned [Page.paragraph (lit "Error: API request failed with status 500")].
Proof.
  apply (PageMore.Home_shows_error url (served internal_server_error)
           (message_ := lit "API request failed with status 500")); [| reflexivity].
  destruct (PageMore.page_try_block_run url (served internal_server_error))
    as (logs & _ & _ & Hr).
  cbv zeta in Hr. rewrite Hr. reflexivity.
Qed.

(** The page in front of a list of videos. *)
Lemma Home_over_videos (url : option jsstring) (videos : list YouTubeVideoItem) :
  result (served (Page.ok_response (Returned videos))) (Page.try_block url) =
  Returned videos.
Proof.
  destruct (PageMore.page_try_block_run url (served (Page.ok_response (Returned videos))))
    as (logs & _ & _ & Hr).
  cbv zeta in Hr. exact Hr.
Qed.

(** The page whose [fetch] rejects. *)
Lemma Home_unreachable (url : option jsstring) (err : Page.thrown) :
  result (unreachable err) (Page.try_block url) = Threw err.
Proof.
  destruct (PageMore.page_try_block_run url (unreachable err)) as (logs & _ & _ & Hr).
  cbv zeta in Hr. exact Hr.
Qed.

(** Every exchange gives the page a world. *)
Lemma world_of_total (x : exchange) : exists pw, world_of x = Some pw.
Proof.
  destruct x as [apiKey w | c reason]; [| eexists; reflexivity].
  pose proof (world_of_answered apiKey w) as H.
  destruct (result w (Listing.GET apiKey)) as [answer | e]; [| eauto].
  destruct (Listing.response_body answer) as [videos | message_ error_].
  - destruct H as [_ H]. eauto.
  - destruct H as (_ & _ & H). eauto.
Qed.

(** The one [fetch] of a render. *)
Lemma Home_fetches (url : option jsstring) (pw : oracle Page.pg) :
  List.filter is_fetch (trace pw (Page.Home url)) =
  [Page.fetch (or_else url (lit "http://localhost:3000") ++ lit "/api/collect-videos")
              (lit "no-store")].
Proof.
  destruct (PageMore.page_try_block_run url pw) as (logs & Ht & Hlogs & _).
  cbv zeta in Ht.
  unfold Page.Home. rewrite trace_bind.
  replace (trace pw (let '(videos, fetchError) := result pw (Page.fetch_videos url) in
                     Ret (Page.render videos fetchError)))
    with (@nil Page.pg_op)
    by (destruct (result pw (Page.fetch_videos url)); reflexivity).
  unfold Page.fetch_videos, bind_try.
  rewrite trace_try_catch, trace_bind, result_bind, Ht.
  destruct (result pw (Page.try_block url)) as [videos | err];
    unfold Page.do_; step; rewrite ?app_nil_r, ?filter_app; cbn [List.filter is_fetch app].
  all: cbn [op Page.pg] in *; rewrite Hlogs; reflexivity.
Qed.

(** C6.  Every render fetches the listing endpoint, once, and shows what
    came of it.  When the fetch fails the page shows an error text and no
    grid: the message of the handler, which is never empty, when the handler
    answers with one under a status that is not [ok]; the status text when
    the handler throws and the framework answers in its place; the message
    of the rejection when [fetch] rejects.  When the handler answers with an
    empty list the page shows [No videos found.]; when it answers with a list
    that is not empty the page shows the grid of the cards of that list. *)
Theorem C6_fetch_and_cases (NEXT_PUBLIC_APP_URL : option jsstring) (x : exchange) :
  exists pw,
    world_of x = Some pw /\
    List.filter is_fetch (trace pw (Page.Home NEXT_PUBLIC_APP_URL)) =
    [Page.fetch (or_else NEXT_PUBLIC_APP_URL (lit "http://localhost:3000") ++
                 lit "/api/collect-videos")
                (lit "no-store")] /\
    match x with
    | rejected c reason =>
        result pw (Page.Home NEXT_PUBLIC_APP_URL) =
        Returned [Page.paragraph (lit "Error: " ++ c :: reason)]
    | answered apiKey w =>
        match result w (Listing.GET apiKey) with
        | Threw _ =>
            result pw (Page.Home NEXT_PUBLIC_APP_URL) =
            Returned [Page.paragraph (lit "Error: API request failed with status 500")]
        | Returned answer =>
            match Listing.response_body answer with
            | Listing.message_json message_ _ =>
                ok (Listing.status answer) = false /\
                truthy message_ = true /\
                result pw (Page.Home NEXT_PUBLIC_APP_URL) =
                Returned [Page.paragraph (lit "Error: " ++ message_)]
            | Listing.videos_json [] =>
                ok (Listing.status answer) = true /\
                result pw (Page.Home NEXT_PUBLIC_APP_URL) =
                Returned [Page.paragraph (lit "No videos found.")]
            | Listing.videos_json (video :: videos) =>
                ok (Listing.status answer) = true /\
                exists cards,
                  Page.render_videos (video :: videos) = Returned cards /\
                  result pw (Page.Home NEXT_PUBLIC_APP_URL) =
                  Returned [Page.video_grid cards]
            end
        end
    end.
Proof.
  destruct x as [apiKey w | c reason].
  - pose proof (world_of_answered apiKey w) as H.
    destruct (result w (Listing.GET apiKey)) as [answer | e].
    + destruct (Listing.response_body answer) as [videos | message_ error_].
      * destruct H as [Hstatus Hworld]. eexists. split; [exact Hworld |].
        split; [apply Home_fetches |]. rewrite Hstatus.
        destruct videos as [| video videos].
        -- split; [reflexivity |].
           pose proof (PageFacts.Home_after_fetch NEXT_PUBLIC_APP_URL
                         (served (Page.ok_response (Returned [])))) as Hpage.
           rewrite Home_over_videos in Hpage. exact Hpage.
        -- split; [reflexivity |].
           destruct (PageFacts.render_videos_returns (video :: videos))
             as [cards [Hcards _]].
           exists cards. split; [exact Hcards |].
           exact (PageMore.Home_shows_grid NEXT_PUBLIC_APP_URL _
                    (Home_over_videos NEXT_PUBLIC_APP_URL (video :: videos)) Hcards).
      * destruct H as (Hstatus & Hmessage & Hworld).
        assert (Hm : truthy message_ = true)
          by (destruct Hmessage as [-> | ->]; reflexivity).
        eexists. split; [exact Hworld |].
        split; [apply Home_fetches |]. rewrite Hstatus.
        split; [reflexivity |]. split; [exact Hm |].
        apply Home_over_message. exact Hm.
    + eexists. split; [exact H |]. split; [apply Home_fetches |].
      apply Home_over_internal_server_error.
  - eexists. split; [reflexivity |]. split; [apply Home_fetches |].
    apply PageMore.Home_shows_error; [apply Home_unreachable | reflexivity].
Qed.

(** C10.  Every render of the page shows exactly one of the three
    sections, whether its [fetch] is answered by the listing handler, by the
    framework for a handler that throws, or rejects.  When the [try]
    statement is over the list is empty or no error was recorded, and the
    page has one section: the grid when [fetchError] is falsy and the list is
    not empty, [No videos found.] when [fetchError] is falsy and the list is
    empty, the error text when [fetchError] is truthy. *)
Theorem C10_exactly_one_section (NEXT_PUBLIC_APP_URL : option jsstring) (x : exchange) :
  exists pw videos fetchError section,
    world_of x = Some pw /\
    result pw (Page.fetch_videos NEXT_PUBLIC_APP_URL) = (videos, fetchError) /\
    (fetchError = None \/ videos = []) /\
    result pw (Page.Home NEXT_PUBLIC_APP_URL) = Returned [section] /\
    ((falsy fetchError = true /\ videos <> [] /\
      exists cards, Page.render_videos videos = Returned cards /\
                    section = Page.video_grid cards)
     \/ (falsy fetchError = true /\ videos = [] /\
         section = Page.paragraph (lit "No videos found."))
     \/ (falsy fetchError = false /\
         exists message_, fetchError = Some message_ /\
                          section = Page.paragraph (lit "Error: " ++ message_))).
Proof.
  destruct (world_of_total x) as [pw Hworld].
  destruct (PageFacts.Home_one_section NEXT_PUBLIC_APP_URL pw)
    as (videos & fetchError & section & Hfetch & Hempty & Hpage & Hcases).
  exists pw, videos, fetchError, section. auto.
Qed.

End ExchangeFacts.

Module ExchangeExamples.
Import Item Site.

(** The cases of C6 on the sample worlds: no key, no items, one item, and
    a [fetch] that rejects. *)
Lemma C6_fetch_and_cases_witness :
  (exists pw,
      world_of (answered None (ListingSample.world (ListingSample.found None))) = Some pw /\
      result pw (Page.Home None) =
      Returned [Page.paragraph
                  (lit "Error: YouTube API Key is not configured on the server.")]) /\
  (exists pw,
      world_of (answered (Some ListingSample.key)
                         (ListingSample.world (ListingSample.found None))) = Some pw /\
      result pw (Page.Home None) = Returned [Page.paragraph (lit "No videos found.")]) /\
  (exists pw cards,
      world_of (answered (Some ListingSample.key)
                         (ListingSample.world
                            (ListingSample.found (Some [ListingSample.video])))) = Some pw /\
      Page.render_videos [ListingSample.video] = Returned cards /\
      result pw (Page.Home None) = Returned [Page.video_grid cards]) /\
  (exists pw,
      world_of (rejected 102%N (lit "etch failed")) = Some pw /\
      result pw (Page.Home None) = Returned [Page.paragraph (lit "Error: fetch failed")]).
Proof.
  split; [| split; [| split]].
  - destruct (ExchangeFacts.C6_fetch_and_cases None
                (answered None (ListingSample.world (ListingSample.found None))))
      as (pw & Hworld & _ & H).
    exists pw. split; [exact Hworld |]. apply H.
  - destruct (ExchangeFacts.C6_fetch_and_cases None
                (answered (Some ListingSample.key)
                          (ListingSample.world (ListingSample.found None))))
      as (pw & Hworld & _ & H).
    exists pw. split; [exact Hworld |]. apply H.
  - destruct (ExchangeFacts.C6_fetch_and_cases None
                (answered (Some ListingSample.key)
                          (ListingSample.world
                             (ListingSample.found (Some [ListingSample.video])))))
      as (pw & Hworld & _ & _ & cards & Hcards & H).
    exists pw, cards. split; [exact Hworld |]. split; [exact Hcards | exact H].
  - destruct (ExchangeFacts.C6_fetch_and_cases None (rejected 102%N (lit "etch failed")))
      as (pw & Hworld & _ & H).
    exists pw. split; [exact Hworld |]. exact H.
Defined.

Lemma C10_exactly_one_section_witness :
  exists pw videos fetchError section,
    world_of (answered (Some ListingSample.key)
                       (ListingSample.world (Threw Listing.null_or_undefined))) = Some pw /\
    result pw (Page.fetch_videos None) = (videos, fetchError) /\
    (fetchError = None \/ videos = []) /\
    result pw (Page.Home None) = Returned [section] /\
    ((falsy fetchError = true /\ videos <> [] /\
      exists cards, Page.render_videos videos = Returned cards /\
                    section = Page.video_grid cards)
     \/ (falsy fetchError = true /\ videos = [] /\
         section = Page.paragraph (lit "No videos found."))
     \/ (falsy fetchError = false /\
         exists message_, fetchError = Some message_ /\
                          section = Page.paragraph (lit "Error: " ++ message_))).
Proof.
  apply (ExchangeFacts.C10_exactly_one_section None
           (answered (Some ListingSample.key)
                     (ListingSample.world (Threw Listing.null_or_undefined)))).
Defined.

End ExchangeExamples.

(* ================================================================== *)
(** ** The listeners at work *)
(* ================================================================== *)

Module WiringFacts.
Import Download Wiring.

Section Streaming.

Variable validateID : jsstring -> bool.
Variable toLowerCase : jsstring -> jsstring.
Variable request : NextRequest.
Variable w : oracle dl.
Variable s : ReadableStream.
Variable id : jsstring.
Variables source output command : object.

(** A streaming response, and the names of its three components. *)
Hypothesis Hbody :
  response_body (result w (GET validateID toLowerCase request)) = streaming s.
Hypothesis Hid : videoId_of request = Some id.
Hypothesis Hsource :
  w (ytdl (videoUrl id) {| quality := lit "highestvideo";
                           filter := mp4_with_audio_and_video |}) = Returned source.
Hypothesis Houtput : w new_PassThrough = output.
Hypothesis Hcommand : w (ffmpeg source) = Returned command.

(** The three are different objects. *)
Hypothesis source_output : oid source <> oid output.
Hypothesis source_command : oid source <> oid command.
Hypothesis output_command : oid output <> oid command.

Lemma registered_listeners :
  registered (trace w (GET validateID toLowerCase request)) =
  [ {| rid := 0; target := source; event := "readable"; only_once := true;
       callback := log_readable id |};
    {| rid := 1; target := source; event := "data"; only_once := true;
       callback := log_first_chunk id |};
    {| rid := 2; target := source; event := "error"; only_once := false;
       callback := log_stream_error id |};
    {| rid := 3; target := command; event := "start"; only_once := false;
       callback := log_start id |};
    {| rid := 4; target := command; event := "codecData"; only_once := false;
       callback := log_codecData id |};
    {| rid := 5; target := command; event := "progress"; only_once := false;
       callback := log_progress id |};
    {| rid := 6; target := command; event := "error"; only_once := false;
       callback := report_ffmpeg_error id output |};
    {| rid := 7; target := command; event := "end"; only_once := false;
       callback := log_end id |};
    {| rid := 8; target := output; event := "data"; only_once := false;
       callback := enqueue_chunk |};
    {| rid := 9; target := output; event := "end"; only_once := false;
       callback := close_controller id |};
    {| rid := 10; target := output; event := "error"; only_once := false;
       callback := error_controller id |};
    {| rid := 11; target := source; event := "error"; only_once := false;
       callback := forward_stream_error output |} ].
Proof.
  destruct (DownloadFacts.GET_streaming validateID toLowerCase request w Hbody)
    as (id' & info & source' & command' & Hid' & _ & _ & _ & Hsource' & Hcommand' & _ & Ht).
  rewrite Hid in Hid'. injection Hid' as <-.
  rewrite Hsource in Hsource'. injection Hsource' as <-.
  rewrite Hcommand in Hcommand'. injection Hcommand' as <-.
  rewrite Houtput in Ht. rewrite Ht. reflexivity.
Qed.

Lemma apart_so : same_object source output = false.
Proof. apply N.eqb_neq. congruence. Qed.
Lemma apart_os : same_object output source = false.
Proof. apply N.eqb_neq. congruence. Qed.
Lemma apart_sc : same_object source command = false.
Proof. apply N.eqb_neq. congruence. Qed.
Lemma apart_cs : same_object command source = false.
Proof. apply N.eqb_neq. congruence. Qed.
Lemma apart_oc : same_object output command = false.
Proof. apply N.eqb_neq. congruence. Qed.
Lemma apart_co : same_object command output = false.
Proof. apply N.eqb_neq. congruence. Qed.
Lemma same_object_refl (o : object) : same_object o o = true.
Proof. apply N.eqb_refl. Qed.

Ltac emit :=
  repeat (cbn [deliver deliver_all call_all run_listener List.filter target event
               only_once callback rid event_of andb negb react still_there without
               existsb Nat.eqb orb bind call do_ when_ falsy truthy];
          unfold listens;
          cbn [target event];
          rewrite ?apart_so, ?apart_os, ?apart_sc, ?apart_cs, ?apart_oc, ?apart_co,
                  ?same_object_refl;
          cbn [String.eqb Ascii.eqb Bool.eqb andb]).

Lemma chunk_relayed (fuel : nat) (chunk : buffer) (w' : oracle ev) :
  run w' (deliver (S fuel) (registered (trace w (GET validateID toLowerCase request)))
                  output (data chunk)) =
  (registered (trace w (GET validateID toLowerCase request)), [controller_enqueue chunk]).
Proof. rewrite registered_listeners. emit. reflexivity. Qed.

(** X18.  What the command writes reaches the response as it is: for the
    chunks that the pass-through emits, and its end after them, the listeners
    enqueue each chunk on the response stream, in the order of the chunks,
    and close the stream once, after the last chunk. *)
Theorem X18_output_is_relayed (fuel : nat) (chunks : list buffer) (w' : oracle ev) :
  trace w' (deliver_all (S fuel)
              (registered (trace w (GET validateID toLowerCase request)))
              (map (fun chunk => (output, data chunk)) chunks ++ [(output, ended)])) =
  map controller_enqueue chunks ++
  [console log (lit "FFmpeg stream ended for videoId " ++ id ++
                lit ". Closing web stream controller.");
   controller_close].
Proof.
  induction chunks as [| chunk chunks IH].
  - rewrite registered_listeners. cbn [map app deliver_all]. emit. reflexivity.
  - cbn [map app deliver_all].
    rewrite (trace_after w' _ _ (chunk_relayed fuel chunk w')), IH. reflexivity.
Qed.

(** X19.  An error of the source stream ends the response with an error:
    it is logged, and unless the pass-through is destroyed, which it is after
    a cancellation, it is emitted on the pass-through as
    [ytdl stream error: ] and its message, logged there, and given to the
    response stream.  When the pass-through is destroyed the error is logged
    and goes no further. *)
Theorem X19_source_error_reaches_the_response
        (fuel : nat) (message : jsstring) (w' : oracle ev) :
  trace w' (deliver (S (S fuel))
              (registered (trace w (GET validateID toLowerCase request)))
              source (failed message None None)) =
  console error (lit "ytdl stream error for videoId " ++ id ++
                 lit " (this might be before or during ffmpeg processing):")
  :: destroyed output
  :: if w' (destroyed output) then []
     else [emit_error output (lit "ytdl stream error: " ++ message);
           console error (lit "Error in ffmpegOutputPassThrough for videoId " ++ id ++
                          lit ":");
           controller_error (lit "ytdl stream error: " ++ message)].
Proof.
  rewrite registered_listeners. emit. step.
  destruct (w' (destroyed output)); emit; step; reflexivity.
Qed.

(** X20.  An error of the command ends the response with an error: it is
    logged, with a line for its standard output and one for its standard
    error when they are not empty, and unless the pass-through is destroyed
    it is emitted on the pass-through as [FFmpeg processing failed: ], its
    message, [. FFmpeg stderr: ] and the standard error, logged there, and
    given to the response stream. *)
Theorem X20_command_error_reaches_the_response
        (fuel : nat) (message : jsstring) (stdout stderr : option jsstring)
        (w' : oracle ev) :
  trace w' (deliver (S (S fuel))
              (registered (trace w (GET validateID toLowerCase request)))
              command (failed message stdout stderr)) =
  [console error (lit "FFmpeg error during processing for videoId " ++ id ++ lit ":")] ++
  (if falsy stdout then [] else [console error (lit "FFmpeg stdout:")]) ++
  (if falsy stderr then [] else [console error (lit "FFmpeg stderr:")]) ++
  destroyed output
  :: if w' (destroyed output) then []
     else [emit_error output (lit "FFmpeg processing failed: " ++ message ++
                              lit ". FFmpeg stderr: " ++ print stderr);
           console error (lit "Error in ffmpegOutputPassThrough for videoId " ++ id ++
                          lit ":");
           controller_error (lit "FFmpeg processing failed: " ++ message ++
                             lit ". FFmpeg stderr: " ++ print stderr)].
Proof.
  rewrite registered_listeners. emit. step.
  destruct (falsy stdout); destruct (falsy stderr); emit; step;
    destruct (w' (destroyed output)); emit; step; reflexivity.
Qed.

Lemma first_chunk_logged (fuel : nat) (chunk : buffer) (w' : oracle ev) :
  run w' (deliver (S fuel) (registered (trace w (GET validateID toLowerCase request)))
                  source (data chunk)) =
  (without (registered (trace w (GET validateID toLowerCase request)))
           {| rid := 1; target := source; event := "data"; only_once := true;
              callback := log_first_chunk id |},
   [console log (lit "ytdl stream for videoId " ++ id ++
                 lit " produced its first chunk of data, size: " ++
                 print_length chunk)]).
Proof. rewrite registered_listeners. emit. reflexivity. Qed.

Lemma without_first_chunk_log :
  without (registered (trace w (GET validateID toLowerCase request)))
          {| rid := 1; target := source; event := "data"; only_once := true;
             callback := log_first_chunk id |} =
  [ {| rid := 0; target := source; event := "readable"; only_once := true;
       callback := log_readable id |};
    {| rid := 2; target := source; event := "error"; only_once := false;
       callback := log_stream_error id |};
    {| rid := 3; target := command; event := "start"; only_once := false;
       callback := log_start id |};
    {| rid := 4; target := command; event := "codecData"; only_once := false;
       callback := log_codecData id |};
    {| rid := 5; target := command; event := "progress"; only_once := false;
       callback := log_progress id |};
    {| rid := 6; target := command; event := "error"; only_once := false;
       callback := report_ffmpeg_error id output |};
    {| rid := 7; target := command; event := "end"; only_once := false;
       callback := log_end id |};
    {| rid := 8; target := output; event := "data"; only_once := false;
       callback := enqueue_chunk |};
    {| rid := 9; target := output; event := "end"; only_once := false;
       callback := close_controller id |};
    {| rid := 10; target := output; event := "error"; only_once := false;
       callback := error_controller id |};
    {| rid := 11; target := source; event := "error"; only_once := false;
       callback := forward_stream_error output |} ].
Proof. rewrite registered_listeners. reflexivity. Qed.

Lemma later_chunk_silent (fuel : nat) (chunk : buffer) (w' : oracle ev) :
  run w' (deliver (S fuel)
            (without (registered (trace w (GET validateID toLowerCase request)))
                     {| rid := 1; target := source; event := "data"; only_once := true;
                        callback := log_first_chunk id |})
            source (data chunk)) =
  (without (registered (trace w (GET validateID toLowerCase request)))
           {| rid := 1; target := source; event := "data"; only_once := true;
              callback := log_first_chunk id |},
   []).
Proof. rewrite without_first_chunk_log. emit. reflexivity. Qed.

(** X21.  The first chunk of the source stream is logged with its size,
    and only the first: the listener is registered with [once], and for the
    chunks that follow nothing is called. *)
Theorem X21_first_chunk_logged_once
        (fuel : nat) (chunk : buffer) (chunks : list buffer) (w' : oracle ev) :
  trace w' (deliver_all (S fuel)
              (registered (trace w (GET validateID toLowerCase request)))
              (map (fun c => (source, data c)) (chunk :: chunks))) =
  [console log (lit "ytdl stream for videoId " ++ id ++
                lit " produced its first chunk of data, size: " ++
                print_length chunk)].
Proof.
  cbn [map deliver_all].
  rewrite (trace_after w' _ _ (first_chunk_logged fuel chunk w')).
  replace (trace w' (deliver_all (S fuel) _ (map (fun c => (source, data c)) chunks)))
    with (@nil ev_op); [reflexivity |].
  symmetry. induction chunks as [| c chunks IH]; [reflexivity |].
  cbn [map deliver_all].
  rewrite (trace_after w' _ _ (later_chunk_silent fuel c w')). exact IH.
Qed.

(** X22.  Apart from errors, nothing that occurs on the source stream or
    on the command reaches the response stream: whether the source becomes
    readable or has data, or the command starts, reports its codecs, its
    progress or its end, the listeners only log. *)
Theorem X22_other_events_only_log (fuel : nat) (what : occurrence) (w' : oracle ev) :
  event_of what <> "error"%string ->
  forallb WiringCalls.is_console
          (trace w' (deliver (S fuel)
                       (registered (trace w (GET validateID toLowerCase request)))
                       source what)) = true /\
  forallb WiringCalls.is_console
          (trace w' (deliver (S fuel)
                       (registered (trace w (GET validateID toLowerCase request)))
                       command what)) = true.
Proof.
  intros Hwhat. rewrite registered_listeners.
  destruct what as [| chunk | message stdout stderr | commandLine | audio video
                    | timemark percent |];
    cbn [event_of] in Hwhat; try congruence; emit; try (split; reflexivity).
  destruct timemark as [[| c mark] |]; destruct percent as [printed |];
    split; reflexivity.
Qed.

End Streaming.
End WiringFacts.

(* ================================================================== *)
(** ** The further properties on the sample worlds *)
(* ================================================================== *)

Module MoreExamples.

Lemma X1_filename_is_safe_witness :
  (17 <= List.length (Download.filename
                        {| Download.videoDetails_title := Some (lit "A  b/c") |}) <= 116)%nat /\
  forallb Spec.plain (Download.filename
                        {| Download.videoDetails_title := Some (lit "A  b/c") |}) = true /\
  ((65 < 128)%N /\ is_space 65%N = false /\ 65%N <> 34%N /\ 65%N <> 47%N /\ 65%N <> 92%N).
Proof.
  destruct (FilenameFacts.X1_filename_is_safe
              {| Download.videoDetails_title := Some (lit "A  b/c") |})
    as (Hlength & Hplain & Hall).
  split; [exact Hlength |]. split; [exact Hplain |].
  apply Hall. left. reflexivity.
Defined.

Lemma X6_nothing_opened_when_getInfo_rejects_witness :
  result (Sample.world (Sample.rejects (lit "Video unavailable")))
         (Sample.GET Sample.request) =
  result (Sample.world (Sample.rejects (lit "Video unavailable")))
         (Download.catch_block Download.ascii_toLowerCase Sample.id
            (Download.ThrownTruthy (Download.MessageString (lit "Video unavailable")))) /\
  exists logs,
    trace (Sample.world (Sample.rejects (lit "Video unavailable")))
          (Sample.GET Sample.request) =
    Download.ytdl_getInfo (Download.videoUrl Sample.id) :: logs /\
    forallb Calls.is_console logs = true.
Proof.
  apply (DownloadMore.X6_nothing_opened_when_getInfo_rejects
           Download.idRegex_test Download.ascii_toLowerCase Sample.request
           (Sample.world (Sample.rejects (lit "Video unavailable"))) (id := Sample.id));
    reflexivity.
Defined.

Lemma X7_error_text_witness :
  (exists text,
      Download.response_body
        (result (Sample.world (Sample.rejects (lit "Video unavailable")))
                (Sample.GET Sample.request)) = Download.json text (Some Sample.id) /\
      text = lit "Video is unavailable, private, or not found.") /\
  (exists text,
      Download.response_body
        (result (Sample.world (Sample.rejects (lit "Could not parse decipher function")))
                (Sample.GET Sample.request)) = Download.json text (Some Sample.id) /\
      includes text (lit "Could not parse decipher function") = true).
Proof.
  split.
  - destruct (DownloadMore.X7_error_text
                Download.idRegex_test Download.ascii_toLowerCase Sample.request
                (Sample.world (Sample.rejects (lit "Video unavailable")))
                (id := Sample.id) (message := lit "Video unavailable")
                eq_refl eq_refl eq_refl eq_refl)
      as (text & Hbody & Hfixed & _).
    exists text. split; [exact Hbody | apply Hfixed; reflexivity].
  - destruct (DownloadMore.X7_error_text
                Download.idRegex_test Download.ascii_toLowerCase Sample.request
                (Sample.world (Sample.rejects (lit "Could not parse decipher function")))
                (id := Sample.id) (message := lit "Could not parse decipher function")
                eq_refl eq_refl eq_refl eq_refl)
      as (text & Hbody & _ & Hcarried).
    exists text. split; [exact Hbody | apply Hcarried; discriminate].
Defined.

Lemma X8_started_once_and_configured_witness :
  true = true /\
  List.filter Calls.is_pipe
              (trace (Sample.world (Sample.titled None)) (Sample.GET Sample.request)) =
  [Download.pipe Sample.command Sample.pass_through true] /\
  exists before after,
    trace (Sample.world (Sample.titled None)) (Sample.GET Sample.request) =
    before ++ Download.pipe Sample.command Sample.pass_through true :: after /\
    In (Download.setStartTime Sample.command (lit "00:00:00")) before /\
    In (Download.setDuration Sample.command 30) before /\
    In (Download.toFormat Sample.command (lit "mp4")) before /\
    In (Download.outputOptions Sample.command
          [lit "-movflags frag_keyframe+empty_moov";
           lit "-preset ultrafast";
           lit "-tune zerolatency"]) before /\
    existsb Download.is_setting after = false.
Proof.
  apply (DownloadMore.X8_started_once_and_configured
           Download.idRegex_test Download.ascii_toLowerCase Sample.request
           (Sample.world (Sample.titled None))).
  do 16 right. left. reflexivity.
Defined.


Lemma X12_failed_response_text_witness :
  (exists shown,
      result (PageSample.world (Returned MoreSamples.failed_with_message)) (Page.Home None) =
      Returned [match Page.String_ shown with
                | Some [] => Page.paragraph (lit "No videos found.")
                | Some text => Page.paragraph (lit "Error: " ++ text)
                | None =>
                    Page.paragraph (lit "Error: Cannot convert object to primitive value")
                end] /\
      shown = Page.JString (lit "It went wrong.")) /\
  (exists shown,
      result (PageSample.world (Returned (Page.failed_response 502 (Some MoreSamples.a_list))))
             (Page.Home None) =
      Returned [match Page.String_ shown with
                | Some [] => Page.paragraph (lit "No videos found.")
                | Some text => Page.paragraph (lit "Error: " ++ text)
                | None =>
                    Page.paragraph (lit "Error: Cannot convert object to primitive value")
                end] /\
      shown = Page.JString (lit "API request failed with status " ++ Page.print_status 502)).
Proof.
  split.
  - destruct (PageMore.X12_failed_response_text None
                (PageSample.world (Returned MoreSamples.failed_with_message))
                (status := 500)
                (json := Some (Page.JObject
                                 [(lit "message", Page.JString (lit "It went wrong."));
                                  (lit "error", Page.JString (lit "details"))]))
                eq_refl)
      as (shown & Hpage & Hmessage & _).
    exists shown. split; [exact Hpage |].
    apply (Hmessage [(lit "message", Page.JString (lit "It went wrong."));
                     (lit "error", Page.JString (lit "details"))]);
      reflexivity.
  - destruct (PageMore.X12_failed_response_text None
                (PageSample.world
                   (Returned (Page.failed_response 502 (Some MoreSamples.a_list))))
                (status := 502) (json := Some MoreSamples.a_list) eq_refl)
      as (shown & Hpage & _ & _ & Hneither).
    exists shown. split; [exact Hpage |].
    apply Hneither. intros members H. discriminate H.
Defined.

Lemma X13_card_of_a_complete_item_witness :
  exists v t u,
    Page.opt (Item.id ListingSample.video) Item.videoId = Some v /\ truthy v = true /\
    Page.opt (Item.snippet ListingSample.video) Item.title = Some t /\ truthy t = true /\
    Page.opt (Page.opt (Page.opt (Item.snippet ListingSample.video) Item.thumbnails)
                       Item.medium) Item.url = Some u /\
    truthy u = true /\
    {| Page.key := Some (lit "dQw4w9WgXcQ");
       Page.href := lit "https://www.youtube.com/watch?v=dQw4w9WgXcQ";
       Page.thumbnail :=
         Some {| Page.src := lit "https://i.ytimg.com/vi/dQw4w9WgXcQ/mqdefault.jpg";
                 Page.alt := lit "A title";
                 Page.image_width := 320;
                 Page.image_height := 180 |};
       Page.heading_title := Some (lit "A title");
       Page.heading := Some (lit "A title") |} =
    {| Page.key := Some v;
       Page.href := lit "https://www.youtube.com/watch?v=" ++ v;
       Page.thumbnail :=
         Some {| Page.src := u;
                 Page.alt := t;
                 Page.image_width :=
                   Page.number_or
                     (Page.opt (Page.opt (Page.opt (Item.snippet ListingSample.video)
                                                   Item.thumbnails) Item.medium)
                               Item.width) 320;
                 Page.image_height :=
                   Page.number_or
                     (Page.opt (Page.opt (Page.opt (Item.snippet ListingSample.video)
                                                   Item.thumbnails) Item.medium)
                               Item.height) 180 |};
       Page.heading_title := Some t;
       Page.heading := Some t |}.
Proof.
  apply (proj1 (PageMore.X13_card_of_a_complete_item ListingSample.video _)).
  reflexivity.
Defined.

Lemma X14_image_size_witness :
  320%Z = (if (0 =? 0)%Z then 320%Z else 0%Z) /\
  90%Z = (if (90 =? 0)%Z then 180%Z else 90%Z).
Proof.
  destruct (PageMore.X14_image_size MoreSamples.flat_video
              (c := {| Page.key := Some (lit "dQw4w9WgXcQ");
                       Page.href := lit "https://www.youtube.com/watch?v=dQw4w9WgXcQ";
                       Page.thumbnail :=
                         Some {| Page.src := lit "https://i.ytimg.com/vi/x/mq.jpg";
                                 Page.alt := lit "A title";
                                 Page.image_width := 320;
                                 Page.image_height := 90 |};
                       Page.heading_title := Some (lit "A title");
                       Page.heading := Some (lit "A title") |})
              (picture := {| Page.src := lit "https://i.ytimg.com/vi/x/mq.jpg";
                             Page.alt := lit "A title";
                             Page.image_width := 320;
                             Page.image_height := 90 |})
              eq_refl eq_refl) as [Hwidth Hheight].
  split; [apply (Hwidth 0%Z) | apply (Hheight 90%Z)]; reflexivity.
Defined.

Lemma X15_grid_of_complete_items_witness :
  exists cards,
    result (PageSample.world (Returned (Page.ok_response (Returned [PageSample.bare_video]))))
           (Page.Home None) = Returned [Page.video_grid cards] /\
    List.length cards = 1%nat /\
    map Page.key (Cards.on_page cards) =
    map (fun item => Page.opt (Item.id item) Item.videoId)
        (List.filter Cards.complete [PageSample.bare_video]) /\
    Cards.on_page cards = [].
Proof.
  destruct (PageMore.X15_grid_of_complete_items None
              (PageSample.world (Returned (Page.ok_response (Returned [PageSample.bare_video]))))
              (video := PageSample.bare_video) (videos := []) eq_refl)
    as (cards & Hhome & Hlength & Hkeys & Hnone).
  exists cards. split; [exact Hhome |]. split; [exact Hlength |].
  split; [exact Hkeys |]. apply Hnone. reflexivity.
Defined.

Lemma X16_page_shows_the_message_of_the_handler_witness :
  Site.page_over_listing None None (ListingSample.world (ListingSample.found None)) =
  Some (Returned [Page.paragraph
                    (lit "Error: " ++ lit "YouTube API Key is not configured on the server.")]) /\
  (lit "YouTube API Key is not configured on the server." =
   lit "YouTube API Key is not configured on the server." \/
   lit "YouTube API Key is not configured on the server." =
   lit "Error fetching videos from YouTube API.").
Proof.
  apply (SiteFacts.X16_page_shows_the_message_of_the_handler None None
           (ListingSample.world (ListingSample.found None))
           (answer := {| Listing.status := 500;
                         Listing.response_body :=
                           Listing.message_json
                             (lit "YouTube API Key is not configured on the server.")
                             None |})
           (error_ := None));
    reflexivity.
Defined.

Lemma X17_page_shows_the_result_of_the_search_witness :
  Site.page_over_listing None (Some ListingSample.key)
                         (ListingSample.world (ListingSample.found None)) =
  Some (Returned [Page.paragraph (lit "No videos found.")]) /\
  exists cards,
    Page.render_videos [ListingSample.video] = Returned cards /\
    Site.page_over_listing None (Some ListingSample.key)
                           (ListingSample.world (ListingSample.found
                                                   (Some [ListingSample.video]))) =
    Some (Returned [Page.video_grid cards]).
Proof.
  split.
  - apply (proj1 (@SiteFacts.X17_page_shows_the_result_of_the_search None
                    ListingSample.key (ListingSample.world (ListingSample.found None))
                    {| Listing.data_items := None |} eq_refl eq_refl)).
    left. reflexivity.
  - apply (proj2 (@SiteFacts.X17_page_shows_the_result_of_the_search None
                    ListingSample.key
                    (ListingSample.world (ListingSample.found (Some [ListingSample.video])))
                    {| Listing.data_items := Some [ListingSample.video] |}
                    eq_refl eq_refl)
             ListingSample.video []).
    reflexivity.
Defined.

(** The listeners that the sample download has registered. *)
Lemma X18_output_is_relayed_witness :
  trace (MoreSamples.listeners_world false)
        (Wiring.deliver_all 1
           (Wiring.registered
              (trace (Sample.world (Sample.titled None))
                     (Download.GET Download.idRegex_test Download.ascii_toLowerCase
                                   Sample.request)))
           (map (fun chunk => (Sample.pass_through, Wiring.data chunk))
                [[0; 0; 0; 24]%N; [102; 116]%N] ++
            [(Sample.pass_through, Wiring.ended)])) =
  map Wiring.controller_enqueue [[0; 0; 0; 24]%N; [102; 116]%N] ++
  [Wiring.console Download.log
     (lit "FFmpeg stream ended for videoId " ++ Sample.id ++
      lit ". Closing web stream controller.");
   Wiring.controller_close].
Proof.
  apply WiringFacts.X18_output_is_relayed
    with (s := Sample.response_stream) (source := Sample.source_stream)
         (command := Sample.command);
    first [reflexivity | discriminate].
Defined.

Lemma X19_source_error_reaches_the_response_witness :
  trace (MoreSamples.listeners_world false)
        (Wiring.deliver 2
           (Wiring.registered
              (trace (Sample.world (Sample.titled None))
                     (Download.GET Download.idRegex_test Download.ascii_toLowerCase
                                   Sample.request)))
           Sample.source_stream (Wiring.failed (lit "aborted") None None)) =
  Wiring.console Download.error
    (lit "ytdl stream error for videoId " ++ Sample.id ++
     lit " (this might be before or during ffmpeg processing):")
  :: Wiring.destroyed Sample.pass_through
  :: (if MoreSamples.listeners_world false (Wiring.destroyed Sample.pass_through) then []
      else [Wiring.emit_error Sample.pass_through (lit "ytdl stream error: " ++ lit "aborted");
            Wiring.console Download.error
              (lit "Error in ffmpegOutputPassThrough for videoId " ++ Sample.id ++ lit ":");
            Wiring.controller_error (lit "ytdl stream error: " ++ lit "aborted")]).
Proof.
  apply WiringFacts.X19_source_error_reaches_the_response
    with (s := Sample.response_stream) (command := Sample.command);
    first [reflexivity | discriminate].
Defined.

Lemma X20_command_error_reaches_the_response_witness :
  trace (MoreSamples.listeners_world false)
        (Wiring.deliver 2
           (Wiring.registered
              (trace (Sample.world (Sample.titled None))
                     (Download.GET Download.idRegex_test Download.ascii_toLowerCase
                                   Sample.request)))
           Sample.command
           (Wiring.failed (lit "ffmpeg exited with code 1") None
                          (Some (lit "Invalid data found")))) =
  [Wiring.console Download.error
     (lit "FFmpeg error during processing for videoId " ++ Sample.id ++ lit ":")] ++
  (if falsy None then [] else [Wiring.console Download.error (lit "FFmpeg stdout:")]) ++
  (if falsy (Some (lit "Invalid data found")) then []
   else [Wiring.console Download.error (lit "FFmpeg stderr:")]) ++
  Wiring.destroyed Sample.pass_through
  :: (if MoreSamples.listeners_world false (Wiring.destroyed Sample.pass_through) then []
      else [Wiring.emit_error Sample.pass_through
              (lit "FFmpeg processing failed: " ++ lit "ffmpeg exited with code 1" ++
               lit ". FFmpeg stderr: " ++ Wiring.print (Some (lit "Invalid data found")));
            Wiring.console Download.error
              (lit "Error in ffmpegOutputPassThrough for videoId " ++ Sample.id ++ lit ":");
            Wiring.controller_error
              (lit "FFmpeg processing failed: " ++ lit "ffmpeg exited with code 1" ++
               lit ". FFmpeg stderr: " ++ Wiring.print (Some (lit "Invalid data found")))]).
Proof.
  apply WiringFacts.X20_command_error_reaches_the_response
    with (s := Sample.response_stream) (source := Sample.source_stream);
    first [reflexivity | discriminate].
Defined.

Lemma X21_first_chunk_logged_once_witness :
  trace (MoreSamples.listeners_world false)
        (Wiring.deliver_all 1
           (Wiring.registered
              (trace (Sample.world (Sample.titled None))
                     (Download.GET Download.idRegex_test Download.ascii_toLowerCase
                                   Sample.request)))
           (map (fun c => (Sample.source_stream, Wiring.data c))
                ([0; 0; 0; 24]%N :: [[102; 116]%N; [121]%N]))) =
  [Wiring.console Download.log
     (lit "ytdl stream for videoId " ++ Sample.id ++
      lit " produced its first chunk of data, size: " ++
      Wiring.print_length [0; 0; 0; 24]%N)].
Proof.
  apply WiringFacts.X21_first_chunk_logged_once
    with (s := Sample.response_stream) (output := Sample.pass_through)
         (command := Sample.command);
    first [reflexivity | discriminate].
Defined.

Lemma X22_other_events_only_log_witness :
  forallb WiringCalls.is_console
          (trace (MoreSamples.listeners_world false)
                 (Wiring.deliver 1
                    (Wiring.registered
                       (trace (Sample.world (Sample.titled None))
                              (Download.GET Download.idRegex_test Download.ascii_toLowerCase
                                            Sample.request)))
                    Sample.source_stream
                    (Wiring.progressed None (Some (lit "12.50"))))) = true /\
  forallb WiringCalls.is_console
          (trace (MoreSamples.listeners_world false)
                 (Wiring.deliver 1
                    (Wiring.registered
                       (trace (Sample.world (Sample.titled None))
                              (Download.GET Download.idRegex_test Download.ascii_toLowerCase
                                            Sample.request)))
                    Sample.command
                    (Wiring.progressed None (Some (lit "12.50"))))) = true.
Proof.
  apply WiringFacts.X22_other_events_only_log
    with (s := Sample.response_stream) (id := Sample.id) (output := Sample.pass_through);
    first [reflexivity | discriminate].
Defined.

End MoreExamples.
